(** * Selection-Connection marketplace: order lifecycle and royalty settlement

    A shallow embedding of the Supabase Edge Functions

      - [create-checkout]   (supabase/functions/create-checkout/index.ts)
      - [stripe-webhook]    (POST /stripe-webhook)
      - [resend-download]   (POST /resend-download)
      - [download]          (GET /download?token=...)

    and of [SC_API.isFeatureEnabled] (js/sc-api.js), together with the
    properties of the order ledger, the royalty calculator and the download
    credential manager that are stated about them; further, of

      - [admin-overrides]   (supabase/functions/admin-overrides/index.ts)
      - [verify-earning]    (POST /verify-earning)
      - [stripe-onboarding] (supabase/functions/stripe-onboarding/index.ts)
      - [hasOriginatorRole] of upload-file

    which write the feature flags, the members and their roles.

    Modelling conventions.

    - The database is a record of tables.  [orders], [payouts], [files] and
      [file_royalty_chain] are lists of rows (inserts append, nothing is ever
      deleted); [override_controls], which is only ever read by its primary
      key, is a finite map from [feature_key] to [enabled].  Its
      [updated_at] column, which only admin-overrides writes and returns,
      is kept beside the database in the state of that function.
    - A query [.eq(col, v).single()] yields a row exactly when one row
      matches; an update [.update(..).eq("id", v)] rewrites every row whose
      id matches.
    - Everything a function obtains from outside the database is an explicit
      input of its embedding: the parsed request, the answer of the identity
      service ([getAuthUser]), [crypto.randomUUID()], the clock, and one
      boolean per database call telling whether that call came back with an
      error.
    - Timestamps are milliseconds since the epoch.
    - JavaScript numbers are IEEE-754 binary64 values.  The two places where
      the code leaves the integers ([priceCents * 1.10] and [... / 10000])
      are modelled with exact rationals and an explicit round-to-nearest,
      ties-to-even step ([fl]); sums and differences of column values
      (32-bit INTEGER columns, clock readings) are exact in binary64 and are
      written with integer arithmetic.
    - Delivery e-mail is a stub in the source that only logs; it leaves no
      trace in the modelled state.
    - Tables carry the columns the functions name in their queries
      ([stripe_session_id], [share_basis_points], [position], ...); the
      column types and defaults are those of
      supabase/migrations/001_initial_schema.sql. *)

From Stdlib Require Import ZArith QArith Qround Qpower Qabs Qreduction Lia Ascii.
From Stdlib Require Import Floats.SpecFloat.
From stdpp Require Import base list sorting relations strings gmap.

(* ======================================================================= *)
(** * Part I — the embedding                                                *)
(* ======================================================================= *)

(** ** JavaScript numbers *)

Module JSNumber.
Local Open Scope Q_scope.

(** [pow2 e] is 2^e, for any integer exponent. *)
Definition pow2 (e : Z) : Q := (2 # 1) ^ e.

(** [binade x] is the binary exponent of a positive [x]:
    2^(binade x) <= x < 2^(binade x + 1). *)
Definition binade (x : Q) : Z :=
  let e0 := (Z.log2 (Qnum x) - Z.log2 (Zpos (Qden x)))%Z in
  if Qle_bool (pow2 e0) x then e0 else (e0 - 1)%Z.

(** Nearest integer, ties to the even one. *)
Definition rne (y : Q) : Z :=
  let f := Qfloor y in
  match Qcompare (y - inject_Z f) (1 # 2) with
  | Lt => f
  | Gt => (f + 1)%Z
  | Eq => if Z.even f then f else (f + 1)%Z
  end.

(** Unit in the last place of the 53-bit significand of [x]. *)
Definition ulp (x : Q) : Q := pow2 (binade (Qabs (Qred x)) - 52).

(** [fl x] is the binary64 value nearest to the real [x] (normal range:
    no overflow, no subnormals — the operands here are integers below
    2^53 and their quotients by 10000). *)
Definition fl (x : Q) : Q :=
  if Qeq_bool (Qred x) 0 then 0
  else inject_Z (rne (Qred x / ulp x)) * ulp x.

(** The [*] and [/] of the language: exact result, then one rounding. *)
Definition js_mul (x y : Q) : Q := fl (x * y).
Definition js_div (x y : Q) : Q := fl (x / y).

(** [Math.round]: nearest integer, ties towards +infinity. *)
Definition Math_round (x : Q) : Z := Qfloor (x + (1 # 2)).

(** An integer column value read into a number. *)
Definition of_int (n : Z) : Q := inject_Z n.
End JSNumber.

Import JSNumber.

(** The standard library's executable specification of IEEE 754 arithmetic
    ([SpecFloat], here at precision 53 and maximal exponent 1024), read back
    as rationals: the reference [fl] is compared with below. *)
Definition SF2Q (x : spec_float) : option Q :=
  match x with
  | S754_zero _ => Some 0%Q
  | S754_finite s m e =>
    Some ((if s then - (1) else 1) * inject_Z (Z.pos m) * pow2 e)%Q
  | S754_infinity _ | S754_nan => None
  end.

Definition SFint (n : positive) : spec_float := S754_finite false n 0.

Definition agrees (reference : spec_float) (x : Q) : bool :=
  match SF2Q reference with
  | Some y => Qeq_bool y x
  | None => false
  end.

(** Prices and products the comparison is run on. *)
Definition binary64_samples : list positive :=
  [1; 2; 3; 5; 7; 15; 25; 99; 105; 500; 4999; 5000; 5001; 12345; 15000;
   999999999; 2147483645; 2147483647; 21474836470000]%positive.

(** Round-half-up of an exact rational: the rounding rule the design
    documents refer to as [round]. *)
Definition round_half_up (x : Q) : Z := Qfloor (x + (1 # 2))%Q.

Local Open Scope Z_scope.

(** ** Tables *)

Inductive PaymentStatus := pending | paid | failed | refunded.
Inductive Stage := draft | listed | unlisted | removed.
Inductive PayoutStatus := payout_pending | payout_transferred | payout_failed.

#[global] Instance PaymentStatus_eq_dec : EqDecision PaymentStatus.
Proof. solve_decision. Defined.
#[global] Instance Stage_eq_dec : EqDecision Stage.
Proof. solve_decision. Defined.
#[global] Instance PayoutStatus_eq_dec : EqDecision PayoutStatus.
Proof. solve_decision. Defined.

(** A row of [orders] (the columns the functions read or write). *)
Record Order := mkOrder {
  o_id : string;
  o_file_id : string;
  buyer_email : string;
  stripe_session_id : option string;
  payment_status : PaymentStatus;
  total_cents : Z;
  pif_fee_cents : Z;
  download_token : option string;
  download_expires_at : option Z;
  downloaded_at : option Z;
  download_attempts : option Z;
  delivery_email_retries : option Z;
  paid_at : option Z
}.

(** A row of [files]. *)
Record FileRow := mkFile {
  f_id : string;
  title : string;
  price_cents : Z;
  stage : Stage;
  storage_path : string
}.

(** A row of [file_royalty_chain]. *)
Record RoyaltyEntry := mkRoyalty {
  rc_file_id : string;
  member_id : string;
  share_basis_points : Z;
  position : Z
}.

(** A row of [payouts]. *)
Record Payout := mkPayout {
  p_order_id : string;
  p_member_id : string;
  amount_cents : Z;
  p_status : PayoutStatus
}.

Record DB := mkDB {
  orders : list Order;
  payouts : list Payout;
  files : list FileRow;
  file_royalty_chain : list RoyaltyEntry;
  override_controls : gmap string bool
}.

Definition set_orders (f : list Order → list Order) (db : DB) : DB :=
  mkDB (f (orders db)) (payouts db) (files db) (file_royalty_chain db)
       (override_controls db).

Definition set_payouts (f : list Payout → list Payout) (db : DB) : DB :=
  mkDB (orders db) (f (payouts db)) (files db) (file_royalty_chain db)
       (override_controls db).

(** ** Queries *)

(** [.single()]: the row, when exactly one row matches. *)
Definition single {A} (rows : list A) : option A :=
  match rows with
  | [r] => Some r
  | _ => None
  end.

(** [{ data, error } = await ... .single()]; [err] says the call failed. *)
Definition select_single {A} (err : bool) (rows : list A) : option A :=
  if err then None else single rows.

(** [.update(f).eq(col, v)]. *)
Definition update_where {A} (P : A → Prop) `{!∀ r, Decision (P r)}
    (f : A → A) (rows : list A) : list A :=
  (λ r, if decide (P r) then f r else r) <$> rows.

Definition orders_by_session (sessionId : string) (db : DB) : list Order :=
  filter (λ o, stripe_session_id o = Some sessionId) (orders db).

Definition orders_by_id (id : string) (db : DB) : list Order :=
  filter (λ o, o_id o = id) (orders db).

Definition orders_by_token (token : string) (db : DB) : list Order :=
  filter (λ o, download_token o = Some token) (orders db).

Definition files_by_id (id : string) (db : DB) : list FileRow :=
  filter (λ f, f_id f = id) (files db).

Definition position_le (a b : RoyaltyEntry) : Prop := position a ≤ position b.

#[global] Instance position_le_dec a b : Decision (position_le a b).
Proof. unfold position_le. apply _. Defined.

(** [.from("file_royalty_chain").select(..).eq("file_id", id)
      .order("position", { ascending: true })]: [None] on error. *)
Definition royalty_chain_of (file_id : string) (db : DB) : list RoyaltyEntry :=
  merge_sort position_le
    (filter (λ e, rc_file_id e = file_id) (file_royalty_chain db)).

Definition select_royalty_chain (err : bool) (file_id : string) (db : DB)
    : option (list RoyaltyEntry) :=
  if err then None else Some (royalty_chain_of file_id db).

(** ** Responses *)

Inductive Body :=
| ErrorBody (error : string)            (* { error: ... } *)
| CheckoutUrl (checkout_url : string)   (* { checkout_url } *)
| Received (handled : option bool)      (* { received: true [, handled] } *)
| SuccessBody                           (* { success: true } *)
| OkBody                                (* "ok", the CORS preflight answer *)
| Redirect (location : string).         (* null body, Location header *)

Record Response := mkResponse { status : Z; body : Body }.

Definition error_response (st : Z) (msg : string) : Response :=
  mkResponse st (ErrorBody msg).

(** ** Request handlers: database state with early return *)

(** A handler step reads and writes the database and either goes on with a
    value ([inr]) or has already returned a response ([inl]). *)
Definition Handler (A : Type) : Type := DB → DB * (Response + A).

#[global] Instance handler_ret : MRet Handler := λ A a db, (db, inr a).
#[global] Instance handler_bind : MBind Handler := λ A B k m db,
  match m db with
  | (db', inl r) => (db', inl r)
  | (db', inr a) => k a db'
  end.

(** [return new Response(...)]. *)
Definition respond {A} (r : Response) : Handler A := λ db, (db, inl r).

(** [if (c) return r;] *)
Definition reject_if (c : bool) (r : Response) : Handler unit :=
  if c then respond r else mret ().

Definition query {A} (f : DB → A) : Handler A := λ db, (db, inr (f db)).
Definition modify (f : DB → DB) : Handler unit := λ db, (f db, inr ()).

(** Run a handler on a database. *)
Definition serve (h : Handler Response) (db : DB) : DB * Response :=
  match h db with
  | (db', inl r) => (db', r)
  | (db', inr r) => (db', r)
  end.

(** [!v] for a JSON string field that may be absent. *)
Definition falsy (v : option string) : bool :=
  match v with
  | None => true
  | Some s => bool_decide (s = "")
  end.

(** [if (!v) return r;] and from then on [v] is a non-empty string. *)
Definition required (v : option string) (r : Response) : Handler string :=
  match v with
  | Some s => if falsy v then respond r else mret s
  | None => respond r
  end.

(** The [catch] of every [serve] callback. *)
Definition internal_server_error : Response :=
  error_response 500 "Internal server error".

(** [await req.json()] throws on a body that is not JSON. *)
Definition req_json {A} (parsed : option A) : Handler A :=
  match parsed with
  | Some v => mret v
  | None => respond internal_server_error
  end.

(** The identity service's answer to [getAuthUser]. *)
Record User := mkUser { user_id : string; user_email : option string }.

(** ** create-checkout *)

(** [1.10], the literal: the binary64 value nearest to 11/10. *)
Definition pifFeeMultiplier : Q := fl (11 # 10).

(** [Math.round((priceCents * entry.share_basis_points) / 10000)], the
    expression of [calculatePricing] and of [handleCheckoutCompleted]. *)
Definition royalty_amount (priceCents share_basis_points : Z) : Z :=
  Math_round
    (js_div (js_mul (of_int priceCents) (of_int share_basis_points))
            (of_int 10000)).

(** [{ ...entry, amount_cents }]. *)
Record PayoutLine := mkPayoutLine {
  pl_entry : RoyaltyEntry;
  pl_amount_cents : Z
}.

Record Pricing := mkPricing {
  pr_total_cents : Z;
  pr_pif_fee_cents : Z;
  pr_base_price_cents : Z;
  pr_payouts : list PayoutLine
}.

Definition calculatePricing (priceCents : Z) (royaltyChain : list RoyaltyEntry)
    : Pricing :=
  let totalCents := Math_round (js_mul (of_int priceCents) pifFeeMultiplier) in
  let pifFeeCents := totalCents - priceCents in
  let payouts :=
    (λ entry, mkPayoutLine entry
                (royalty_amount priceCents (share_basis_points entry)))
      <$> royaltyChain in
  mkPricing totalCents pifFeeCents priceCents payouts.

(** [isPurchaseEnabled]: the [marketplace_purchase] row of
    [override_controls], and nothing else. *)
Definition isPurchaseEnabled (err : bool) (db : DB) : bool :=
  match (if err then None else override_controls db !! "marketplace_purchase") with
  | None => false
  | Some enabled => enabled
  end.

Record CheckoutFields := mkCheckoutFields {
  cf_file_id : option string;
  cf_buyer_email : option string
}.

Record CheckoutRequest := mkCheckoutRequest {
  cr_method : string;
  cr_json : option CheckoutFields
}.

Record CheckoutEnv := mkCheckoutEnv {
  ce_flag_error : bool;
  ce_file_error : bool;
  ce_royalty_error : bool;
  ce_insert_error : bool;
  ce_session_uuid : string;
  ce_order_uuid : string
}.

(** The row inserted by create-checkout; the columns it does not name take
    their defaults. *)
Definition pending_order (orderId file_id buyer_email mockSessionId : string)
    (pricing : Pricing) : Order :=
  {| o_id := orderId;
     o_file_id := file_id;
     buyer_email := buyer_email;
     stripe_session_id := Some mockSessionId;
     payment_status := pending;
     total_cents := pr_total_cents pricing;
     pif_fee_cents := pr_pif_fee_cents pricing;
     download_token := None;
     download_expires_at := None;
     downloaded_at := None;
     download_attempts := Some 0;
     delivery_email_retries := Some 0;
     paid_at := None |}.

Definition create_checkout (req : CheckoutRequest) (env : CheckoutEnv)
    : Handler Response :=
  if bool_decide (cr_method req = "OPTIONS") then respond (mkResponse 200 OkBody)
  else
    reject_if (negb (bool_decide (cr_method req = "POST")))
      (error_response 405 "Method not allowed");;
    fields ← req_json (cr_json req);
    let missing :=
      error_response 400 "Missing required fields: file_id, buyer_email" in
    file_id ← required (cf_file_id fields) missing;
    buyer_email ← required (cf_buyer_email fields) missing;
    purchaseEnabled ← query (isPurchaseEnabled (ce_flag_error env));
    reject_if (negb purchaseEnabled)
      (error_response 403 "Marketplace purchases are currently disabled");;
    fileRow ← query (λ db, select_single (ce_file_error env) (files_by_id file_id db));
    match fileRow with
    | None => respond (error_response 404 "File not found")
    | Some fileRow =>
      reject_if (negb (bool_decide (stage fileRow = listed)))
        (error_response 422 "File is not currently listed for sale");;
      royaltyChain ← query (select_royalty_chain (ce_royalty_error env) file_id);
      match royaltyChain with
      | None | Some [] =>
        respond (error_response 500 "Royalty chain not configured for this file")
      | Some royaltyChain =>
        let pricing := calculatePricing (price_cents fileRow) royaltyChain in
        let mockSessionId := "cs_test_" +:+ ce_session_uuid env in
        let checkoutUrl := "https://checkout.stripe.com/pay/" +:+ mockSessionId in
        let orderId := ce_order_uuid env in
        (if ce_insert_error env
         then respond (error_response 500 "Failed to create order")
         else modify (set_orders (λ os,
                os ++ [pending_order orderId file_id buyer_email mockSessionId pricing])));;
        respond (mkResponse 200 (CheckoutUrl checkoutUrl))
      end
    end.

(** ** js/sc-api.js: [isFeatureEnabled] *)

(** [.maybeSingle()] on the primary key: the row or null. *)
Definition isFeatureEnabled (db : DB) (featureKey : string) : bool :=
  match override_controls db !! "master_switch" with
  | None | Some false => false                      (* first check master switch *)
  | Some true =>
    match override_controls db !! featureKey with   (* then the specific feature *)
    | Some enabled => enabled
    | None => false
    end
  end.

(** ** stripe-webhook *)

Record Metadata := mkMetadata {
  md_file_id : option string;
  md_buyer_email : option string
}.

(** [event.data.object]: a checkout session or a payment intent. *)
Record StripeObject := mkStripeObject {
  so_id : string;
  so_metadata : option Metadata
}.

Record StripeEvent := mkStripeEvent {
  ev_type : option string;
  ev_object : option StripeObject
}.

Record WebhookRequest := mkWebhookRequest {
  wr_method : string;
  wr_signature : option string;      (* the Stripe-Signature header *)
  wr_json : option StripeEvent       (* what JSON.parse makes of the body *)
}.

Record WebhookEnv := mkWebhookEnv {
  we_uuid : string;
  we_now_expiry : Z;                 (* Date.now() *)
  we_now_paid : Z;                   (* new Date() *)
  we_order_error : bool;
  we_update_error : bool;
  we_royalty_error : bool;
  we_payout_error : bool
}.

(** The stub: a missing signature is refused, anything else is trusted. *)
Definition verifyStripeSignature (body : option StripeEvent)
    (signature : option string) : option StripeEvent :=
  if falsy signature then None else body.

(** [.update({ payment_status: "paid", download_token, download_expires_at,
      paid_at })]. *)
Definition mark_paid (downloadToken : string) (downloadExpiresAt paidAt : Z)
    (o : Order) : Order :=
  {| o_id := o_id o;
     o_file_id := o_file_id o;
     buyer_email := buyer_email o;
     stripe_session_id := stripe_session_id o;
     payment_status := paid;
     total_cents := total_cents o;
     pif_fee_cents := pif_fee_cents o;
     download_token := Some downloadToken;
     download_expires_at := Some downloadExpiresAt;
     downloaded_at := downloaded_at o;
     download_attempts := download_attempts o;
     delivery_email_retries := delivery_email_retries o;
     paid_at := Some paidAt |}.

(** The rows [royaltyChain.map(...)] builds for one order. *)
Definition payout_rows (order : Order) (royaltyChain : list RoyaltyEntry)
    : list Payout :=
  let basePriceCents := total_cents order - pif_fee_cents order in
  (λ entry, mkPayout (o_id order) (member_id entry)
              (royalty_amount basePriceCents (share_basis_points entry))
              payout_pending)
    <$> royaltyChain.

Definition handleCheckoutCompleted (session : StripeObject) (env : WebhookEnv)
    : Handler Response :=
  let sessionId := so_id session in
  let missing := mkResponse 400 (ErrorBody "Missing metadata") in
  fileId ← required (so_metadata session ≫= md_file_id) missing;
  buyerEmail ← required (so_metadata session ≫= md_buyer_email) missing;
  order ← query (λ db,
    select_single (we_order_error env) (orders_by_session sessionId db));
  match order with
  | None => respond (mkResponse 404 (ErrorBody "Order not found"))
  | Some order =>
    let downloadToken := we_uuid env in
    let downloadExpiresAt := we_now_expiry env + 72 * 60 * 60 * 1000 in
    (if we_update_error env
     then respond (mkResponse 500 (ErrorBody "Failed to update order"))
     else modify (set_orders (update_where (λ o, o_id o = o_id order)
                    (mark_paid downloadToken downloadExpiresAt (we_now_paid env)))));;
    royaltyChain ← query (select_royalty_chain (we_royalty_error env) fileId);
    match royaltyChain with
    | Some ((_ :: _) as royaltyChain) =>
      let payoutRows := payout_rows order royaltyChain in
      if we_payout_error env
      then mret ()       (* non-fatal: order is still marked paid *)
      else modify (set_payouts (λ ps, ps ++ payoutRows))
    | _ => mret ()
    end;;
    respond (mkResponse 200 (Received None))
  end.

(** The body is two log lines between TODO comments; the update is
    commented out in the source. *)
Definition handlePaymentFailed (paymentIntent : StripeObject)
    : Handler Response :=
  respond (mkResponse 200 (Received None)).

Definition stripe_webhook (req : WebhookRequest) (env : WebhookEnv)
    : Handler Response :=
  if bool_decide (wr_method req = "OPTIONS") then respond (mkResponse 200 OkBody)
  else
    reject_if (negb (bool_decide (wr_method req = "POST")))
      (error_response 405 "Method not allowed");;
    match verifyStripeSignature (wr_json req) (wr_signature req) with
    | None => respond (error_response 401 "Invalid webhook signature")
    | Some event =>
      let eventType := ev_type event in
      let eventData := ev_object event in
      if bool_decide (eventType = Some "checkout.session.completed") then
        match eventData with
        | Some session => handleCheckoutCompleted session env
        | None => respond internal_server_error   (* session.id throws *)
        end
      else if bool_decide (eventType = Some "payment_intent.payment_failed") then
        match eventData with
        | Some paymentIntent => handlePaymentFailed paymentIntent
        | None => respond internal_server_error   (* paymentIntent.id throws *)
        end
      else
        (* Acknowledge unhandled events so Stripe doesn't retry *)
        respond (mkResponse 200 (Received (Some false)))
    end.

(** ** resend-download *)

Definition MAX_DELIVERY_RETRIES : Z := 5.
Definition DOWNLOAD_TOKEN_TTL_MS : Z := 72 * 60 * 60 * 1000.

Record ResendRequest := mkResendRequest {
  rr_method : string;
  rr_auth_user : option User;
  rr_json : option (option string)   (* the body, and its order_id field *)
}.

Record ResendEnv := mkResendEnv {
  re_uuid : string;
  re_now : Z;
  re_order_error : bool;
  re_update_error : bool
}.

(** [.update({ download_token, download_expires_at, delivery_email_retries })]. *)
Definition renew_token (newDownloadToken : string) (newExpiresAt retries : Z)
    (o : Order) : Order :=
  {| o_id := o_id o;
     o_file_id := o_file_id o;
     buyer_email := buyer_email o;
     stripe_session_id := stripe_session_id o;
     payment_status := payment_status o;
     total_cents := total_cents o;
     pif_fee_cents := pif_fee_cents o;
     download_token := Some newDownloadToken;
     download_expires_at := Some newExpiresAt;
     downloaded_at := downloaded_at o;
     download_attempts := download_attempts o;
     delivery_email_retries := Some retries;
     paid_at := paid_at o |}.

Definition resend_download (req : ResendRequest) (env : ResendEnv)
    : Handler Response :=
  if bool_decide (rr_method req = "OPTIONS") then respond (mkResponse 200 OkBody)
  else
    reject_if (negb (bool_decide (rr_method req = "POST")))
      (error_response 405 "Method not allowed");;
    match rr_auth_user req with
    | None => respond (error_response 401 "Unauthorized")
    | Some user =>
      fields ← req_json (rr_json req);
      order_id ← required fields
        (error_response 400 "Missing required field: order_id");
      order ← query (λ db,
        select_single (re_order_error env) (orders_by_id order_id db));
      match order with
      | None => respond (error_response 404 "Order not found")
      | Some order =>
        reject_if (negb (bool_decide (user_email user = Some (buyer_email order))))
          (error_response 403 "You are not the buyer of this order");;
        reject_if (negb (bool_decide (payment_status order = paid)))
          (error_response 422 "Order has not been paid");;
        let retries := default 0 (delivery_email_retries order) in
        reject_if (bool_decide (MAX_DELIVERY_RETRIES ≤ retries))
          (error_response 429
             "Maximum delivery email retries (5) exceeded. Contact support.");;
        let newDownloadToken := re_uuid env in
        let newExpiresAt := re_now env + DOWNLOAD_TOKEN_TTL_MS in
        (if re_update_error env
         then respond (error_response 500 "Failed to generate new download link")
         else modify (set_orders (update_where (λ o, o_id o = o_id order)
                        (renew_token newDownloadToken newExpiresAt (retries + 1)))));;
        respond (mkResponse 200 SuccessBody)
      end
    end.

(** ** download *)

Record DownloadRequest := mkDownloadRequest {
  dr_method : string;
  dr_token : option string;          (* url.searchParams.get("token") *)
  dr_auth_user : option User
}.

Record DownloadEnv := mkDownloadEnv {
  de_now : Z;
  de_order_error : bool;
  de_file_error : bool;
  de_track_error : bool
}.

(** [.update({ downloaded_at, download_attempts })]. *)
Definition track_download (now : Z) (attempts : Z) (o : Order) : Order :=
  {| o_id := o_id o;
     o_file_id := o_file_id o;
     buyer_email := buyer_email o;
     stripe_session_id := stripe_session_id o;
     payment_status := payment_status o;
     total_cents := total_cents o;
     pif_fee_cents := pif_fee_cents o;
     download_token := download_token o;
     download_expires_at := download_expires_at o;
     downloaded_at := Some now;
     download_attempts := Some attempts;
     delivery_email_retries := delivery_email_retries o;
     paid_at := paid_at o |}.

(** [expiresAt && now > expiresAt]. *)
Definition isExpired (now : Z) (download_expires_at : option Z) : bool :=
  match download_expires_at with
  | Some expiresAt => bool_decide (expiresAt < now)
  | None => false
  end.

(** [user?.email === order.buyer_email]. *)
Definition isOwner (user : option User) (order : Order) : bool :=
  bool_decide (user ≫= user_email = Some (buyer_email order)).

Definition placeholder_signed_url (storage_path : string) : string :=
  "https://placeholder.supabase.co/storage/v1/object/sign/marketplace-files/"
    +:+ storage_path +:+ "?token=PLACEHOLDER".

Definition download (req : DownloadRequest) (env : DownloadEnv)
    : Handler Response :=
  if bool_decide (dr_method req = "OPTIONS") then respond (mkResponse 200 OkBody)
  else
    reject_if (negb (bool_decide (dr_method req = "GET")))
      (error_response 405 "Method not allowed");;
    token ← required (dr_token req)
      (error_response 400 "Missing required query parameter: token");
    order ← query (λ db,
      select_single (de_order_error env) (orders_by_token token db));
    match order with
    | None => respond (error_response 404 "Invalid or expired download token")
    | Some order =>
      reject_if (negb (bool_decide (payment_status order = paid)))
        (error_response 403 "Payment has not been completed for this order");;
      let now := de_now env in
      (if isExpired now (download_expires_at order)
       then
         let user := dr_auth_user req in
         reject_if (negb (isOwner user order))
           (error_response 410
              "Download link has expired. Sign in and request a new link.")
       else mret ());;
      fileRow ← query (λ db,
        select_single (de_file_error env) (files_by_id (o_file_id order) db));
      match fileRow with
      | None => respond (error_response 404 "File record not found")
      | Some fileRow =>
        let signedUrl := placeholder_signed_url (storage_path fileRow) in
        (if de_track_error env
         then mret ()     (* non-fatal: still allow the download *)
         else modify (set_orders (update_where (λ o, o_id o = o_id order)
                        (track_download now
                           (default 0 (download_attempts order) + 1)))));;
        respond (mkResponse 302 (Redirect signedUrl))
      end
    end.

(** ** The system as a transition relation *)

(** One request served by one of the four functions. *)
Inductive step : relation DB :=
| step_create_checkout db req env :
    step db (serve (create_checkout req env) db).1
| step_stripe_webhook db req env :
    step db (serve (stripe_webhook req env) db).1
| step_resend_download db req env :
    step db (serve (resend_download req env) db).1
| step_download db req env :
    step db (serve (download req env) db).1.

(** The order invariant of the ledger. *)
Definition order_ok (o : Order) : Prop :=
  (download_token o ≠ None → payment_status o = paid) ∧
  (payment_status o = paid → paid_at o ≠ None ∧ download_token o ≠ None).

Definition sum_Z (l : list Z) : Z := foldr Z.add 0 l.

Definition sum_shares (royaltyChain : list RoyaltyEntry) : Z :=
  sum_Z (share_basis_points <$> royaltyChain).

(** What one request can do to an existing order row: nothing, the paid
    update of the webhook, the token renewal of resend-download (which the
    handler only reaches for a paid order), or the download tracking. *)
Inductive order_step : relation Order :=
| order_same o : order_step o o
| order_paid o tok exp paidAt : order_step o (mark_paid tok exp paidAt o)
| order_renewed o tok exp retries :
    payment_status o = paid → order_step o (renew_token tok exp retries o)
| order_tracked o now attempts : order_step o (track_download now attempts o).

(** What one request can do to the table: every row makes an [order_step],
    and rows without a token may be appended in state [pending]. *)
Definition orders_evolve (os os'' : list Order) : Prop :=
  ∃ os' new, os'' = os' ++ new ∧ Forall2 order_step os os' ∧
    Forall (λ o, payment_status o = pending ∧ download_token o = None) new.

(** Requests served one after the other. *)
Fixpoint serve_each {Env} (h : Env → Handler Response) (envs : list Env)
    (db : DB) : DB * list Response :=
  match envs with
  | [] => (db, [])
  | env :: envs =>
    let '(db1, r) := serve (h env) db in
    let '(db2, rs) := serve_each h envs db1 in
    (db2, r :: rs)
  end.

Definition fault_free_resend (env : ResendEnv) : Prop :=
  re_order_error env = false ∧ re_update_error env = false.

Definition fault_free_webhook (env : WebhookEnv) : Prop :=
  we_order_error env = false ∧ we_update_error env = false ∧
  we_royalty_error env = false ∧ we_payout_error env = false.

(** ** Well-formed requests and the situations the properties speak about *)

(** A purchase request with both fields present. *)
Definition checkout_request (file_id buyer_email : string) : CheckoutRequest :=
  mkCheckoutRequest "POST" (Some (mkCheckoutFields (Some file_id) (Some buyer_email))).

(** The first four checks of create-checkout pass: fields present, purchase
    flag on, file found and listed. *)
Definition checkout_reaches_royalty (db : DB) (env : CheckoutEnv)
    (file_id buyer_email : string) (fileRow : FileRow) : Prop :=
  file_id ≠ "" ∧ buyer_email ≠ "" ∧
  isPurchaseEnabled (ce_flag_error env) db = true ∧
  select_single (ce_file_error env) (files_by_id file_id db) = Some fileRow ∧
  stage fileRow = listed.

Definition royalty_chain_not_configured : Response :=
  error_response 500 "Royalty chain not configured for this file".

Definition checkout_created (env : CheckoutEnv) : Response :=
  mkResponse 200
    (CheckoutUrl ("https://checkout.stripe.com/pay/" +:+ "cs_test_" +:+ ce_session_uuid env)).

(** A signed [checkout.session.completed] notification. *)
Definition completed_session (sessionId fileId buyerEmail : string) : StripeObject :=
  mkStripeObject sessionId (Some (mkMetadata (Some fileId) (Some buyerEmail))).

Definition completed_request (signature sessionId fileId buyerEmail : string)
    : WebhookRequest :=
  mkWebhookRequest "POST" (Some signature)
    (Some (mkStripeEvent (Some "checkout.session.completed")
             (Some (completed_session sessionId fileId buyerEmail)))).

(** A signed [payment_intent.payment_failed] notification. *)
Definition failed_request (signature paymentIntentId : string) : WebhookRequest :=
  mkWebhookRequest "POST" (Some signature)
    (Some (mkStripeEvent (Some "payment_intent.payment_failed")
             (Some (mkStripeObject paymentIntentId None)))).

(** The paid update of one processing of the event. *)
Definition paid_by (env : WebhookEnv) : Order → Order :=
  mark_paid (we_uuid env) (we_now_expiry env + 72 * 60 * 60 * 1000) (we_now_paid env).

Definition received : Response := mkResponse 200 (Received None).

(** An authenticated renewal request for [order_id]. *)
Definition renew_request (user : User) (order_id : string) : ResendRequest :=
  mkResendRequest "POST" (Some user) (Some (Some order_id)).

(** [order] is the order [order_id], it is paid and [user] is its buyer. *)
Definition renewable (db : DB) (user : User) (order_id : string) (order : Order)
    : Prop :=
  order_id ≠ "" ∧
  single (orders_by_id order_id db) = Some order ∧
  user_email user = Some (buyer_email order) ∧
  payment_status order = paid.

Definition retry_limit_exceeded : Response :=
  error_response 429 "Maximum delivery email retries (5) exceeded. Contact support.".

(** The update of one successful renewal of [order]. *)
Definition renewed (env : ResendEnv) (order : Order) : Order → Order :=
  renew_token (re_uuid env) (re_now env + DOWNLOAD_TOKEN_TTL_MS)
    (default 0 (delivery_email_retries order) + 1).

(** A redemption request for [token], with the identity service's answer. *)
Definition redeem_request (token : string) (user : option User) : DownloadRequest :=
  mkDownloadRequest "GET" (Some token) user.

Definition link_expired : Response :=
  error_response 410 "Download link has expired. Sign in and request a new link.".

(** ** Sample data *)

Module Sample.
Definition originator : RoyaltyEntry := mkRoyalty "file-1" "member-1" 10000 0.
Definition half_a : RoyaltyEntry := mkRoyalty "file-2" "member-1" 5000 0.
Definition half_b : RoyaltyEntry := mkRoyalty "file-2" "member-2" 5000 1.
Definition short_share : RoyaltyEntry := mkRoyalty "file-3" "member-1" 9999 0.

Definition flags_on : gmap string bool :=
  <["master_switch" := true]> (<["marketplace_purchase" := true]> ∅).

(** The master switch is off, the purchase flag is on. *)
Definition flags_master_off : gmap string bool :=
  <["master_switch" := false]> (<["marketplace_purchase" := true]> ∅).

Definition catalogue : list FileRow :=
  [ mkFile "file-1" "Cabinet" 500 listed "member-1/file-1/cabinet.dxf";
    mkFile "file-3" "Shelf" 100 listed "member-1/file-3/shelf.dxf" ].

Definition chains : list RoyaltyEntry := [originator; half_a; half_b; short_share].

Definition shop : DB := mkDB [] [] catalogue chains flags_on.
Definition shop_master_off : DB := mkDB [] [] catalogue chains flags_master_off.

Definition checkout_env : CheckoutEnv :=
  mkCheckoutEnv false false false false "sess-1" "order-1".

(** The shop after one purchase of file-1 was opened. *)
Definition shop_pending : DB :=
  (serve (create_checkout (checkout_request "file-1" "buyer@example.com")
            checkout_env) shop).1.

Definition completed : WebhookRequest :=
  completed_request "t=1,v1=abc" "cs_test_sess-1" "file-1" "buyer@example.com".

Definition delivery_1 : WebhookEnv :=
  mkWebhookEnv "token-1" 1000 1001 false false false false.
Definition delivery_2 : WebhookEnv :=
  mkWebhookEnv "token-2" 5000 5001 false false false false.

(** The shop after the payment notification was processed once. *)
Definition shop_paid : DB := (serve (stripe_webhook completed delivery_1) shop_pending).1.

(** ... and after the same notification was processed again. *)
Definition shop_paid_twice : DB :=
  (serve (stripe_webhook completed delivery_2) shop_paid).1.

Definition buyer : User := mkUser "user-1" (Some "buyer@example.com").
Definition stranger : User := mkUser "user-2" (Some "other@example.com").

Definition paid_order : Order := paid_by delivery_1
  (pending_order "order-1" "file-1" "buyer@example.com" "cs_test_sess-1"
     (calculatePricing 500 [originator])).

Definition resend_env (token : string) (now : Z) : ResendEnv :=
  mkResendEnv token now false false.

(** A clock reading within the first credential's 72 hours, and one after
    it has expired. *)
Definition in_time : DownloadEnv := mkDownloadEnv 2000 false false false.
Definition late : DownloadEnv := mkDownloadEnv 500000000 false false false.

Definition unknown_event : WebhookRequest :=
  mkWebhookRequest "POST" (Some "t=1,v1=abc")
    (Some (mkStripeEvent (Some "customer.created") None)).
End Sample.

(** ** Further situations and observations *)

(** The columns a purchase is identified and charged by. *)
Definition same_purchase (o o' : Order) : Prop :=
  o_id o' = o_id o ∧ o_file_id o' = o_file_id o ∧
  buyer_email o' = buyer_email o ∧
  stripe_session_id o' = stripe_session_id o ∧
  total_cents o' = total_cents o ∧ pif_fee_cents o' = pif_fee_cents o.

(** The tables no purchase function writes. *)
Definition same_catalogue (db db' : DB) : Prop :=
  files db' = files db ∧ file_royalty_chain db' = file_royalty_chain db ∧
  override_controls db' = override_controls db.

Definition retries_capped (o : Order) : Prop :=
  default 0 (delivery_email_retries o) ≤ MAX_DELIVERY_RETRIES.

(** Every payout row belongs to an order that is paid. *)
Definition payouts_for_paid_orders (db : DB) : Prop :=
  ∀ p, p ∈ payouts db →
    ∃ o, o ∈ orders db ∧ o_id o = p_order_id p ∧ payment_status o = paid.

Definition not_the_buyer : Response :=
  error_response 403 "You are not the buyer of this order".

Definition order_not_paid : Response :=
  error_response 422 "Order has not been paid".

Definition invalid_token : Response :=
  error_response 404 "Invalid or expired download token".

Definition invalid_signature : Response :=
  error_response 401 "Invalid webhook signature".

(** The update of one tracked download of [order]. *)
Definition tracked (env : DownloadEnv) (order : Order) : Order → Order :=
  track_download (de_now env) (default 0 (download_attempts order) + 1).

(** The database after one successful renewal of [order]. *)
Definition after_renewal (env : ResendEnv) (order : Order) (db : DB) : DB :=
  set_orders (update_where (λ o, o_id o = o_id order) (renewed env order)) db.

Definition fault_free_download (env : DownloadEnv) : Prop :=
  de_order_error env = false ∧ de_file_error env = false ∧
  de_track_error env = false.

(** The payout row of one line of [calculatePricing]. *)
Definition payout_of_line (orderId : string) (line : PayoutLine) : Payout :=
  mkPayout orderId (member_id (pl_entry line)) (pl_amount_cents line) payout_pending.

(** ** admin-overrides *)

(** Beside [enabled], admin-overrides writes and returns the [updated_at]
    column of [override_controls], which no other function reads.  Its
    state is the database together with that column, by [feature_key]. *)
Record AdminDB := mkAdminDB {
  adb : DB;
  updated_at : gmap string Z
}.

Definition set_override_controls (f : gmap string bool → gmap string bool)
    (db : DB) : DB :=
  mkDB (orders db) (payouts db) (files db) (file_royalty_chain db)
       (f (override_controls db)).

(** [.update({ enabled, updated_at }).eq("feature_key", feature_key)]. *)
Definition update_control (feature_key : string) (enabled : bool) (now : Z)
    (s : AdminDB) : AdminDB :=
  mkAdminDB (set_override_controls <[feature_key := enabled]> (adb s))
            (<[feature_key := now]> (updated_at s)).

(** [Deno.env.get("ADMIN_MEMBER_ID") ?? "REPLACE_WITH_ADMIN_UUID"]. *)
Definition ADMIN_MEMBER_ID (configured : option string) : string :=
  default "REPLACE_WITH_ADMIN_UUID" configured.

Definition isAdmin (configured : option string) (userId : string) : bool :=
  bool_decide (userId = ADMIN_MEMBER_ID configured).

(** The rows of [override_controls] as [select("*")] returns them: their
    [enabled] and [updated_at] columns by [feature_key], the primary key
    the rows are listed by. *)
Record ControlRows := mkControlRows {
  rows_enabled : gmap string bool;
  rows_updated_at : gmap string Z
}.

Definition control_rows (s : AdminDB) : ControlRows :=
  mkControlRows (override_controls (adb s)) (updated_at s).

(** The answers of admin-overrides. In [Controls], [None] is the [null] of
    a select that failed. *)
Inductive AdminBody :=
| AdminError (error : string)
| Controls (controls : option ControlRows)
| AdminOk.

Record AdminResponse := mkAdminResponse { a_status : Z; a_body : AdminBody }.

(** The body of a PUT; [of_enabled] is [None] when the field is absent or
    not a boolean. *)
Record OverrideFields := mkOverrideFields {
  of_feature_key : option string;
  of_enabled : option bool
}.

Record AdminRequest := mkAdminRequest {
  ar_method : string;
  ar_user : option User;               (* the answer of [getAuthUser] *)
  ar_json : option OverrideFields
}.

Record AdminEnv := mkAdminEnv {
  ae_admin_member_id : option string;  (* the environment variable *)
  ae_select_error : bool;
  ae_lookup_error : bool;
  ae_update_error : bool;
  ae_reselect_error : bool;
  ae_now : Z                           (* [new Date()] of the update *)
}.

Definition handleGet (env : AdminEnv) (s : AdminDB) : AdminResponse :=
  if ae_select_error env
  then mkAdminResponse 500 (AdminError "Failed to fetch override controls")
  else mkAdminResponse 200 (Controls (Some (control_rows s))).

Definition handlePut (env : AdminEnv) (body : OverrideFields) (s : AdminDB)
    : AdminDB * AdminResponse :=
  let invalid :=
    mkAdminResponse 400
      (AdminError "Missing or invalid fields: feature_key (string), enabled (boolean)") in
  match of_feature_key body, of_enabled body with
  | Some feature_key, Some enabled =>
    if falsy (Some feature_key) then (s, invalid)
    else
      (* verify the feature_key exists *)
      match (if ae_lookup_error env then None
             else override_controls (adb s) !! feature_key) with
      | None =>
        (s, mkAdminResponse 404 (AdminError ("Unknown feature key: " +:+ feature_key)))
      | Some _ =>
        (* update the row *)
        if ae_update_error env
        then (s, mkAdminResponse 500 (AdminError "Failed to update override control"))
        else
          let s' := update_control feature_key enabled (ae_now env) s in
          (* return updated controls *)
          (s', mkAdminResponse 200
                 (Controls (if ae_reselect_error env then None
                            else Some (control_rows s'))))
      end
  | _, _ => (s, invalid)
  end.

Definition admin_overrides (req : AdminRequest) (env : AdminEnv) (s : AdminDB)
    : AdminDB * AdminResponse :=
  if bool_decide (ar_method req = "OPTIONS") then (s, mkAdminResponse 200 AdminOk)
  else
    match ar_user req with
    | None => (s, mkAdminResponse 401 (AdminError "Unauthorized"))
    | Some user =>
      if negb (isAdmin (ae_admin_member_id env) (user_id user))
      then (s, mkAdminResponse 403 (AdminError "Admin access required"))
      else if bool_decide (ar_method req = "GET") then (s, handleGet env s)
      else if bool_decide (ar_method req = "PUT") then
        match ar_json req with
        | None => (s, mkAdminResponse 500 (AdminError "Internal server error"))
        | Some body => handlePut env body s
        end
      else (s, mkAdminResponse 405 (AdminError "Method not allowed. Use GET or PUT."))
    end.

(** Two servings that differ at most in the clock. *)
Definition same_faults (env env' : AdminEnv) : Prop :=
  ae_admin_member_id env' = ae_admin_member_id env ∧
  ae_select_error env' = ae_select_error env ∧
  ae_lookup_error env' = ae_lookup_error env ∧
  ae_update_error env' = ae_update_error env ∧
  ae_reselect_error env' = ae_reselect_error env.

(** ** Members and roles, as verify-earning, stripe-onboarding and
    upload-file read and write them *)

Record Member := mkMember {
  m_id : string;
  tier : string;
  stripe_account_id : option string;
  payout_enabled : bool;
  tax_acknowledged : bool;
  tax_acknowledged_at : option Z;
  w9_acknowledged : bool;
  w9_acknowledged_at : option Z
}.

Record MemberRole := mkMemberRole {
  mr_member_id : string;
  role : string
}.

Record Accounts := mkAccounts {
  members : list Member;
  member_roles : list MemberRole
}.

Definition set_members (f : list Member → list Member) (acc : Accounts) : Accounts :=
  mkAccounts (f (members acc)) (member_roles acc).

Definition set_member_roles (f : list MemberRole → list MemberRole)
    (acc : Accounts) : Accounts :=
  mkAccounts (members acc) (f (member_roles acc)).

Definition members_by_id (id : string) (acc : Accounts) : list Member :=
  filter (λ m, m_id m = id) (members acc).

Definition members_by_stripe_account (accountId : string) (acc : Accounts)
    : list Member :=
  filter (λ m, stripe_account_id m = Some accountId) (members acc).

Definition originator_roles (memberId : string) (acc : Accounts) : list MemberRole :=
  filter (λ r, mr_member_id r = memberId ∧ role r = "originator") (member_roles acc).

(** ** verify-earning *)

Definition MINIMUM_EARNING_TIER : string := "emerging".

Definition TIER_RANK : gmap string Z :=
  {[ "design_and_go" := 0; "emerging" := 1; "maker" := 2; "professional" := 3 ]}.

(** [TIER_RANK[memberTier] ?? -1] against [TIER_RANK[MINIMUM_EARNING_TIER] ?? 999].
    (A key that the object only inherits, such as [constructor], yields a
    value that compares false with every number, as -1 does here.) *)
Definition meetsMinimumTier (memberTier : string) : bool :=
  let memberRank := default (-1) (TIER_RANK !! memberTier) in
  let requiredRank := default 999 (TIER_RANK !! MINIMUM_EARNING_TIER) in
  bool_decide (memberRank >= requiredRank).

Inductive EarningBody :=
| EarningError (error : string)
| AlreadyOnboarded (error : string) (account : string) (payouts_on : bool)
| OnboardingUrl (stripe_onboarding_url : string)
| EarningOk.

Record EarningResponse := mkEarningResponse { e_status : Z; e_body : EarningBody }.

(** The body of the request; a field is [None] when absent or not a
    boolean. *)
Record EarningFields := mkEarningFields {
  ef_tax_acknowledged : option bool;
  ef_w9_acknowledged : option bool
}.

Record EarningRequest := mkEarningRequest {
  er_method : string;
  er_user : option User;
  er_json : option EarningFields
}.

Record EarningEnv := mkEarningEnv {
  ee_member_error : bool;
  ee_ack_error : bool;
  ee_stripe_update_error : bool;
  ee_tax_now : Z;                      (* the two [new Date()] of the update *)
  ee_w9_now : Z;
  ee_uuid : string                     (* [crypto.randomUUID()] *)
}.

(** [s.replace(/-/g, "")]. *)
Fixpoint remove_dashes (s : string) : string :=
  match s with
  | EmptyString => EmptyString
  | String c rest =>
    if Ascii.eqb c "-"%char then remove_dashes rest else String c (remove_dashes rest)
  end.

Definition mockAccountId (uuid : string) : string :=
  "acct_" +:+ String.substring 0 16 (remove_dashes uuid).

Definition onboardingUrl (accountId : string) : string :=
  "https://connect.stripe.com/setup/e/" +:+ accountId.

Definition acknowledge (env : EarningEnv) (m : Member) : Member :=
  {| m_id := m_id m; tier := tier m;
     stripe_account_id := stripe_account_id m;
     payout_enabled := payout_enabled m;
     tax_acknowledged := true;
     tax_acknowledged_at := Some (ee_tax_now env);
     w9_acknowledged := true;
     w9_acknowledged_at := Some (ee_w9_now env) |}.

Definition store_account (accountId : string) (m : Member) : Member :=
  {| m_id := m_id m; tier := tier m;
     stripe_account_id := Some accountId;
     payout_enabled := payout_enabled m;
     tax_acknowledged := tax_acknowledged m;
     tax_acknowledged_at := tax_acknowledged_at m;
     w9_acknowledged := w9_acknowledged m;
     w9_acknowledged_at := w9_acknowledged_at m |}.

Definition tier_too_low (memberTier : string) : EarningResponse :=
  mkEarningResponse 403
    (EarningError ("Your current tier (" +:+ memberTier +:+
                   ") does not meet the minimum requirement (" +:+
                   MINIMUM_EARNING_TIER +:+ ") to earn on the marketplace.")).

Definition verify_earning (req : EarningRequest) (env : EarningEnv)
    (acc : Accounts) : Accounts * EarningResponse :=
  if bool_decide (er_method req = "OPTIONS") then (acc, mkEarningResponse 200 EarningOk)
  else if negb (bool_decide (er_method req = "POST"))
  then (acc, mkEarningResponse 405 (EarningError "Method not allowed"))
  else
    match er_user req with
    | None => (acc, mkEarningResponse 401 (EarningError "Unauthorized"))
    | Some user =>
      match er_json req with
      | None => (acc, mkEarningResponse 500 (EarningError "Internal server error"))
      | Some fields =>
        if negb (bool_decide (ef_tax_acknowledged fields = Some true)) ||
           negb (bool_decide (ef_w9_acknowledged fields = Some true))
        then (acc, mkEarningResponse 400
                     (EarningError "Both tax_acknowledged and w9_acknowledged must be true to proceed"))
        else
          match select_single (ee_member_error env)
                  (members_by_id (user_id user) acc) with
          | None => (acc, mkEarningResponse 404 (EarningError "Member profile not found"))
          | Some member =>
            if negb (meetsMinimumTier (tier member))
            then (acc, tier_too_low (tier member))
            else if negb (falsy (stripe_account_id member))
            then (acc, mkEarningResponse 409
                         (AlreadyOnboarded "You already have a Stripe Connect account"
                            (default "" (stripe_account_id member))
                            (payout_enabled member)))
            else if ee_ack_error env
            then (acc, mkEarningResponse 500
                         (EarningError "Failed to record acknowledgment"))
            else
              let acc1 :=
                set_members (update_where (λ m, m_id m = m_id member)
                                          (acknowledge env)) acc in
              let accountId := mockAccountId (ee_uuid env) in
              let acc2 :=
                if ee_stripe_update_error env then acc1
                else set_members (update_where (λ m, m_id m = m_id member)
                                               (store_account accountId)) acc1 in
              (acc2, mkEarningResponse 200 (OnboardingUrl (onboardingUrl accountId)))
          end
      end
    end.

(** ** stripe-onboarding *)

(** [event.data.object] of an [account.updated] event; [ac_charges_enabled]
    is the truth value of the field. *)
Record AccountObject := mkAccountObject {
  ac_id : string;
  ac_charges_enabled : bool
}.

Record AccountEvent := mkAccountEvent {
  aev_type : option string;
  aev_object : option AccountObject
}.

Record OnboardingRequest := mkOnboardingRequest {
  or_method : string;
  or_signature : option string;        (* the Stripe-Signature header *)
  or_json : option AccountEvent        (* [JSON.parse(body)], [None] if it throws *)
}.

Record OnboardingEnv := mkOnboardingEnv {
  oe_member_error : bool;
  oe_update_error : bool;
  oe_role_error : bool
}.

Inductive OnboardingBody :=
| OnboardingError (error : string)
| Ignored                                          (* { received, handled: false } *)
| NotYetEnabled                                    (* { received, charges_enabled: false } *)
| MemberNotFound                                   (* { received, error: "Member not found" } *)
| Onboarded (member : string)                      (* { received, charges_enabled: true, member_id } *)
| OnboardingOk.

Record OnboardingResponse :=
  mkOnboardingResponse { ob_status : Z; ob_body : OnboardingBody }.

(** The connect webhook's [verifyStripeSignature]: a present signature and
    a body that parses. *)
Definition verifyConnectSignature (signature : option string)
    (parsed : option AccountEvent) : option AccountEvent :=
  if falsy signature then None else parsed.

Definition enable_payouts (m : Member) : Member :=
  {| m_id := m_id m; tier := tier m;
     stripe_account_id := stripe_account_id m;
     payout_enabled := true;
     tax_acknowledged := tax_acknowledged m;
     tax_acknowledged_at := tax_acknowledged_at m;
     w9_acknowledged := w9_acknowledged m;
     w9_acknowledged_at := w9_acknowledged_at m |}.

(** [.upsert({ member_id, role: "originator" }, { onConflict: "member_id,role" })]:
    a row with that key is rewritten with the same values, otherwise the
    row is inserted. *)
Definition upsert_originator (memberId : string) (roles : list MemberRole)
    : list MemberRole :=
  match filter (λ r, mr_member_id r = memberId ∧ role r = "originator") roles with
  | [] => roles ++ [mkMemberRole memberId "originator"]
  | _ :: _ => roles
  end.

Definition stripe_onboarding (req : OnboardingRequest) (env : OnboardingEnv)
    (acc : Accounts) : Accounts * OnboardingResponse :=
  if bool_decide (or_method req = "OPTIONS")
  then (acc, mkOnboardingResponse 200 OnboardingOk)
  else if negb (bool_decide (or_method req = "POST"))
  then (acc, mkOnboardingResponse 405 (OnboardingError "Method not allowed"))
  else
    match verifyConnectSignature (or_signature req) (or_json req) with
    | None => (acc, mkOnboardingResponse 401 (OnboardingError "Invalid webhook signature"))
    | Some event =>
      if negb (bool_decide (aev_type event = Some "account.updated"))
      then (acc, mkOnboardingResponse 200 Ignored)
      else
        match aev_object event with
        | None => (acc, mkOnboardingResponse 500 (OnboardingError "Internal server error"))
        | Some account =>
          if negb (ac_charges_enabled account)
          then (acc, mkOnboardingResponse 200 NotYetEnabled)
          else
            match select_single (oe_member_error env)
                    (members_by_stripe_account (ac_id account) acc) with
            | None => (acc, mkOnboardingResponse 200 MemberNotFound)
            | Some member =>
              let acc1 :=
                if negb (payout_enabled member) && negb (oe_update_error env)
                then set_members (update_where (λ m, m_id m = m_id member)
                                               enable_payouts) acc
                else acc in
              let acc2 :=
                if oe_role_error env then acc1
                else set_member_roles (upsert_originator (m_id member)) acc1 in
              (acc2, mkOnboardingResponse 200 (Onboarded (m_id member)))
            end
        end
    end.

(** ** upload-file: [hasOriginatorRole] *)

(** [.maybeSingle()]: no row is [null] without error, more than one row is
    an error. *)
Definition hasOriginatorRole (err : bool) (memberId : string) (acc : Accounts)
    : bool :=
  if err then false
  else match originator_roles memberId acc with
       | [] => false
       | [_] => true
       | _ => false
       end.

(** ** Situations of earning and onboarding *)

(** The columns of a member that verify-earning never writes. *)
Definition same_standing (m m' : Member) : Prop :=
  m_id m' = m_id m ∧ tier m' = tier m ∧ payout_enabled m' = payout_enabled m.

Definition earning_request (user : User) : EarningRequest :=
  mkEarningRequest "POST" (Some user)
    (Some (mkEarningFields (Some true) (Some true))).

(** The member row of [userId] is found, its tier may earn and it has no
    Stripe account yet. *)
Definition eligible (userId : string) (member : Member) (acc : Accounts) : Prop :=
  single (members_by_id userId acc) = Some member ∧
  meetsMinimumTier (tier member) = true ∧
  falsy (stripe_account_id member) = true.

Definition onboarding_started (env : EarningEnv) : EarningResponse :=
  mkEarningResponse 200 (OnboardingUrl (onboardingUrl (mockAccountId (ee_uuid env)))).

(** The tables after verify-earning has gone through for [member]. *)
Definition earned (env : EarningEnv) (member : Member) (acc : Accounts) : Accounts :=
  let acc1 :=
    set_members (update_where (λ m, m_id m = m_id member) (acknowledge env)) acc in
  if ee_stripe_update_error env then acc1
  else set_members (update_where (λ m, m_id m = m_id member)
                                 (store_account (mockAccountId (ee_uuid env)))) acc1.

Definition account_updated (signature accountId : string) : OnboardingRequest :=
  mkOnboardingRequest "POST" (Some signature)
    (Some (mkAccountEvent (Some "account.updated")
             (Some (mkAccountObject accountId true)))).

(** The tables after stripe-onboarding has gone through for [member]. *)
Definition onboarded (env : OnboardingEnv) (member : Member) (acc : Accounts)
    : Accounts :=
  let acc1 :=
    if negb (payout_enabled member) && negb (oe_update_error env)
    then set_members (update_where (λ m, m_id m = m_id member) enable_payouts) acc
    else acc in
  if oe_role_error env then acc1
  else set_member_roles (upsert_originator (m_id member)) acc1.

Definition fault_free_earning (env : EarningEnv) : Prop :=
  ee_member_error env = false ∧ ee_ack_error env = false ∧
  ee_stripe_update_error env = false.

Definition fault_free_onboarding (env : OnboardingEnv) : Prop :=
  oe_member_error env = false ∧ oe_update_error env = false ∧
  oe_role_error env = false.

(** A row of [members] is left alone or gets its payouts enabled. *)
Definition payouts_enabled_or_same (m m' : Member) : Prop :=
  m' = m ∨ m' = enable_payouts m.

(** ** Sample members *)

Module SampleAccounts.

Definition maker : Member :=
  mkMember "member-1" "maker" None false false None false None.

Definition newcomer : Member :=
  mkMember "member-2" "design_and_go" None false false None false None.

Definition surging_member : Member :=
  mkMember "member-3" "surging" None false false None false None.

Definition club : Accounts := mkAccounts [maker; newcomer; surging_member] [].

Definition earning_env : EarningEnv :=
  mkEarningEnv false false false 7000 7001 "123e4567-e89b-12d3-a456-426614174000".

Definition connect_env : OnboardingEnv := mkOnboardingEnv false false false.

Definition admin : User := mkUser "admin-1" (Some "admin@example.com").

Definition admin_env (now : Z) : AdminEnv :=
  mkAdminEnv (Some "admin-1") false false false false now.

Definition put_flag (key : string) (enabled : bool) : AdminRequest :=
  mkAdminRequest "PUT" (Some admin) (Some (mkOverrideFields (Some key) (Some enabled))).

(** The sample shop with the time stamps of its flags. *)
Definition flag_store : AdminDB :=
  mkAdminDB Sample.shop
    (<["master_switch" := 100]> (<["marketplace_purchase" := 100]> ∅)).

End SampleAccounts.

(* ======================================================================= *)
(** * Part II — properties                                                  *)
(* ======================================================================= *)

(** ** Binary64 rounding *)

(** Turn an order between concrete rationals into one between integers. *)
Ltac q2z :=
  unfold Qle, Qlt, Qeq, Qmult, Qminus, Qplus, Qopp, of_int, inject_Z;
  cbn [Qnum Qden]; rewrite ?Pos2Z.inj_mul; lia.

Section Binary64.
Local Open Scope Q_scope.

Lemma pow2_pos e : 0 < pow2 e.
Proof. apply Qpower_0_lt. reflexivity. Qed.

Lemma pow2_Z e : (0 <= e)%Z -> pow2 e == inject_Z (2 ^ e).
Proof. intros H. unfold pow2. symmetry. apply (Zpower_Qpower 2 e H). Qed.

Lemma pow2_add a b : pow2 (a + b) == pow2 a * pow2 b.
Proof. unfold pow2. apply Qpower_plus. discriminate. Qed.

Lemma pow2_lt_inv a b : pow2 a < pow2 b -> (a < b)%Z.
Proof. intros H. apply (Qpower_lt_compat_l_inv (2 # 1)); [exact H | reflexivity]. Qed.

Lemma pow2_le a b : (a <= b)%Z -> pow2 a <= pow2 b.
Proof. intros H. apply Qpower_le_compat_l; [exact H | discriminate]. Qed.

Lemma binade_lower x : 0 < x -> pow2 (binade x) <= x.
Proof.
  intros Hx. unfold binade.
  destruct (Qle_bool _ x) eqn:E; [now apply Qle_bool_iff|].
  destruct x as [n d]. cbn [Qnum Qden] in *.
  assert (Hn : (0 < n)%Z) by (unfold Qlt in Hx; cbn in Hx; lia).
  set (a := Z.log2 n). set (b := Z.log2 (Z.pos d)).
  assert (Ha : (0 <= a)%Z) by apply Z.log2_nonneg.
  assert (Hb : (0 <= b)%Z) by apply Z.log2_nonneg.
  assert (Hna : (2 ^ a <= n)%Z) by (apply Z.log2_spec; exact Hn).
  assert (Hdb : (Z.pos d < 2 ^ (b + 1))%Z).
  { replace (b + 1)%Z with (Z.succ b) by lia. apply Z.log2_spec. lia. }
  assert (Hsplit : pow2 (a - b - 1) * pow2 (b + 1) == pow2 a).
  { rewrite <- pow2_add. now replace (a - b - 1 + (b + 1))%Z with a by lia. }
  rewrite (pow2_Z a Ha), (pow2_Z (b + 1)) in Hsplit by lia.
  assert (Hp := pow2_pos (a - b - 1)).
  apply Qmult_le_r with (z := inject_Z (2 ^ (b + 1))).
  { change 0 with (inject_Z 0). rewrite <- Zlt_Qlt. lia. }
  rewrite Hsplit.
  apply Qle_trans with (inject_Z n); [rewrite <- Zle_Qle; exact Hna|].
  unfold Qle, Qmult, inject_Z. cbn [Qnum Qden].
  rewrite Pos.mul_1_r. nia.
Qed.

Lemma binade_upper x : 0 < x -> x < pow2 (binade x + 1).
Proof.
  intros Hx. unfold binade.
  destruct x as [n d]. cbn [Qnum Qden] in *.
  assert (Hn : (0 < n)%Z) by (unfold Qlt in Hx; cbn in Hx; lia).
  set (a := Z.log2 n). set (b := Z.log2 (Z.pos d)).
  assert (Ha : (0 <= a)%Z) by apply Z.log2_nonneg.
  assert (Hb : (0 <= b)%Z) by apply Z.log2_nonneg.
  assert (Hna : (n < 2 ^ (a + 1))%Z).
  { replace (a + 1)%Z with (Z.succ a) by lia. apply Z.log2_spec. lia. }
  assert (Hdb : (2 ^ b <= Z.pos d)%Z) by (apply Z.log2_spec; lia).
  destruct (Qle_bool _ (n # d)) eqn:E.
  - assert (Hsplit : pow2 (a - b + 1) * pow2 b == pow2 (a + 1)).
    { rewrite <- pow2_add. now replace (a - b + 1 + b)%Z with (a + 1)%Z by lia. }
    rewrite (pow2_Z (a + 1)), (pow2_Z b) in Hsplit by lia.
    apply Qmult_lt_r with (z := inject_Z (2 ^ b)).
    { change 0 with (inject_Z 0). rewrite <- Zlt_Qlt. lia. }
    rewrite Hsplit.
    apply Qle_lt_trans with (inject_Z n); [|rewrite <- Zlt_Qlt; exact Hna].
    unfold Qle, Qmult, inject_Z. cbn [Qnum Qden].
    rewrite Pos.mul_1_r. nia.
  - replace (a - b - 1 + 1)%Z with (a - b)%Z by lia.
    apply Qnot_le_lt. intros H. apply Qle_bool_iff in H. congruence.
Qed.

Lemma rne_ge (y : Q) (z : Z) : inject_Z z <= y -> (z <= rne y)%Z.
Proof.
  intros H. assert (Hf : (z <= Qfloor y)%Z).
  { rewrite <- (Qfloor_Z z). now apply Qfloor_resp_le. }
  unfold rne. destruct (Qcompare _ _); [destruct (Z.even _)| |]; lia.
Qed.

Lemma rne_le (y : Q) (z : Z) : y <= inject_Z z -> (rne y <= z)%Z.
Proof.
  intros H. unfold rne.
  assert (Hf : (Qfloor y <= z)%Z).
  { rewrite <- (Qfloor_Z z). now apply Qfloor_resp_le. }
  destruct (Z.eq_dec (Qfloor y) z) as [->|Hne].
  - assert (Hy : y - inject_Z z <= 0).
    { apply Qle_minus_iff in H. apply Qle_minus_iff.
      setoid_replace (0 + - (y - inject_Z z)) with (inject_Z z + - y) using relation Qeq by ring. exact H. }
    destruct (Qcompare_spec (y - inject_Z z) (1 # 2)) as [E|E|E].
    + rewrite E in Hy. unfold Qle in Hy. cbn in Hy. lia.
    + lia.
    + exfalso. apply (Qlt_irrefl (1#2)). eapply Qlt_le_trans; [exact E|].
      eapply Qle_trans; [exact Hy|]. unfold Qle; cbn; lia.
  - destruct (Qcompare _ _); [destruct (Z.even _)| |]; lia.
Qed.

Lemma fl_nonzero x : ~ x == 0 -> fl x = inject_Z (rne (Qred x / ulp x)) * ulp x.
Proof.
  intros Hx. unfold fl.
  destruct (Qeq_bool (Qred x) 0) eqn:E; [|reflexivity].
  apply Qeq_bool_iff in E. rewrite Qred_correct in E. contradiction.
Qed.

Lemma fl_zero x : x == 0 -> fl x = 0.
Proof.
  intros Hx. unfold fl.
  destruct (Qeq_bool (Qred x) 0) eqn:E; [reflexivity|].
  apply Qeq_bool_neq in E. rewrite Qred_correct in E. contradiction.
Qed.

Lemma Qabs_pos_nonzero x : ~ x == 0 -> 0 < Qabs x.
Proof.
  intros Hx. destruct x as [n d]. unfold Qeq in Hx. cbn in Hx.
  unfold Qlt, Qabs. cbn. lia.
Qed.

Lemma grid_scale j x :
  ~ x == 0 -> Qabs x < pow2 (53 - j) ->
  exists t, (0 <= t)%Z /\ pow2 (- j) == inject_Z (2 ^ t) * ulp x.
Proof.
  intros Hx Hlt. unfold ulp.
  set (e := binade (Qabs (Qred x))).
  assert (He : (e < 53 - j)%Z).
  { apply pow2_lt_inv. eapply Qle_lt_trans; [|exact Hlt].
    rewrite <- (Qabs_wd _ _ (Qred_correct x)). apply binade_lower.
    apply Qabs_pos_nonzero. now rewrite Qred_correct. }
  exists (52 - e - j)%Z. split; [lia|].
  rewrite <- pow2_Z by lia. rewrite <- pow2_add.
  now replace (52 - e - j + (e - 52))%Z with (- j)%Z by lia.
Qed.

Lemma fl_grid_ge j c x :
  Qabs x < pow2 (53 - j) ->
  inject_Z c * pow2 (- j) <= x -> inject_Z c * pow2 (- j) <= fl x.
Proof.
  intros Hlt Hc.
  destruct (Qeq_dec x 0) as [H0|Hx].
  - rewrite (fl_zero x H0). now rewrite <- H0.
  - destruct (grid_scale j x Hx Hlt) as (t & Ht & Hs).
    rewrite (fl_nonzero x Hx). rewrite Hs in Hc |- *.
    rewrite Qmult_assoc, <- inject_Z_mult in Hc |- *.
    assert (Hu : 0 < ulp x) by apply pow2_pos.
    apply Qmult_le_compat_r; [|now apply Qlt_le_weak].
    rewrite <- Zle_Qle. apply rne_ge.
    apply Qle_shift_div_l; [exact Hu|]. now rewrite Qred_correct.
Qed.

Lemma fl_grid_le j c x :
  Qabs x < pow2 (53 - j) ->
  x <= inject_Z c * pow2 (- j) -> fl x <= inject_Z c * pow2 (- j).
Proof.
  intros Hlt Hc.
  destruct (Qeq_dec x 0) as [H0|Hx].
  - rewrite (fl_zero x H0). now rewrite <- H0.
  - destruct (grid_scale j x Hx Hlt) as (t & Ht & Hs).
    rewrite (fl_nonzero x Hx). rewrite Hs in Hc |- *.
    rewrite Qmult_assoc, <- inject_Z_mult in Hc |- *.
    assert (Hu : 0 < ulp x) by apply pow2_pos.
    apply Qmult_le_compat_r; [|now apply Qlt_le_weak].
    rewrite <- Zle_Qle. apply rne_le.
    apply Qle_shift_div_r; [exact Hu|]. now rewrite Qred_correct.
Qed.

(* integers below 2^53 are represented exactly *)
Lemma fl_exact_int (n : Z) : (Z.abs n < 2 ^ 53)%Z -> fl (inject_Z n) == inject_Z n.
Proof.
  intros Hn.
  assert (Hlt : Qabs (inject_Z n) < pow2 (53 - 0)).
  { rewrite pow2_Z by lia. unfold inject_Z at 1. rewrite <- Zabs_Qabs.
    change (Z.abs n # 1) with (inject_Z (Z.abs n)). rewrite <- Zlt_Qlt. exact Hn. }
  assert (Hn1 : inject_Z n * pow2 (- 0) == inject_Z n).
  { change (pow2 (- 0)) with 1. ring. }
  apply Qle_antisym.
  - rewrite <- Hn1 at 2. apply (fl_grid_le 0 n); [exact Hlt|]. rewrite Hn1. apply Qle_refl.
  - rewrite <- Hn1 at 1. apply (fl_grid_ge 0 n); [exact Hlt|]. rewrite Hn1. apply Qle_refl.
Qed.

Lemma fl_ext x y : x == y -> fl x = fl y.
Proof. intros H. unfold fl, ulp. now rewrite (Qred_complete x y H). Qed.

Lemma Math_round_between (k : Z) (y : Q) :
  inject_Z k - (1 # 2) <= y -> y < inject_Z k + (1 # 2) -> Math_round y = k.
Proof.
  intros Hlo Hhi. unfold Math_round.
  assert (H1 : (k <= Qfloor (y + (1 # 2)))%Z).
  { rewrite <- (Qfloor_Z k) at 1. apply Qfloor_resp_le.
    apply Qplus_le_l with (z := - (1 # 2)).
    setoid_replace (y + (1 # 2) + - (1 # 2)) with y using relation Qeq by ring. exact Hlo. }
  assert (H2 : (Qfloor (y + (1 # 2)) < k + 1)%Z).
  { rewrite Zlt_Qlt. eapply Qle_lt_trans; [apply Qfloor_le|].
    rewrite inject_Z_plus.
    apply Qplus_lt_l with (z := - (1 # 2)).
    setoid_replace (y + (1 # 2) + - (1 # 2)) with y using relation Qeq by ring.
    setoid_replace (inject_Z k + inject_Z 1 + - (1 # 2)) with (inject_Z k + (1 # 2)) using relation Qeq by ring.
    exact Hhi. }
  lia.
Qed.

Lemma Math_round_fl (j c k : Z) (x : Q) :
  Qabs x < pow2 (53 - j) -> Qabs x < pow2 (53 - 1) ->
  inject_Z (2 * k - 1) * pow2 (- (1)) <= x ->
  x <= inject_Z c * pow2 (- j) ->
  inject_Z c * pow2 (- j) < inject_Z k + (1 # 2) ->
  Math_round (fl x) = k.
Proof.
  intros Hj H1 Hlo Hhi Hc. apply Math_round_between.
  - apply (fl_grid_ge 1 (2 * k - 1) x H1) in Hlo.
    eapply Qle_trans; [|exact Hlo].
    change (pow2 (- (1))) with (1 # 2).
    q2z.
  - eapply Qle_lt_trans; [|exact Hc]. now apply fl_grid_le.
Qed.

(** On the samples, the product by the literal [1.10] and the quotient by
    10000 are the ones of the standard library's IEEE 754 specification. *)
Example js_mul_is_binary64 :
  forallb (λ n, agrees (SFmul 53 1024 (SFint n)
                          (S754_finite false 4953959590107546 (-52)))
                       (js_mul (of_int (Z.pos n)) (fl (11 # 10))))
    binary64_samples = true.
Proof. by vm_compute. Qed.

Example js_div_is_binary64 :
  forallb (λ n, agrees (SFdiv 53 1024 (SFint n) (SFint 10000))
                       (js_div (of_int (Z.pos n)) (of_int 10000)))
    binary64_samples = true.
Proof. by vm_compute. Qed.

End Binary64.

(** ** The arithmetic of [calculatePricing] *)

Section PricingArithmetic.
Local Open Scope Q_scope.

(** The literal [1.10] is 0x1.199999999999ap+0. *)
Lemma pifFeeMultiplier_value :
  pifFeeMultiplier == 4953959590107546 # 4503599627370496.
Proof. vm_compute. reflexivity. Qed.

(** [Math.round(priceCents * 1.10)] is the exact 110%, rounded half up, for
    every price an INTEGER column can hold. *)
Lemma total_cents_round (n : Z) :
  (0 <= n <= 2147483647)%Z ->
  Math_round (js_mul (of_int n) pifFeeMultiplier) = ((11 * n + 5) / 10)%Z.
Proof.
  intros Hn. unfold js_mul, of_int.
  rewrite (fl_ext _ (inject_Z n * (4953959590107546 # 4503599627370496)))
    by (now rewrite pifFeeMultiplier_value).
  set (k := ((11 * n + 5) / 10)%Z).
  assert (Hk : (10 * k <= 11 * n + 5 < 10 * k + 10)%Z)
    by (subst k; Z.to_euclidean_division_equations; lia).
  assert (Habs : Qabs (inject_Z n * (4953959590107546 # 4503599627370496))
                 == inject_Z n * (4953959590107546 # 4503599627370496)).
  { apply Qabs_pos. q2z. }
  apply (Math_round_fl 4 (16 * k + 7) k); rewrite ?Habs.
  - change (pow2 (53 - 4)) with (inject_Z 562949953421312). q2z.
  - change (pow2 (53 - 1)) with (inject_Z 4503599627370496). q2z.
  - change (pow2 (- (1))) with (1 # 2). q2z.
  - change (pow2 (- (4))) with (1 # 16). q2z.
  - change (pow2 (- (4))) with (1 # 16). q2z.
Qed.

(** The quotient by 10000 of an integer below 2^45, rounded by
    [Math.round], is the exact quotient rounded half up. *)
Lemma Math_round_div_10000 (a : Z) :
  (0 <= a < 2 ^ 45)%Z ->
  Math_round (fl (a # 10000)) = ((a + 5000) / 10000)%Z.
Proof.
  intros Ha.
  set (k := ((a + 5000) / 10000)%Z).
  assert (Hk : (10000 * k <= a + 5000 < 10000 * k + 10000)%Z)
    by (subst k; Z.to_euclidean_division_equations; lia).
  assert (Habs : Qabs (a # 10000) == a # 10000) by (apply Qabs_pos; q2z).
  apply (Math_round_fl 14 (16384 * k + 8191) k); rewrite ?Habs.
  - change (pow2 (53 - 14)) with (inject_Z 549755813888). q2z.
  - change (pow2 (53 - 1)) with (inject_Z 4503599627370496). q2z.
  - change (pow2 (- (1))) with (1 # 2). q2z.
  - change (pow2 (- (14))) with (1 # 16384). q2z.
  - change (pow2 (- (14))) with (1 # 16384). q2z.
Qed.

(** Each payout is the exact share of the base price, rounded half up. *)
Lemma royalty_amount_round (p bp : Z) :
  (0 <= p <= 2147483647)%Z -> (0 <= bp <= 10000)%Z ->
  royalty_amount p bp = ((p * bp + 5000) / 10000)%Z.
Proof.
  intros Hp Hbp. unfold royalty_amount, js_div, js_mul, of_int.
  assert (Hprod : (0 <= p * bp < 2 ^ 45)%Z) by nia.
  rewrite (fl_ext (inject_Z p * inject_Z bp) (inject_Z (p * bp)))
    by (now rewrite inject_Z_mult).
  rewrite (fl_ext (fl (inject_Z (p * bp)) / inject_Z 10000) ((p * bp) # 10000)).
  - now apply Math_round_div_10000.
  - rewrite fl_exact_int by lia. now rewrite (Qmake_Qdiv (p * bp) 10000).
Qed.

End PricingArithmetic.

(** ** Handlers, queries and updates *)

Ltac unfold_handler :=
  unfold serve, reject_if, required, req_json, query, modify in *;
  unfold mbind, handler_bind, mret, handler_ret, respond in *.

Section Queries.
Context {A : Type} (P : A → Prop) `{!∀ r, Decision (P r)}.

Lemma select_single_Some err (l : list A) x :
  select_single err l = Some x → err = false ∧ single l = Some x.
Proof. unfold select_single. by destruct err. Qed.

Lemma single_Some (l : list A) x : single l = Some x → l = [x].
Proof. destruct l as [|a [|b t]]; naive_solver. Qed.

(** A row found by [.single()] is the only row that matches. *)
Lemma single_filter_Some l x :
  single (filter P l) = Some x →
  x ∈ l ∧ P x ∧ ∀ y, y ∈ l → P y → y = x.
Proof.
  intros Hs%single_Some.
  assert (Hx : x ∈ filter P l) by (rewrite Hs; apply list_elem_of_here).
  apply list_elem_of_filter in Hx as [HP Hx]. split_and!; [done..|].
  intros y Hy HPy.
  assert (Hin : y ∈ filter P l) by (by apply list_elem_of_filter).
  rewrite Hs in Hin. by apply list_elem_of_singleton in Hin.
Qed.

(** Updating rows commutes with a filter on a column the update keeps. *)
Lemma filter_update_where (Q : A → Prop) `{!∀ r, Decision (Q r)} f l :
  (∀ r, P (f r) ↔ P r) →
  filter P (update_where Q f l) = update_where Q f (filter P l).
Proof.
  intros Hf. unfold update_where. induction l as [|a l IH]; [done|].
  rewrite fmap_cons, !filter_cons, IH.
  destruct (decide (Q a)) as [HQ|HQ].
  - destruct (decide (P a)) as [Ha|Ha], (decide (P (f a))) as [Hfa|Hfa].
    + rewrite fmap_cons. by rewrite decide_True.
    + exfalso. by apply Hfa, Hf.
    + exfalso. by apply Ha, Hf.
    + done.
  - destruct (decide (P a)); [|done].
    rewrite fmap_cons. by rewrite decide_False.
Qed.

Lemma update_where_Forall2 (R : relation A) f l :
  (∀ r, R r r) → (∀ r, r ∈ l → P r → R r (f r)) →
  Forall2 R l (update_where P f l).
Proof.
  intros Hrefl Hf. unfold update_where.
  apply Forall2_fmap_r, Forall_Forall2_diag, Forall_forall.
  intros r Hr. simpl. destruct (decide (P r)); auto.
Qed.
End Queries.

(** ** Every request makes the order table evolve *)

Lemma orders_evolve_refl os : orders_evolve os os.
Proof.
  exists os, []. rewrite app_nil_r. split_and!; [done| |constructor].
  apply Forall_Forall2_diag, Forall_forall. intros; constructor.
Qed.

Lemma orders_evolve_update os (P : Order → Prop) `{!∀ r, Decision (P r)} f :
  (∀ r, r ∈ os → P r → order_step r (f r)) →
  orders_evolve os (update_where P f os).
Proof.
  intros Hf. exists (update_where P f os), []. rewrite app_nil_r.
  split_and!; [done| |constructor].
  apply update_where_Forall2; [constructor | done].
Qed.

Lemma orders_evolve_insert os o :
  payment_status o = pending → download_token o = None →
  orders_evolve os (os ++ [o]).
Proof.
  intros. exists os, [o]. split_and!; [done| |by repeat constructor].
  apply Forall_Forall2_diag, Forall_forall. intros; constructor.
Qed.

Lemma create_checkout_evolves req env db :
  orders_evolve (orders db) (orders (serve (create_checkout req env) db).1).
Proof.
  unfold create_checkout. unfold_handler.
  repeat (case_match; simplify_eq/=); try apply orders_evolve_refl.
  all: by apply orders_evolve_insert.
Qed.

Lemma stripe_webhook_evolves req env db :
  orders_evolve (orders db) (orders (serve (stripe_webhook req env) db).1).
Proof.
  unfold stripe_webhook, handleCheckoutCompleted, handlePaymentFailed.
  unfold_handler.
  repeat (case_match; simplify_eq/=); try apply orders_evolve_refl.
  all: apply orders_evolve_update; intros; constructor.
Qed.

Lemma resend_download_evolves req env db :
  orders_evolve (orders db) (orders (serve (resend_download req env) db).1).
Proof.
  unfold resend_download. unfold_handler.
  repeat (case_match; simplify_eq/=); try apply orders_evolve_refl.
  all: apply orders_evolve_update; intros r Hr Hid; constructor.
  all: match goal with
       | H : select_single _ (orders_by_id _ _) = Some ?o |- _ =>
         apply select_single_Some in H as [_ H];
         apply single_filter_Some in H as (_ & Ho & Huniq);
         rewrite (Huniq r Hr) by congruence
       end.
  all: match goal with
       | H : negb (bool_decide (payment_status _ = paid)) = false |- _ =>
         apply negb_false_iff, bool_decide_eq_true in H; exact H
       end.
Qed.

Lemma download_evolves req env db :
  orders_evolve (orders db) (orders (serve (download req env) db).1).
Proof.
  unfold download. unfold_handler.
  repeat (case_match; simplify_eq/=); try apply orders_evolve_refl.
  all: apply orders_evolve_update; intros; constructor.
Qed.

Lemma step_evolves db db' : step db db' → orders_evolve (orders db) (orders db').
Proof.
  destruct 1; auto using create_checkout_evolves, stripe_webhook_evolves,
    resend_download_evolves, download_evolves.
Qed.

(** ** The order invariant *)

Lemma order_step_ok o o' : order_step o o' → order_ok o → order_ok o'.
Proof.
  unfold order_ok. destruct 1 as [o|o ? ? ?|o ? ? ? Hpaid|o ? ?]; simpl;
    intros [H1 H2]; split; try done.
  intros _. split; [|done]. by destruct (H2 Hpaid).
Qed.

Lemma order_step_paid o o' :
  order_step o o' → payment_status o = paid → payment_status o' = paid.
Proof. by destruct 1. Qed.

Lemma orders_evolve_ok os os' :
  orders_evolve os os' → Forall order_ok os → Forall order_ok os'.
Proof.
  intros (os1 & new & -> & Hstep & Hnew) Hok. apply Forall_app. split.
  - clear Hnew. induction Hstep as [|o o' os os1 Ho _ IH]; [constructor|].
    apply Forall_cons in Hok as [Hok1 Hok2]. constructor; eauto using order_step_ok.
  - eapply Forall_impl; [exact Hnew|]. intros o [Hp Ht]. unfold order_ok.
    rewrite Hp, Ht. split; [done|discriminate].
Qed.

Lemma orders_evolve_paid os os' i o :
  orders_evolve os os' → os !! i = Some o → payment_status o = paid →
  ∃ o', os' !! i = Some o' ∧ payment_status o' = paid.
Proof.
  intros (os1 & new & -> & Hstep & _) Hi Hpaid.
  destruct (Forall2_lookup_l _ _ _ _ _ Hstep Hi) as (o' & Hi' & Ho).
  exists o'. split; [|eauto using order_step_paid].
  by apply lookup_app_l_Some.
Qed.

(** C2 — the order invariant is kept by every request served by
    create-checkout, stripe-webhook, resend-download and download, whatever
    the request, the clock, the generated identifiers and the database
    errors: along any sequence of requests, a [download_token] is present
    only on a [paid] order, a [paid] order has a [paid_at] and a
    [download_token], and an order that was seen [paid] stays [paid] (so it
    is never seen [failed] afterwards). *)
Theorem order_invariant_preserved (db db' : DB) :
  rtc step db db' →
  Forall order_ok (orders db) →
  Forall order_ok (orders db') ∧
  ∀ i o, orders db !! i = Some o → payment_status o = paid →
    ∃ o', orders db' !! i = Some o' ∧
          payment_status o' = paid ∧ payment_status o' ≠ failed.
Proof.
  induction 1 as [db|db db1 db2 Hstep _ IH]; intros Hok.
  - split; [done|]. intros i o Hi Hp. exists o. by rewrite Hp.
  - apply step_evolves in Hstep.
    destruct (IH (orders_evolve_ok _ _ Hstep Hok)) as [Hok2 Hpaid2].
    split; [done|]. intros i o Hi Hp.
    destruct (orders_evolve_paid _ _ _ _ Hstep Hi Hp) as (o1 & Hi1 & Hp1).
    exact (Hpaid2 i o1 Hi1 Hp1).
Qed.

(** ** Royalty calculator *)

Section RoyaltyCalculator.

(** The exact decimal rounding, in closed form. *)
Lemma round_half_up_110 (n : Z) :
  round_half_up (inject_Z n * (11 # 10)) = (11 * n + 5) / 10.
Proof.
  unfold round_half_up, Qfloor, Qplus, Qmult, inject_Z. cbn [Qnum Qden].
  change (Z.pos (1 * 10 * 2)) with 20. change (Z.pos (1 * 10)) with 10.
  Z.to_euclidean_division_equations. lia.
Qed.

Lemma round_half_up_share (p bp : Z) :
  round_half_up (inject_Z p * inject_Z bp / inject_Z 10000) = (p * bp + 5000) / 10000.
Proof.
  unfold round_half_up, Qfloor, Qdiv, Qplus, Qmult, Qinv, inject_Z. cbn [Qnum Qden].
  change (Z.pos (1 * 1 * 10000 * 2)) with 20000.
  change (Z.pos (1 * 1 * 10000)) with 10000.
  Z.to_euclidean_division_equations. lia.
Qed.

Lemma sum_Z_nonneg_elem (l : list Z) x :
  Forall (λ y, 0 ≤ y) l → x ∈ l → x ≤ sum_Z l.
Proof.
  induction 1 as [|y l Hy Hl IH]; [by intros ?%elem_of_nil|].
  assert (0 ≤ sum_Z l) by (clear -Hl; induction Hl; simpl; lia).
  intros [->|Hx]%elem_of_cons; simpl; [lia|]. specialize (IH Hx). lia.
Qed.

Lemma sum_rounded_le (p : Z) (l : list Z) :
  10000 * sum_Z ((λ bp, (p * bp + 5000) / 10000) <$> l)
    ≤ p * sum_Z l + 5000 * Z.of_nat (length l).
Proof.
  induction l as [|bp l IH]; [simpl; lia|].
  rewrite fmap_cons. cbn [sum_Z foldr length]. fold (sum_Z l).
  fold (sum_Z ((λ bp, (p * bp + 5000) / 10000) <$> l)).
  assert (10000 * ((p * bp + 5000) / 10000) ≤ p * bp + 5000)
    by (Z.to_euclidean_division_equations; lia).
  lia.
Qed.

(** The rows the webhook builds carry the amounts [calculatePricing]
    computes for the order's base price. *)
Lemma payout_rows_amounts order royaltyChain :
  amount_cents <$> payout_rows order royaltyChain =
  pl_amount_cents <$>
    pr_payouts (calculatePricing (total_cents order - pif_fee_cents order) royaltyChain).
Proof.
  unfold payout_rows, calculatePricing. cbn [pr_payouts].
  rewrite <- !list_fmap_compose. reflexivity.
Qed.

End RoyaltyCalculator.

(** C5, as the code has it — for every base price of the [price_cents]
    column (a non-negative 32-bit integer), [calculatePricing] charges the
    base price times 1.10 rounded half up, and the platform fee is the
    charge minus the base price; for a base price of 500 and one
    participant holding 10000 basis points the fee is 50, the total 550
    and the payouts [500]. *)
Theorem pricing_total_and_fee (priceCents : Z) (royaltyChain : list RoyaltyEntry) :
  0 ≤ priceCents ≤ 2147483647 →
  let pricing := calculatePricing priceCents royaltyChain in
  pr_total_cents pricing = round_half_up (inject_Z priceCents * (11 # 10)) ∧
  pr_pif_fee_cents pricing = pr_total_cents pricing - priceCents ∧
  ∀ participant, share_basis_points participant = 10000 →
    let single_split := calculatePricing 500 [participant] in
    pr_pif_fee_cents single_split = 50 ∧
    pr_total_cents single_split = 550 ∧
    pl_amount_cents <$> pr_payouts single_split = [500].
Proof.
  intros Hp. cbn zeta. split_and!.
  - rewrite round_half_up_110. cbn [calculatePricing pr_total_cents].
    by apply total_cents_round.
  - reflexivity.
  - intros participant Hbp. unfold calculatePricing.
    cbn [pr_pif_fee_cents pr_total_cents pr_payouts].
    rewrite total_cents_round by lia. split_and!; [done..|].
    cbn [fmap list_fmap pl_amount_cents]. rewrite Hbp.
    by rewrite royalty_amount_round by lia.
Qed.

Lemma pricing_total_and_fee_witness :
  pr_total_cents (calculatePricing 500 [Sample.originator]) = 550 ∧
  pr_pif_fee_cents (calculatePricing 500 [Sample.originator]) = 50.
Proof.
  destruct (pricing_total_and_fee 500 [Sample.originator]) as (Ht & Hf & _).
  - lia.
  - rewrite Hf, Ht. split; reflexivity.
Defined.

(** C5, beyond the column — [calculatePricing] itself accepts any number,
    and for a large base price the binary64 product is not the exact one:
    a base price of 600000000000004 is charged 660000000000005, while the
    base price times 1.10 rounded half up is 660000000000004. *)
Lemma total_differs_for_large_price :
  0 ≤ 600000000000004 ∧
  pr_total_cents (calculatePricing 600000000000004 []) = 660000000000005 ∧
  round_half_up (inject_Z 600000000000004 * (11 # 10)) = 660000000000004 ∧
  pr_total_cents (calculatePricing 600000000000004 [])
    ≠ round_half_up (inject_Z 600000000000004 * (11 # 10)).
Proof. split_and!; [lia | by vm_compute | by vm_compute | by vm_compute]. Qed.




(** ** Checkout orchestrator *)

Section Checkout.
Context (db : DB) (env : CheckoutEnv) (file_id buyer_email : string).

(** With the purchase flag off (or unreadable) the request is refused
    before anything is written. *)
Lemma checkout_purchase_disabled :
  file_id ≠ "" → buyer_email ≠ "" →
  isPurchaseEnabled (ce_flag_error env) db = false →
  serve (create_checkout (checkout_request file_id buyer_email) env) db =
    (db, error_response 403 "Marketplace purchases are currently disabled").
Proof.
  intros Hf Hb Hflag. unfold create_checkout, checkout_request. simpl.
  unfold_handler. simpl.
  rewrite (bool_decide_eq_false_2 _ Hf), (bool_decide_eq_false_2 _ Hb). simpl.
  by rewrite Hflag.
Qed.

Context (fileRow : FileRow).
Context (Hreach : checkout_reaches_royalty db env file_id buyer_email fileRow).

Lemma checkout_chain_missing :
  select_royalty_chain (ce_royalty_error env) file_id db = None ∨
  select_royalty_chain (ce_royalty_error env) file_id db = Some [] →
  serve (create_checkout (checkout_request file_id buyer_email) env) db =
    (db, royalty_chain_not_configured).
Proof.
  destruct Hreach as (Hf & Hb & Hflag & Hfile & Hstage).
  intros Hchain. unfold create_checkout, checkout_request. simpl.
  unfold_handler. simpl.
  rewrite (bool_decide_eq_false_2 _ Hf), (bool_decide_eq_false_2 _ Hb). simpl.
  rewrite Hflag. simpl. rewrite Hfile. simpl.
  rewrite (bool_decide_eq_true_2 _ Hstage). simpl.
  by destruct Hchain as [-> | ->].
Qed.

Lemma checkout_chain_present royaltyChain :
  select_royalty_chain (ce_royalty_error env) file_id db = Some royaltyChain →
  royaltyChain ≠ [] →
  ce_insert_error env = false →
  serve (create_checkout (checkout_request file_id buyer_email) env) db =
    (set_orders (λ os, os ++
       [pending_order (ce_order_uuid env) file_id buyer_email
          ("cs_test_" +:+ ce_session_uuid env)
          (calculatePricing (price_cents fileRow) royaltyChain)]) db,
     checkout_created env).
Proof.
  destruct Hreach as (Hf & Hb & Hflag & Hfile & Hstage).
  intros Hchain Hne Hins. unfold create_checkout, checkout_request. simpl.
  unfold_handler. simpl.
  rewrite (bool_decide_eq_false_2 _ Hf), (bool_decide_eq_false_2 _ Hb). simpl.
  rewrite Hflag. simpl. rewrite Hfile. simpl.
  rewrite (bool_decide_eq_true_2 _ Hstage). simpl.
  rewrite Hchain. destruct royaltyChain as [|entry chain]; [done|].
  by rewrite Hins.
Qed.

End Checkout.

(** C4, as the code has it — the only split create-checkout rejects is the
    empty one (or one it cannot fetch): the request then fails with status
    500, royalty chain not configured, before any order is written, whatever
    the base price.  The sum of the shares is never looked at: any
    non-empty split is priced by [calculatePricing], which has no failure
    outcome, and the pending order is created. *)
Theorem checkout_rejects_only_empty_split
    (db : DB) (env : CheckoutEnv) (file_id buyer_email : string) (fileRow : FileRow) :
  checkout_reaches_royalty db env file_id buyer_email fileRow →
  let outcome :=
    serve (create_checkout (checkout_request file_id buyer_email) env) db in
  ((select_royalty_chain (ce_royalty_error env) file_id db = None ∨
    select_royalty_chain (ce_royalty_error env) file_id db = Some []) →
   outcome = (db, royalty_chain_not_configured)) ∧
  (∀ royaltyChain,
     select_royalty_chain (ce_royalty_error env) file_id db = Some royaltyChain →
     royaltyChain ≠ [] →
     ce_insert_error env = false →
     outcome.2 = checkout_created env ∧
     orders outcome.1 = orders db ++
       [pending_order (ce_order_uuid env) file_id buyer_email
          ("cs_test_" +:+ ce_session_uuid env)
          (calculatePricing (price_cents fileRow) royaltyChain)]).
Proof.
  intros Hreach. cbn zeta. split.
  - by apply (checkout_chain_missing _ _ _ _ _ Hreach).
  - intros royaltyChain Hchain Hne Hins.
    by rewrite (checkout_chain_present _ _ _ _ _ Hreach royaltyChain).
Qed.

Lemma checkout_rejects_only_empty_split_witness :
  (serve (create_checkout (checkout_request "file-3" "buyer@example.com")
            Sample.checkout_env) Sample.shop).2
  = checkout_created Sample.checkout_env.
Proof.
  destruct (checkout_rejects_only_empty_split Sample.shop Sample.checkout_env
              "file-3" "buyer@example.com"
              (mkFile "file-3" "Shelf" 100 listed "member-1/file-3/shelf.dxf"))
    as [_ Hpresent].
  - by vm_compute.
  - destruct (Hpresent [Sample.short_share]) as [Hresp _];
      [by vm_compute | done | done | exact Hresp].
Defined.

(** C4, as stated, fails: a listed file whose only share is 9999 basis
    points is priced and its checkout opens; no error is raised, neither by
    [calculatePricing] nor by the handler. *)
Lemma split_sum_is_not_checked :
  sum_shares (royalty_chain_of "file-3" Sample.shop) = 9999 ∧
  pl_amount_cents <$>
    pr_payouts (calculatePricing 100 (royalty_chain_of "file-3" Sample.shop)) = [100] ∧
  let outcome :=
    serve (create_checkout (checkout_request "file-3" "buyer@example.com")
             Sample.checkout_env) Sample.shop in
  status outcome.2 = 200 ∧
  (payment_status <$> orders outcome.1) = [pending].
Proof. by vm_compute. Qed.

(** C9 — the code at the failing input: with the master switch off and
    [marketplace_purchase] on, the site's own [isFeatureEnabled] reports the
    purchase feature as disabled, yet create-checkout, which reads the
    [marketplace_purchase] row only, opens the checkout and writes the
    pending order. *)
Theorem checkout_ignores_master_switch :
  override_controls Sample.shop_master_off !! "master_switch" = Some false ∧
  isFeatureEnabled Sample.shop_master_off "marketplace_purchase" = false ∧
  let outcome :=
    serve (create_checkout (checkout_request "file-1" "buyer@example.com")
             Sample.checkout_env) Sample.shop_master_off in
  outcome.2 = checkout_created Sample.checkout_env ∧
  (λ o, (o_id o, payment_status o, total_cents o)) <$> orders outcome.1
    = [("order-1", pending, 550)].
Proof. by vm_compute. Qed.

(** ** Payment event processor *)

Section CheckoutCompleted.
Context (signature sessionId fileId buyerEmail : string).
Context (Hsignature : signature ≠ "") (HfileId : fileId ≠ "")
        (HbuyerEmail : buyerEmail ≠ "").

(** One processing of the notification, when the order is found and the
    database answers: the paid update on the order's id, then the payout
    rows, then the acknowledgement — with no look at [payment_status]. *)
Lemma checkout_completed_once db env order :
  single (orders_by_session sessionId db) = Some order →
  fault_free_webhook env →
  serve (stripe_webhook
           (completed_request signature sessionId fileId buyerEmail) env) db =
    (set_payouts (λ ps, ps ++ payout_rows order (royalty_chain_of fileId db))
       (set_orders (update_where (λ o, o_id o = o_id order) (paid_by env)) db),
     received).
Proof.
  intros Hfound (Herr & Hupd & Hroy & Hpay).
  unfold stripe_webhook, completed_request, verifyStripeSignature. simpl.
  rewrite (bool_decide_eq_false_2 _ Hsignature).
  unfold handleCheckoutCompleted, completed_session. simpl.
  unfold_handler. simpl.
  rewrite (bool_decide_eq_false_2 _ HfileId), (bool_decide_eq_false_2 _ HbuyerEmail).
  simpl. unfold select_single. rewrite Herr, Hfound. simpl.
  rewrite Hupd. simpl. unfold select_royalty_chain. rewrite Hroy.
  change (royalty_chain_of fileId (set_orders _ db)) with (royalty_chain_of fileId db).
  destruct (royalty_chain_of fileId db) as [|entry chain] eqn:Hchain.
  - unfold set_payouts, set_orders. simpl. by rewrite app_nil_r.
  - by rewrite Hpay.
Qed.

(** The processed order is found again by the same session id. *)
Lemma checkout_completed_found_again db env order :
  single (orders_by_session sessionId db) = Some order →
  single (orders_by_session sessionId
            (set_payouts (λ ps, ps ++ payout_rows order (royalty_chain_of fileId db))
               (set_orders (update_where (λ o, o_id o = o_id order) (paid_by env)) db)))
  = Some (paid_by env order).
Proof.
  intros Hfound%single_Some. unfold orders_by_session in *. simpl.
  rewrite filter_update_where by done. rewrite Hfound.
  unfold update_where. simpl. by rewrite decide_True.
Qed.

End CheckoutCompleted.

(** C1, as the code has it — processing a CheckoutCompleted notification
    does not look at the order's payment state.  Every processing of the
    notification for an order found by its session id is acknowledged with
    success, rewrites the order as paid with the download token, expiry and
    [paid_at] of that processing, and appends one pending payout row per
    royalty-chain entry; processed twice, the notification leaves two
    batches of payout rows and the token and [paid_at] of the second
    processing. *)
Theorem checkout_completed_replay
    (db : DB) (signature sessionId fileId buyerEmail : string)
    (order : Order) (env1 env2 : WebhookEnv) :
  signature ≠ "" → fileId ≠ "" → buyerEmail ≠ "" →
  single (orders_by_session sessionId db) = Some order →
  fault_free_webhook env1 → fault_free_webhook env2 →
  let notification := completed_request signature sessionId fileId buyerEmail in
  let batch := payout_rows order (royalty_chain_of fileId db) in
  let first := serve (stripe_webhook notification env1) db in
  let second := serve (stripe_webhook notification env2) first.1 in
  first.2 = received ∧ second.2 = received ∧
  payouts first.1 = payouts db ++ batch ∧
  payouts second.1 = payouts db ++ batch ++ batch ∧
  Forall (λ row, p_status row = payout_pending) batch ∧
  length batch = length (royalty_chain_of fileId db) ∧
  single (orders_by_session sessionId first.1) = Some (paid_by env1 order) ∧
  single (orders_by_session sessionId second.1) = Some (paid_by env2 order).
Proof.
  intros Hsig Hfile Hbuyer Hfound Hff1 Hff2. cbn zeta.
  rewrite (checkout_completed_once _ _ _ _ Hsig Hfile Hbuyer db env1 order Hfound Hff1).
  pose proof (checkout_completed_found_again sessionId fileId db env1 order Hfound)
    as Hfound1.
  cbn [fst snd].
  rewrite (checkout_completed_once _ _ _ _ Hsig Hfile Hbuyer _ env2 _ Hfound1 Hff2).
  pose proof (checkout_completed_found_again sessionId fileId _ env2 _ Hfound1)
    as Hfound2.
  cbn [fst snd]. split_and!; try done.
  - simpl. by rewrite <- app_assoc.
  - unfold payout_rows. apply Forall_fmap, Forall_forall. by intros.
  - unfold payout_rows. by rewrite length_fmap.
Qed.

Lemma checkout_completed_replay_witness :
  length (payouts Sample.shop_paid_twice) = 2%nat.
Proof.
  destruct (checkout_completed_replay Sample.shop_pending
              "t=1,v1=abc" "cs_test_sess-1" "file-1" "buyer@example.com"
              (pending_order "order-1" "file-1" "buyer@example.com" "cs_test_sess-1"
                 (calculatePricing 500 [Sample.originator]))
              Sample.delivery_1 Sample.delivery_2)
    as (_ & _ & _ & Htwice & _); [done | done | done | by vm_compute | done | done |].
  unfold Sample.shop_paid_twice, Sample.shop_paid, Sample.completed.
  rewrite Htwice. by vm_compute.
Defined.

(** C1, as stated, fails: the same CheckoutCompleted notification processed
    twice for the one order of the sample shop leaves two payout rows where
    its royalty chain has one entry, replaces [paid_at], and replaces the
    download token of the already paid order. *)
Lemma checkout_completed_not_idempotent :
  length (royalty_chain_of "file-1" Sample.shop_pending) = 1%nat ∧
  (payment_status <$> orders Sample.shop_paid) = [paid] ∧
  length (payouts Sample.shop_paid) = 1%nat ∧
  length (payouts Sample.shop_paid_twice) = 2%nat ∧
  (paid_at <$> orders Sample.shop_paid) = [Some 1001] ∧
  (paid_at <$> orders Sample.shop_paid_twice) = [Some 5001] ∧
  (download_token <$> orders Sample.shop_paid) = [Some "token-1"] ∧
  (download_token <$> orders Sample.shop_paid_twice) = [Some "token-2"] ∧
  (serve (stripe_webhook Sample.completed Sample.delivery_2) Sample.shop_paid).2
    = received ∧
  orders Sample.shop_paid_twice ≠ orders Sample.shop_paid ∧
  payouts Sample.shop_paid_twice ≠ payouts Sample.shop_paid.
Proof. split_and!; by vm_compute. Qed.

(** C8 — the code at the failing input: a PaymentFailed notification never
    changes the database, so the pending order of the sample shop is still
    pending after it was acknowledged. *)
Theorem payment_failed_leaves_order_pending :
  (∀ db paymentIntent,
     serve (handlePaymentFailed paymentIntent) db = (db, received)) ∧
  (payment_status <$> orders Sample.shop_pending) = [pending] ∧
  serve (stripe_webhook (failed_request "t=1,v1=abc" "pi_1") Sample.delivery_1)
        Sample.shop_pending
    = (Sample.shop_pending, received).
Proof. split_and!; [done | by vm_compute | by vm_compute]. Qed.

(** C10 — a signed, parsed notification whose type is neither
    [checkout.session.completed] nor [payment_intent.payment_failed] is
    acknowledged with status 200 ([handled: false]) and the database — every
    order and payout row included — is left as it was. *)
Theorem unhandled_event_acknowledged
    (db : DB) (req : WebhookRequest) (env : WebhookEnv) (event : StripeEvent) :
  wr_method req = "POST" →
  falsy (wr_signature req) = false →
  wr_json req = Some event →
  ev_type event ≠ Some "checkout.session.completed" →
  ev_type event ≠ Some "payment_intent.payment_failed" →
  let outcome := serve (stripe_webhook req env) db in
  outcome.2 = mkResponse 200 (Received (Some false)) ∧
  outcome.1 = db ∧
  orders outcome.1 = orders db ∧ payouts outcome.1 = payouts db.
Proof.
  intros Hmethod Hsig Hjson Hcompleted Hfailed. cbn zeta.
  assert (Hserve : serve (stripe_webhook req env) db
                   = (db, mkResponse 200 (Received (Some false)))).
  { unfold stripe_webhook, verifyStripeSignature.
    rewrite Hmethod, Hsig, Hjson.
    by rewrite (bool_decide_eq_false_2 _ Hcompleted),
               (bool_decide_eq_false_2 _ Hfailed). }
  by rewrite Hserve.
Qed.

Lemma unhandled_event_acknowledged_witness :
  (serve (stripe_webhook Sample.unknown_event Sample.delivery_1) Sample.shop_paid).1
  = Sample.shop_paid.
Proof.
  destruct (unhandled_event_acknowledged Sample.shop_paid Sample.unknown_event
              Sample.delivery_1 (mkStripeEvent (Some "customer.created") None))
    as (_ & Hdb & _); [done | done | done | done | done | exact Hdb].
Defined.

(** ** Download credential manager: renewal *)

Section Renew.
Context (db : DB) (user : User) (order_id : string) (order : Order).
Context (Hrenewable : renewable db user order_id order).

Lemma renew_below_cap env :
  fault_free_resend env →
  default 0 (delivery_email_retries order) < 5 →
  serve (resend_download (renew_request user order_id) env) db =
    (set_orders (update_where (λ o, o_id o = o_id order) (renewed env order)) db,
     mkResponse 200 SuccessBody).
Proof.
  destruct Hrenewable as (Hid & Hfound & Hown & Hpaid).
  intros [Herr Hupd] Hlt. unfold resend_download, renew_request. simpl.
  unfold_handler. simpl.
  rewrite (bool_decide_eq_false_2 _ Hid). simpl.
  unfold select_single. rewrite Herr, Hfound. simpl.
  rewrite (bool_decide_eq_true_2 _ Hown), (bool_decide_eq_true_2 _ Hpaid). simpl.
  rewrite bool_decide_eq_false_2 by (unfold MAX_DELIVERY_RETRIES; lia).
  by rewrite Hupd.
Qed.

Lemma renew_at_cap env :
  fault_free_resend env →
  5 ≤ default 0 (delivery_email_retries order) →
  serve (resend_download (renew_request user order_id) env) db =
    (db, retry_limit_exceeded).
Proof.
  destruct Hrenewable as (Hid & Hfound & Hown & Hpaid).
  intros [Herr Hupd] Hlt. unfold resend_download, renew_request. simpl.
  unfold_handler. simpl.
  rewrite (bool_decide_eq_false_2 _ Hid). simpl.
  unfold select_single. rewrite Herr, Hfound. simpl.
  rewrite (bool_decide_eq_true_2 _ Hown), (bool_decide_eq_true_2 _ Hpaid). simpl.
  by rewrite bool_decide_eq_true_2 by (unfold MAX_DELIVERY_RETRIES; lia).
Qed.

(** After a renewal the order is still the requester's paid order. *)
Lemma renewed_renewable env :
  renewable
    (set_orders (update_where (λ o, o_id o = o_id order) (renewed env order)) db)
    user order_id (renewed env order order).
Proof.
  destruct Hrenewable as (Hid & Hfound & Hown & Hpaid).
  split_and!; try done.
  unfold orders_by_id, set_orders. simpl.
  rewrite filter_update_where by done.
  apply single_Some in Hfound. unfold orders_by_id in Hfound. rewrite Hfound.
  unfold update_where. simpl. by rewrite decide_True.
Qed.

End Renew.

(** Six renewals of an order that has had none. *)
Lemma renew_six_times db user order_id order e1 e2 e3 e4 e5 e6 :
  renewable db user order_id order →
  default 0 (delivery_email_retries order) = 0 →
  Forall fault_free_resend [e1; e2; e3; e4; e5; e6] →
  let run := serve_each (resend_download (renew_request user order_id))
               [e1; e2; e3; e4; e5; e6] db in
  status <$> run.2 = [200; 200; 200; 200; 200; 429] ∧
  ∃ order5, single (orders_by_id order_id run.1) = Some order5 ∧
    delivery_email_retries order5 = Some 5 ∧
    download_token order5 = Some (re_uuid e5) ∧
    download_expires_at order5 = Some (re_now e5 + 72 * 60 * 60 * 1000).
Proof.
  intros Hr H0 Hff.
  repeat match goal with
         | H : Forall _ (_ :: _) |- _ => apply Forall_cons in H as [? H]
         end.
  simpl.
  pose proof (renewed_renewable _ _ _ _ Hr e1) as Hr1.
  rewrite (renew_below_cap _ _ _ _ Hr e1) by (done || lia).
  pose proof (renewed_renewable _ _ _ _ Hr1 e2) as Hr2.
  rewrite (renew_below_cap _ _ _ _ Hr1 e2) by (done || (simpl; lia)).
  pose proof (renewed_renewable _ _ _ _ Hr2 e3) as Hr3.
  rewrite (renew_below_cap _ _ _ _ Hr2 e3) by (done || (simpl; lia)).
  pose proof (renewed_renewable _ _ _ _ Hr3 e4) as Hr4.
  rewrite (renew_below_cap _ _ _ _ Hr3 e4) by (done || (simpl; lia)).
  pose proof (renewed_renewable _ _ _ _ Hr4 e5) as Hr5.
  rewrite (renew_below_cap _ _ _ _ Hr4 e5) by (done || (simpl; lia)).
  rewrite (renew_at_cap _ _ _ _ Hr5 e6) by (done || (simpl; lia)).
  simpl. split; [done|].
  eexists. split; [apply Hr5|]. simpl. by rewrite H0.
Qed.

(** C6 — for a paid order requested by its buyer (and a database that
    answers), resend-download succeeds exactly while
    [delivery_email_retries] is below 5: it then stores the freshly
    generated token, the expiry now + 72 h and the incremented counter, and
    answers 200; from 5 on it answers 429 and changes nothing.  Starting
    from an order never renewed, the first five calls succeed — the fifth
    leaves the counter at 5 with its own token and expiry — and the sixth
    is refused with 429. *)
Theorem renew_retry_cap
    (db : DB) (user : User) (order_id : string) (order : Order) :
  renewable db user order_id order →
  let retries := default 0 (delivery_email_retries order) in
  (∀ env, fault_free_resend env →
     let outcome := serve (resend_download (renew_request user order_id) env) db in
     (retries < 5 →
        outcome.2 = mkResponse 200 SuccessBody ∧
        orders outcome.1 =
          update_where (λ o, o_id o = o_id order)
            (renew_token (re_uuid env) (re_now env + 72 * 60 * 60 * 1000)
               (retries + 1))
            (orders db) ∧
        single (orders_by_id order_id outcome.1) =
          Some (renew_token (re_uuid env) (re_now env + 72 * 60 * 60 * 1000)
                  (retries + 1) order)) ∧
     (5 ≤ retries → outcome = (db, retry_limit_exceeded))) ∧
  (retries = 0 →
   ∀ e1 e2 e3 e4 e5 e6, Forall fault_free_resend [e1; e2; e3; e4; e5; e6] →
     let run := serve_each (resend_download (renew_request user order_id))
                  [e1; e2; e3; e4; e5; e6] db in
     status <$> run.2 = [200; 200; 200; 200; 200; 429] ∧
     ∃ order5, single (orders_by_id order_id run.1) = Some order5 ∧
       delivery_email_retries order5 = Some 5 ∧
       download_token order5 = Some (re_uuid e5) ∧
       download_expires_at order5 = Some (re_now e5 + 72 * 60 * 60 * 1000)).
Proof.
  intros Hrenewable. cbn zeta. split.
  - intros env Hff. split.
    + intros Hlt. rewrite (renew_below_cap _ _ _ _ Hrenewable env Hff Hlt).
      split_and!; [done..|].
      by destruct (renewed_renewable _ _ _ _ Hrenewable env) as (_ & Hfound & _).
    + intros Hge. by apply (renew_at_cap _ _ _ _ Hrenewable).
  - intros H0 e1 e2 e3 e4 e5 e6 Hff.
    by apply (renew_six_times db user order_id order).
Qed.

Lemma renew_retry_cap_witness :
  status <$> (serve_each (resend_download (renew_request Sample.buyer "order-1"))
                [Sample.resend_env "r1" 2001; Sample.resend_env "r2" 2002;
                 Sample.resend_env "r3" 2003; Sample.resend_env "r4" 2004;
                 Sample.resend_env "r5" 2005; Sample.resend_env "r6" 2006]
                Sample.shop_paid).2
  = [200; 200; 200; 200; 200; 429].
Proof.
  destruct (renew_retry_cap Sample.shop_paid Sample.buyer "order-1" Sample.paid_order)
    as [_ Hsix].
  - by vm_compute.
  - destruct (Hsix eq_refl
                (Sample.resend_env "r1" 2001) (Sample.resend_env "r2" 2002)
                (Sample.resend_env "r3" 2003) (Sample.resend_env "r4" 2004)
                (Sample.resend_env "r5" 2005) (Sample.resend_env "r6" 2006))
      as [Hstatus _]; [by repeat constructor | exact Hstatus].
Defined.

(** ** Download credential manager: redemption *)

Section Redeem.
Context (db : DB) (token : string) (order : Order) (expiresAt : Z)
        (env : DownloadEnv) (requester : option User).
Context (Htoken : token ≠ "")
        (Hfound : select_single (de_order_error env) (orders_by_token token db)
                  = Some order)
        (Hpaid : payment_status order = paid)
        (Hexpiry : download_expires_at order = Some expiresAt)
        (Hpast : expiresAt < de_now env).

Lemma redeem_expired_not_owner :
  requester ≫= user_email ≠ Some (buyer_email order) →
  serve (download (redeem_request token requester) env) db = (db, link_expired).
Proof.
  intros Hnot. unfold download, redeem_request. simpl. unfold_handler. simpl.
  rewrite (bool_decide_eq_false_2 _ Htoken). simpl. rewrite Hfound. simpl.
  rewrite (bool_decide_eq_true_2 _ Hpaid). simpl.
  unfold isExpired, isOwner. rewrite Hexpiry.
  rewrite (bool_decide_eq_true_2 _ Hpast).
  by rewrite (bool_decide_eq_false_2 _ Hnot).
Qed.

Lemma redeem_expired_owner fileRow :
  requester ≫= user_email = Some (buyer_email order) →
  select_single (de_file_error env) (files_by_id (o_file_id order) db)
    = Some fileRow →
  serve (download (redeem_request token requester) env) db =
    ((if de_track_error env then db
      else set_orders
             (update_where (λ o, o_id o = o_id order)
                (track_download (de_now env)
                   (default 0 (download_attempts order) + 1))) db),
     mkResponse 302 (Redirect (placeholder_signed_url (storage_path fileRow)))).
Proof.
  intros Howner Hfile. unfold download, redeem_request. simpl.
  unfold_handler. simpl.
  rewrite (bool_decide_eq_false_2 _ Htoken). simpl. rewrite Hfound. simpl.
  rewrite (bool_decide_eq_true_2 _ Hpaid). simpl.
  unfold isExpired, isOwner. rewrite Hexpiry.
  rewrite (bool_decide_eq_true_2 _ Hpast).
  rewrite (bool_decide_eq_true_2 _ Howner). simpl.
  rewrite Hfile. simpl. by destruct (de_track_error env).
Qed.

End Redeem.

Lemma update_where_column {A B} (P : A → Prop) `{!∀ r, Decision (P r)}
    (f : A → A) (col : A → B) (rows : list A) :
  (∀ r, col (f r) = col r) → col <$> update_where P f rows = col <$> rows.
Proof.
  intros Hcol. unfold update_where. rewrite <- list_fmap_compose.
  apply list_fmap_ext. intros i r _. simpl. by destruct (decide (P r)).
Qed.

(** C7 — for a paid order found by its token whose expiry lies before the
    current time: a redemption with no identity, or with an identity whose
    e-mail is not the order's [buyer_email], fails with status 410 and
    changes nothing; a redemption by the buyer succeeds (the redirect to the
    signed location of the order's file) and leaves
    [delivery_email_retries] of every order as it was. *)
Theorem redeem_after_expiry
    (db : DB) (token : string) (order : Order) (expiresAt : Z)
    (env : DownloadEnv) (requester : option User) :
  token ≠ "" →
  select_single (de_order_error env) (orders_by_token token db) = Some order →
  payment_status order = paid →
  download_expires_at order = Some expiresAt →
  expiresAt < de_now env →
  let outcome := serve (download (redeem_request token requester) env) db in
  ((requester = None ∨
    ∃ user, requester = Some user ∧ user_email user ≠ Some (buyer_email order)) →
   outcome = (db, link_expired)) ∧
  (∀ user fileRow,
     requester = Some user →
     user_email user = Some (buyer_email order) →
     select_single (de_file_error env) (files_by_id (o_file_id order) db)
       = Some fileRow →
     outcome.2 =
       mkResponse 302 (Redirect (placeholder_signed_url (storage_path fileRow))) ∧
     delivery_email_retries <$> orders outcome.1
       = delivery_email_retries <$> orders db).
Proof.
  intros Htoken Hfound Hpaid Hexpiry Hpast. cbn zeta. split.
  - intros Hnot. eapply redeem_expired_not_owner; try done.
    destruct Hnot as [-> | (user & -> & Hne)]; [done | exact Hne].
  - intros user fileRow -> Howner Hfile.
    rewrite (redeem_expired_owner db token order expiresAt env (Some user)
               Htoken Hfound Hpaid Hexpiry Hpast fileRow Howner Hfile).
    cbn [fst snd]. split; [done|].
    destruct (de_track_error env); [done|]. simpl.
    by apply update_where_column.
Qed.

Lemma redeem_after_expiry_witness :
  (serve (download (redeem_request "token-1" None) Sample.late) Sample.shop_paid)
  = (Sample.shop_paid, link_expired).
Proof.
  destruct (redeem_after_expiry Sample.shop_paid "token-1" Sample.paid_order
              (1000 + 72 * 60 * 60 * 1000) Sample.late None)
    as [Hexpired _]; [done | by vm_compute | done | done | by vm_compute |].
  apply Hexpired. by left.
Defined.

(** ** The sample shop, end to end *)

(** A purchase of the 500-cent file with its single 10000 bp participant:
    the pending order is charged 550; the payment notification marks it paid,
    writes one pending payout of 500 and a credential expiring 72 hours after
    the notification's clock reading; redeeming the token redirects to the
    signed location and counts the first download attempt. *)
Example sample_purchase :
  (λ o, (payment_status o, total_cents o, pif_fee_cents o, download_token o))
    <$> orders Sample.shop_pending = [(pending, 550, 50, None)] ∧
  (λ o, (payment_status o, download_token o, download_expires_at o, paid_at o))
    <$> orders Sample.shop_paid
    = [(paid, Some "token-1", Some (1000 + 259200000), Some 1001)] ∧
  payouts Sample.shop_paid = [mkPayout "order-1" "member-1" 500 payout_pending] ∧
  let redeemed :=
    serve (download (redeem_request "token-1" None) Sample.in_time) Sample.shop_paid in
  redeemed.2 =
    mkResponse 302
      (Redirect (placeholder_signed_url "member-1/file-1/cabinet.dxf")) ∧
  (λ o, (download_attempts o, downloaded_at o)) <$> orders redeemed.1
    = [(Some 1, Some 2000)].
Proof. by vm_compute. Qed.

(** ** The order invariant on the sample shop *)

Lemma order_invariant_preserved_witness :
  Forall order_ok (orders Sample.shop_paid).
Proof.
  destruct (order_invariant_preserved Sample.shop_pending Sample.shop_paid)
    as [Hok _].
  - apply rtc_once. exact (step_stripe_webhook _ Sample.completed Sample.delivery_1).
  - repeat constructor; by vm_compute.
  - exact Hok.
Defined.

(* ======================================================================= *)
(** * Part III — further properties of the purchase functions              *)
(* ======================================================================= *)

Ltac handler_cases := unfold_handler; repeat (case_match; simplify_eq/=).

(** ** What a request can and cannot write *)

Lemma create_checkout_failure_writes_nothing req env db :
  status (serve (create_checkout req env) db).2 ≠ 200 →
  (serve (create_checkout req env) db).1 = db.
Proof. unfold create_checkout. handler_cases; done. Qed.

Lemma stripe_webhook_failure_writes_nothing req env db :
  status (serve (stripe_webhook req env) db).2 ≠ 200 →
  (serve (stripe_webhook req env) db).1 = db.
Proof.
  unfold stripe_webhook, handleCheckoutCompleted, handlePaymentFailed.
  handler_cases; done.
Qed.

Lemma resend_download_failure_writes_nothing req env db :
  status (serve (resend_download req env) db).2 ≠ 200 →
  (serve (resend_download req env) db).1 = db.
Proof. unfold resend_download. handler_cases; done. Qed.

Lemma download_failure_writes_nothing req env db :
  status (serve (download req env) db).2 ≠ 302 →
  (serve (download req env) db).1 = db.
Proof. unfold download. handler_cases; done. Qed.

(** X1 — a request that is not answered with success leaves the database
    exactly as it was: create-checkout, stripe-webhook and resend-download
    write only when they answer 200, download only when it answers 302. *)
Theorem failed_requests_write_nothing (db : DB) :
  (∀ req env, status (serve (create_checkout req env) db).2 ≠ 200 →
     (serve (create_checkout req env) db).1 = db) ∧
  (∀ req env, status (serve (stripe_webhook req env) db).2 ≠ 200 →
     (serve (stripe_webhook req env) db).1 = db) ∧
  (∀ req env, status (serve (resend_download req env) db).2 ≠ 200 →
     (serve (resend_download req env) db).1 = db) ∧
  (∀ req env, status (serve (download req env) db).2 ≠ 302 →
     (serve (download req env) db).1 = db).
Proof.
  split_and!; intros req env.
  - apply create_checkout_failure_writes_nothing.
  - apply stripe_webhook_failure_writes_nothing.
  - apply resend_download_failure_writes_nothing.
  - apply download_failure_writes_nothing.
Qed.

Lemma failed_requests_write_nothing_witness :
  (serve (download (redeem_request "token-1" (Some Sample.stranger)) Sample.late)
         Sample.shop_paid).1 = Sample.shop_paid.
Proof.
  destruct (failed_requests_write_nothing Sample.shop_paid) as (_ & _ & _ & Hdl).
  apply Hdl. by vm_compute.
Defined.

Lemma create_checkout_frame req env db :
  let db' := (serve (create_checkout req env) db).1 in
  same_catalogue db db' ∧ payouts db' = payouts db.
Proof. unfold create_checkout, same_catalogue. handler_cases; done. Qed.

Lemma resend_download_frame req env db :
  let db' := (serve (resend_download req env) db).1 in
  same_catalogue db db' ∧ payouts db' = payouts db.
Proof. unfold resend_download, same_catalogue. handler_cases; done. Qed.

Lemma download_frame req env db :
  let db' := (serve (download req env) db).1 in
  same_catalogue db db' ∧ payouts db' = payouts db.
Proof. unfold download, same_catalogue. handler_cases; done. Qed.

(** All the webhook can write: the paid update on the rows of one order's
    id, and payout rows of that order appended. *)
Lemma stripe_webhook_writes req env db :
  let db' := (serve (stripe_webhook req env) db).1 in
  same_catalogue db db' ∧
  (db' = db ∨
   ∃ order royaltyChain,
     order ∈ orders db ∧
     orders db' = update_where (λ o, o_id o = o_id order) (paid_by env) (orders db) ∧
     payouts db' = payouts db ++ payout_rows order royaltyChain).
Proof.
  unfold stripe_webhook, handleCheckoutCompleted, handlePaymentFailed, same_catalogue.
  handler_cases; (split; [done|]); try (by left).
  all: right.
  all: match goal with
       | H : select_single _ (orders_by_session _ _) = Some ?o |- _ =>
         apply select_single_Some in H as [_ H];
         apply single_filter_Some in H as (Hin & _ & _);
         exists o
       end.
  all: try (by eexists (_ :: _)).
  all: by (exists []; rewrite app_nil_r).
Qed.

Lemma step_frame db db' :
  step db db' → same_catalogue db db' ∧ payouts db `prefix_of` payouts db'.
Proof.
  destruct 1 as [db req env|db req env|db req env|db req env].
  - by destruct (create_checkout_frame req env db) as [? ->].
  - destruct (stripe_webhook_writes req env db)
      as [Hcat [-> | (o & c & _ & _ & Hp)]]; (split; [done|]); [done|].
    rewrite Hp. by apply prefix_app_r.
  - by destruct (resend_download_frame req env db) as [? ->].
  - by destruct (download_frame req env db) as [? ->].
Qed.

Lemma order_step_same_purchase o o' : order_step o o' → same_purchase o o'.
Proof. by destruct 1. Qed.

Lemma orders_evolve_same_purchase os os' i o :
  orders_evolve os os' → os !! i = Some o →
  ∃ o', os' !! i = Some o' ∧ same_purchase o o'.
Proof.
  intros (os1 & new & -> & Hstep & _) Hi.
  destruct (Forall2_lookup_l _ _ _ _ _ Hstep Hi) as (o' & Hi' & Ho).
  exists o'. split; [by apply lookup_app_l_Some | by apply order_step_same_purchase].
Qed.

(** X2 — the ledger is append-only.  Along any sequence of requests to the
    four purchase functions, the files, the royalty chains and the feature
    flags are never written; payout rows are only ever appended (none is
    removed or rewritten); and every order row stays in place with its id,
    file, buyer e-mail, session id, total and fee unchanged. *)
Theorem ledger_is_append_only (db db' : DB) :
  rtc step db db' →
  same_catalogue db db' ∧
  payouts db `prefix_of` payouts db' ∧
  ∀ i o, orders db !! i = Some o →
    ∃ o', orders db' !! i = Some o' ∧ same_purchase o o'.
Proof.
  induction 1 as [db|db db1 db2 Hstep _ IH].
  - split_and!; [done | done |]. intros i o Hi. by exists o.
  - destruct (step_frame _ _ Hstep) as [(Hf & Hc & Hflags) Hp].
    destruct IH as ((Hf2 & Hc2 & Hflags2) & Hp2 & Hrows).
    split_and!.
    + unfold same_catalogue. by rewrite Hf2, Hc2, Hflags2.
    + by etrans.
    + intros i o Hi.
      destruct (orders_evolve_same_purchase _ _ _ _ (step_evolves _ _ Hstep) Hi)
        as (o1 & Hi1 & Hs1).
      destruct (Hrows i o1 Hi1) as (o2 & Hi2 & Hs2).
      exists o2. split; [done|].
      unfold same_purchase in *. destruct_and!. split_and!; congruence.
Qed.

Lemma ledger_is_append_only_witness :
  payouts Sample.shop_paid `prefix_of` payouts Sample.shop_paid_twice.
Proof.
  destruct (ledger_is_append_only Sample.shop_paid Sample.shop_paid_twice)
    as (_ & Hprefix & _).
  - apply rtc_once. exact (step_stripe_webhook _ Sample.completed Sample.delivery_2).
  - exact Hprefix.
Defined.

(** ** Invariants of the order and payout tables *)

Lemma update_where_Forall {A} (P : A → Prop) `{!∀ r, Decision (P r)}
    (Q : A → Prop) f l :
  Forall Q l → (∀ r, r ∈ l → P r → Q r → Q (f r)) →
  Forall Q (update_where P f l).
Proof.
  intros HQ Hf. unfold update_where. apply Forall_fmap, Forall_forall.
  intros r Hr. simpl. pose proof (proj1 (Forall_forall _ _) HQ r Hr).
  destruct (decide (P r)); auto.
Qed.

Lemma create_checkout_retries_capped req env db :
  Forall retries_capped (orders db) →
  Forall retries_capped (orders (serve (create_checkout req env) db).1).
Proof.
  unfold create_checkout. handler_cases; try done.
  all: intros Hcap; apply Forall_app; split; [done|]; by repeat constructor.
Qed.

Lemma stripe_webhook_retries_capped req env db :
  Forall retries_capped (orders db) →
  Forall retries_capped (orders (serve (stripe_webhook req env) db).1).
Proof.
  intros Hcap.
  destruct (stripe_webhook_writes req env db)
    as [_ [-> | (o & c & _ & -> & _)]]; [done|].
  by apply update_where_Forall.
Qed.

Lemma resend_download_retries_capped req env db :
  Forall retries_capped (orders db) →
  Forall retries_capped (orders (serve (resend_download req env) db).1).
Proof.
  unfold resend_download. handler_cases; try done.
  all: intros Hcap; apply update_where_Forall; [done|].
  all: intros r _ _ _; unfold retries_capped; simpl.
  all: match goal with
       | H : bool_decide (MAX_DELIVERY_RETRIES ≤ _) = false |- _ =>
         apply bool_decide_eq_false in H; lia
       end.
Qed.

Lemma download_retries_capped req env db :
  Forall retries_capped (orders db) →
  Forall retries_capped (orders (serve (download req env) db).1).
Proof.
  unfold download. handler_cases; try done.
  all: intros Hcap; by apply update_where_Forall.
Qed.

(** X3 — the retry counter never passes the cap: if no order has more than
    5 delivery retries, none has after any sequence of requests, whatever
    the requests, the clock and the database errors. *)
Theorem retry_counter_never_exceeds_cap (db db' : DB) :
  rtc step db db' →
  Forall retries_capped (orders db) → Forall retries_capped (orders db').
Proof.
  induction 1 as [db|db db1 db2 Hstep _ IH]; [done|]. intros Hcap. apply IH.
  destruct Hstep; auto using create_checkout_retries_capped,
    stripe_webhook_retries_capped, resend_download_retries_capped,
    download_retries_capped.
Qed.

Lemma retry_counter_never_exceeds_cap_witness :
  Forall retries_capped (orders Sample.shop_paid).
Proof.
  apply (retry_counter_never_exceeds_cap Sample.shop_pending Sample.shop_paid).
  - apply rtc_once. exact (step_stripe_webhook _ Sample.completed Sample.delivery_1).
  - repeat constructor. by vm_compute.
Defined.

Lemma step_payouts_for_paid_orders db db' :
  step db db' → payouts_for_paid_orders db → payouts_for_paid_orders db'.
Proof.
  intros Hstep Hinv.
  assert (Hold : ∀ p, p ∈ payouts db →
            ∃ o, o ∈ orders db' ∧ o_id o = p_order_id p ∧ payment_status o = paid).
  { intros p Hp. destruct (Hinv p Hp) as (o & Ho & Hid & Hpaid).
    apply list_elem_of_lookup in Ho as [i Hi].
    pose proof (step_evolves _ _ Hstep) as Hev.
    destruct (orders_evolve_same_purchase _ _ _ _ Hev Hi) as (o1 & Hi1 & Hs & _).
    destruct (orders_evolve_paid _ _ _ _ Hev Hi Hpaid) as (o2 & Hi2 & Hp2).
    rewrite Hi1 in Hi2. injection Hi2 as <-.
    exists o1. split_and!; [by eapply list_elem_of_lookup_2 | congruence | done]. }
  destruct Hstep as [db req env|db req env|db req env|db req env].
  - destruct (create_checkout_frame req env db) as [_ Hp].
    intros p. rewrite Hp. apply Hold.
  - destruct (stripe_webhook_writes req env db)
      as [_ [Heq | (o & c & Ho & Horders & Hp)]].
    + by rewrite Heq.
    + intros p. rewrite Hp. intros [Hin | Hin]%elem_of_app; [by apply Hold|].
      exists (paid_by env o). split_and!.
      * rewrite Horders. unfold update_where.
        apply list_elem_of_fmap. exists o. split; [|done]. by rewrite decide_True.
      * unfold payout_rows in Hin.
        by apply list_elem_of_fmap in Hin as (e & -> & _).
      * done.
  - destruct (resend_download_frame req env db) as [_ Hp].
    intros p. rewrite Hp. apply Hold.
  - destruct (download_frame req env db) as [_ Hp].
    intros p. rewrite Hp. apply Hold.
Qed.

(** X4 — payouts exist only for paid orders: if every payout row names an
    order that is paid, this is still so after any sequence of requests
    (rows are created by the payment webhook together with the paid update,
    and a paid order never leaves [paid]). *)
Theorem payouts_only_for_paid_orders (db db' : DB) :
  rtc step db db' → payouts_for_paid_orders db → payouts_for_paid_orders db'.
Proof.
  induction 1 as [db|db db1 db2 Hstep _ IH]; [done|].
  intros Hinv. by apply IH, (step_payouts_for_paid_orders db).
Qed.

Lemma payouts_only_for_paid_orders_witness :
  payouts_for_paid_orders Sample.shop_paid.
Proof.
  apply (payouts_only_for_paid_orders Sample.shop_pending Sample.shop_paid).
  - apply rtc_once. exact (step_stripe_webhook _ Sample.completed Sample.delivery_1).
  - intros p Hp. by apply elem_of_nil in Hp.
Defined.

(** ** Renewal *)

(** X5 — resend-download checks ownership before anything about the order's
    state: for an order that is found, a requester whose e-mail is not the
    order's [buyer_email] is refused with 403 whatever the payment state and
    the retry count, and the buyer of an order that is not paid is refused
    with 422 whatever the retry count; neither writes. *)
Theorem renew_checks_owner_then_payment
    (db : DB) (user : User) (order_id : string) (order : Order) (env : ResendEnv) :
  order_id ≠ "" →
  select_single (re_order_error env) (orders_by_id order_id db) = Some order →
  let outcome := serve (resend_download (renew_request user order_id) env) db in
  (user_email user ≠ Some (buyer_email order) → outcome = (db, not_the_buyer)) ∧
  (user_email user = Some (buyer_email order) → payment_status order ≠ paid →
   outcome = (db, order_not_paid)).
Proof.
  intros Hid Hfound. cbn zeta.
  unfold resend_download, renew_request. simpl. unfold_handler. simpl.
  rewrite (bool_decide_eq_false_2 _ Hid). simpl. rewrite Hfound. simpl.
  split.
  - intros Hne. by rewrite (bool_decide_eq_false_2 _ Hne).
  - intros Hown Hunpaid.
    by rewrite (bool_decide_eq_true_2 _ Hown), (bool_decide_eq_false_2 _ Hunpaid).
Qed.

Lemma renew_checks_owner_then_payment_witness :
  serve (resend_download (renew_request Sample.stranger "order-1")
           (Sample.resend_env "r1" 2001)) Sample.shop_paid
  = (Sample.shop_paid, not_the_buyer).
Proof.
  destruct (renew_checks_owner_then_payment Sample.shop_paid Sample.stranger
              "order-1" Sample.paid_order (Sample.resend_env "r1" 2001))
    as [Hstranger _]; [done | by vm_compute |].
  apply Hstranger. by vm_compute.
Defined.

(** X14 — a renewal is only ever written for the buyer: whenever
    resend-download changes the database, the requester is authenticated
    with the e-mail of the order it names, that order is paid and below the
    retry cap, the answer is 200, and the only change is the renewal of the
    rows with that order's id. *)
Theorem renewal_only_for_the_buyer
    (db : DB) (req : ResendRequest) (env : ResendEnv) :
  let outcome := serve (resend_download req env) db in
  outcome.1 ≠ db →
  ∃ user order,
    rr_auth_user req = Some user ∧ order ∈ orders db ∧
    rr_json req = Some (Some (o_id order)) ∧
    user_email user = Some (buyer_email order) ∧
    payment_status order = paid ∧
    default 0 (delivery_email_retries order) < MAX_DELIVERY_RETRIES ∧
    outcome.2 = mkResponse 200 SuccessBody ∧
    orders outcome.1 =
      update_where (λ o, o_id o = o_id order) (renewed env order) (orders db).
Proof.
  cbn zeta. unfold resend_download. handler_cases; try done. intros _.
  match goal with
  | Hfound : select_single _ (orders_by_id _ _) = Some ?o,
    Hown : negb (bool_decide (user_email ?u = _)) = false,
    Hpaid : negb (bool_decide (payment_status _ = paid)) = false,
    Hcap : bool_decide (MAX_DELIVERY_RETRIES ≤ _) = false |- _ =>
    apply negb_false_iff, bool_decide_eq_true in Hown;
    apply negb_false_iff, bool_decide_eq_true in Hpaid;
    apply bool_decide_eq_false in Hcap;
    apply select_single_Some in Hfound as [_ Hfound];
    apply single_filter_Some in Hfound as (Hin & Hoid & _);
    exists u, o
  end.
  split_and!; try done; [congruence | lia].
Qed.

Lemma renewal_only_for_the_buyer_witness :
  ∃ user order,
    rr_auth_user (renew_request Sample.buyer "order-1") = Some user ∧
    order ∈ orders Sample.shop_paid ∧
    user_email user = Some (buyer_email order).
Proof.
  destruct (renewal_only_for_the_buyer Sample.shop_paid
              (renew_request Sample.buyer "order-1") (Sample.resend_env "r1" 2001))
    as (user & order & Hu & Hin & _ & Hown & _); [by vm_compute|].
  by exists user, order.
Defined.

(** A filter on an updated table, when the rows the update leaves with the
    property are exactly the rows another filter selects. *)
Lemma filter_fmap_iff {A} (P Q : A → Prop) `{!∀ r, Decision (P r)}
    `{!∀ r, Decision (Q r)} (g : A → A) (l : list A) :
  (∀ r, r ∈ l → P (g r) ↔ Q r) → filter P (g <$> l) = g <$> filter Q l.
Proof.
  induction l as [|a l IH]; [done|]. intros Hiff.
  rewrite fmap_cons, !filter_cons, IH by (intros; apply Hiff; by right).
  pose proof (Hiff a (list_elem_of_here _ _)) as Hhere.
  destruct (decide (P (g a))) as [HP|HP], (decide (Q a)) as [HQ|HQ];
    [done | exfalso; apply HQ, Hhere, HP | exfalso; apply HP, Hhere, HQ | done].
Qed.

Lemma filter_none {A} (P : A → Prop) `{!∀ r, Decision (P r)} (l : list A) :
  (∀ r, r ∈ l → ¬ P r) → filter P l = [].
Proof.
  induction l as [|a l IH]; [done|]. intros Hnone.
  rewrite filter_cons, IH by (intros; apply Hnone; by right).
  rewrite decide_False; [done|]. apply Hnone. by left.
Qed.

(** ** Redemption *)

Section RedeemInTime.
Context (db : DB) (token : string) (order : Order) (fileRow : FileRow)
        (env : DownloadEnv) (requester : option User).
Context (Htoken : token ≠ "")
        (Hfound : single (orders_by_token token db) = Some order)
        (Hpaid : payment_status order = paid)
        (Hintime : isExpired (de_now env) (download_expires_at order) = false)
        (Hfile : single (files_by_id (o_file_id order) db) = Some fileRow).

Lemma redeem_in_time :
  fault_free_download env →
  serve (download (redeem_request token requester) env) db =
    (set_orders (update_where (λ o, o_id o = o_id order) (tracked env order)) db,
     mkResponse 302 (Redirect (placeholder_signed_url (storage_path fileRow)))).
Proof.
  intros (Ho & Hf & Ht).
  unfold download, redeem_request. simpl. unfold_handler. simpl.
  rewrite (bool_decide_eq_false_2 _ Htoken). simpl.
  unfold select_single. rewrite Ho, Hfound. simpl.
  rewrite (bool_decide_eq_true_2 _ Hpaid). simpl. rewrite Hintime. simpl.
  rewrite Hf, Hfile. simpl. by rewrite Ht.
Qed.

Lemma redeem_in_time_untracked :
  de_order_error env = false → de_file_error env = false →
  de_track_error env = true →
  serve (download (redeem_request token requester) env) db =
    (db, mkResponse 302 (Redirect (placeholder_signed_url (storage_path fileRow)))).
Proof.
  intros Ho Hf Ht.
  unfold download, redeem_request. simpl. unfold_handler. simpl.
  rewrite (bool_decide_eq_false_2 _ Htoken). simpl.
  unfold select_single. rewrite Ho, Hfound. simpl.
  rewrite (bool_decide_eq_true_2 _ Hpaid). simpl. rewrite Hintime. simpl.
  rewrite Hf, Hfile. simpl. by rewrite Ht.
Qed.

Lemma redeem_in_time_found_again :
  single (orders_by_token token
    (set_orders (update_where (λ o, o_id o = o_id order) (tracked env order)) db))
  = Some (tracked env order order).
Proof.
  unfold orders_by_token in *. simpl.
  rewrite filter_update_where by done.
  apply single_Some in Hfound. rewrite Hfound.
  unfold update_where. simpl. by rewrite decide_True.
Qed.
End RedeemInTime.

(** X7 — the download token is a bearer credential that is not used up: for
    a paid order found by its token, every redemption before the expiry
    succeeds with the redirect, whoever asks (no identity is looked at), and
    [n] redemptions in a row raise [download_attempts] by [n] while token
    and expiry stay as they are. *)
Theorem token_redeems_repeatedly
    (db : DB) (token : string) (order : Order) (fileRow : FileRow)
    (requester : option User) (envs : list DownloadEnv) :
  token ≠ "" →
  single (orders_by_token token db) = Some order →
  payment_status order = paid →
  single (files_by_id (o_file_id order) db) = Some fileRow →
  Forall (λ env, fault_free_download env ∧
                 isExpired (de_now env) (download_expires_at order) = false) envs →
  let run := serve_each (download (redeem_request token requester)) envs db in
  Forall (λ r, r = mkResponse 302
                     (Redirect (placeholder_signed_url (storage_path fileRow))))
         run.2 ∧
  length run.2 = length envs ∧
  ∃ order', single (orders_by_token token run.1) = Some order' ∧
    default 0 (download_attempts order')
      = default 0 (download_attempts order) + Z.of_nat (length envs) ∧
    download_token order' = download_token order ∧
    download_expires_at order' = download_expires_at order.
Proof.
  intros Htoken Hfound Hpaid Hfile Henvs. revert db order Hfound Hpaid Hfile Henvs.
  induction envs as [|env envs IH]; intros db order Hfound Hpaid Hfile Henvs.
  - simpl. split_and!; [done..|]. exists order. split_and!; [done | lia | done..].
  - apply Forall_cons in Henvs as [[Hfree Hintime] Henvs].
    cbn [serve_each].
    rewrite (redeem_in_time db token order fileRow env requester) by done.
    pose proof (redeem_in_time_found_again db token order env Hfound) as Hagain.
    specialize (IH _ _ Hagain Hpaid Hfile Henvs).
    destruct (serve_each _ envs _) as [db2 rs] eqn:Hrun.
    cbn [fst snd] in *. destruct IH as (Hst & Hlen & order' & Hf' & Hatt & Htok & Hexp).
    split_and!; [by constructor | simpl; by rewrite Hlen |].
    exists order'. split_and!; [done | | done..].
    rewrite Hatt. simpl. lia.
Qed.

Lemma token_redeems_repeatedly_witness :
  length (serve_each (download (redeem_request "token-1" None))
            [Sample.in_time; Sample.in_time] Sample.shop_paid).2 = 2%nat.
Proof.
  destruct (token_redeems_repeatedly Sample.shop_paid "token-1" Sample.paid_order
              (mkFile "file-1" "Cabinet" 500 listed "member-1/file-1/cabinet.dxf")
              None [Sample.in_time; Sample.in_time])
    as (_ & Hlen & _); [done | by vm_compute | done | by vm_compute | | exact Hlen].
  repeat constructor.
Defined.

(** X8 — a failure to record the download does not fail the download: with
    the tracking update failing, a redemption in time is still answered
    with the redirect, and the database is left as it was. *)
Theorem tracking_failure_still_redirects
    (db : DB) (token : string) (order : Order) (fileRow : FileRow)
    (env : DownloadEnv) (requester : option User) :
  token ≠ "" →
  single (orders_by_token token db) = Some order →
  payment_status order = paid →
  isExpired (de_now env) (download_expires_at order) = false →
  single (files_by_id (o_file_id order) db) = Some fileRow →
  de_order_error env = false → de_file_error env = false →
  de_track_error env = true →
  serve (download (redeem_request token requester) env) db =
    (db, mkResponse 302 (Redirect (placeholder_signed_url (storage_path fileRow)))).
Proof. intros. by apply (redeem_in_time_untracked db token order). Qed.

Lemma tracking_failure_still_redirects_witness :
  (serve (download (redeem_request "token-1" None)
            (mkDownloadEnv 2000 false false true)) Sample.shop_paid).1
  = Sample.shop_paid.
Proof.
  rewrite (tracking_failure_still_redirects Sample.shop_paid "token-1"
             Sample.paid_order
             (mkFile "file-1" "Cabinet" 500 listed "member-1/file-1/cabinet.dxf")
             (mkDownloadEnv 2000 false false true) None);
    [reflexivity | done | by vm_compute | done | done | by vm_compute | done..].
Defined.

(** X15 — download redirects only on a valid credential: whenever the
    answer is 302, the token is the current [download_token] of an order
    that is paid and either not expired or requested by its buyer, and the
    redirect goes to the signed location of that order's file. *)
Theorem redirect_only_with_valid_credential
    (db : DB) (req : DownloadRequest) (env : DownloadEnv) :
  let outcome := serve (download req env) db in
  status outcome.2 = 302 →
  ∃ order fileRow,
    order ∈ orders db ∧ download_token order = dr_token req ∧
    payment_status order = paid ∧
    (isExpired (de_now env) (download_expires_at order) = false ∨
     dr_auth_user req ≫= user_email = Some (buyer_email order)) ∧
    fileRow ∈ files db ∧ f_id fileRow = o_file_id order ∧
    body outcome.2 = Redirect (placeholder_signed_url (storage_path fileRow)).
Proof.
  cbn zeta. unfold download. handler_cases; try done. all: intros _.
  all: match goal with
  | Hfound : select_single _ (orders_by_token _ _) = Some ?o,
    Hfile : select_single _ (files_by_id _ _) = Some ?row,
    Hpaid : negb (bool_decide (payment_status _ = paid)) = false |- _ =>
    apply negb_false_iff, bool_decide_eq_true in Hpaid;
    apply select_single_Some in Hfound as [_ Hfound];
    apply single_filter_Some in Hfound as (Hin & Htok & _);
    apply select_single_Some in Hfile as [_ Hfile];
    apply single_filter_Some in Hfile as (Hfin & Hfid & _);
    exists o, row
  end.
  all: split_and!; try done; try congruence.
  all: try (by left).
  all: right; unfold isOwner in *.
  all: match goal with
       | H : negb (bool_decide _) = false |- _ =>
         by apply negb_false_iff, bool_decide_eq_true in H
       end.
Qed.

Lemma redirect_only_with_valid_credential_witness :
  ∃ order, order ∈ orders Sample.shop_paid ∧ payment_status order = paid.
Proof.
  destruct (redirect_only_with_valid_credential Sample.shop_paid
              (redeem_request "token-1" None) Sample.in_time)
    as (order & _ & Hin & _ & Hpaid & _); [by vm_compute|].
  by exists order.
Defined.

(** ** Renewal and redemption together *)

Section RenewReplacesToken.
Context (db : DB) (user : User) (order_id : string) (order : Order)
        (env : ResendEnv) (old : string).
Context (Hrenewable : renewable db user order_id order)
        (Hold_unique : ∀ o, o ∈ orders db → download_token o = Some old →
                         o_id o = o_id order)
        (Hnew : re_uuid env ≠ old)
        (Hfresh : ∀ o, o ∈ orders db → download_token o ≠ Some (re_uuid env)).

Lemma old_token_gone : orders_by_token old (after_renewal env order db) = [].
Proof.
  unfold orders_by_token, after_renewal, update_where. simpl. apply filter_none.
  intros r (o & -> & Ho)%list_elem_of_fmap. destruct (decide (o_id o = o_id order)).
  - simpl. congruence.
  - intros Ht. by apply n, Hold_unique.
Qed.

Lemma new_token_found :
  single (orders_by_token (re_uuid env) (after_renewal env order db))
  = Some (renewed env order order).
Proof.
  destruct Hrenewable as (Hid & Hfound & _).
  apply single_filter_Some in Hfound as Hspec. destruct Hspec as (Hin & Hoid & _).
  apply single_Some in Hfound.
  unfold orders_by_token, after_renewal, update_where. simpl.
  rewrite (filter_fmap_iff _ (λ o, o_id o = o_id order)).
  - replace (filter (λ o, o_id o = o_id order) (orders db)) with [order].
    + simpl. by rewrite decide_True.
    + rewrite <- Hfound. unfold orders_by_id. by rewrite Hoid.
  - intros r Hr. destruct (decide (o_id r = o_id order)); [done|].
    split; [|done]. intros Ht. by apply Hfresh in Ht.
Qed.
End RenewReplacesToken.

(** X6 — a renewal replaces the credential: after a successful renewal
    (tokens being unique among orders, as the column requires, and the
    generated token being new), the old token is refused by download with
    404 for every requester and at any time, while the new token is
    redeemed by anyone until 72 hours after the renewal. *)
Theorem renewal_replaces_credential
    (db : DB) (user : User) (order_id : string) (order : Order)
    (env : ResendEnv) (old : string) :
  renewable db user order_id order →
  fault_free_resend env →
  default 0 (delivery_email_retries order) < 5 →
  download_token order = Some old → old ≠ "" →
  (∀ o, o ∈ orders db → download_token o = Some old → o_id o = o_id order) →
  re_uuid env ≠ old → re_uuid env ≠ "" →
  (∀ o, o ∈ orders db → download_token o ≠ Some (re_uuid env)) →
  let db' := (serve (resend_download (renew_request user order_id) env) db).1 in
  (∀ requester denv,
     serve (download (redeem_request old requester) denv) db' = (db', invalid_token)) ∧
  (∀ requester denv fileRow,
     fault_free_download denv →
     de_now denv ≤ re_now env + 72 * 60 * 60 * 1000 →
     single (files_by_id (o_file_id order) db) = Some fileRow →
     (serve (download (redeem_request (re_uuid env) requester) denv) db').2 =
       mkResponse 302 (Redirect (placeholder_signed_url (storage_path fileRow)))).
Proof.
  intros Hren Hfree Hlt Hold Hold_ne Huniq Hnew Hnew_ne Hfresh. cbn zeta.
  rewrite (renew_below_cap _ _ _ _ Hren env Hfree Hlt). cbn [fst].
  fold (after_renewal env order db). split.
  - intros requester denv. unfold download, redeem_request. simpl.
    unfold_handler. simpl. rewrite (bool_decide_eq_false_2 _ Hold_ne). simpl.
    rewrite (old_token_gone db order env old Huniq Hnew).
    unfold select_single. by destruct (de_order_error denv).
  - intros requester denv fileRow Hff Hnow Hfile.
    rewrite (redeem_in_time (after_renewal env order db) (re_uuid env)
               (renewed env order order) fileRow denv requester); try done.
    + by apply (new_token_found db user order_id).
    + by destruct Hren as (_ & _ & _ & ?).
    + simpl. apply bool_decide_eq_false. unfold DOWNLOAD_TOKEN_TTL_MS. lia.
Qed.

Lemma renewal_replaces_credential_witness :
  serve (download (redeem_request "token-1" (Some Sample.buyer)) Sample.in_time)
    (serve (resend_download (renew_request Sample.buyer "order-1")
              (Sample.resend_env "r1" 2001)) Sample.shop_paid).1
  = ((serve (resend_download (renew_request Sample.buyer "order-1")
               (Sample.resend_env "r1" 2001)) Sample.shop_paid).1,
     invalid_token).
Proof.
  destruct (renewal_replaces_credential Sample.shop_paid Sample.buyer "order-1"
              Sample.paid_order (Sample.resend_env "r1" 2001) "token-1")
    as [Hold _].
  - by vm_compute.
  - done.
  - by vm_compute.
  - done.
  - done.
  - intros o Ho _. vm_compute in Ho. by apply list_elem_of_singleton in Ho as ->.
  - done.
  - done.
  - intros o Ho. vm_compute in Ho. by apply list_elem_of_singleton in Ho as ->.
  - apply Hold.
Defined.

(** ** The payment webhook: failures and refusals *)

(** X9 — failing to write the payouts does not undo the payment: when the
    order is found and the paid update succeeds but the royalty chain cannot
    be fetched or the payout insert fails, the notification is still
    acknowledged with 200, the order is paid with its token, and no payout
    row is written. *)
Theorem payout_failure_keeps_order_paid
    (db : DB) (signature sessionId fileId buyerEmail : string)
    (order : Order) (env : WebhookEnv) :
  signature ≠ "" → fileId ≠ "" → buyerEmail ≠ "" →
  single (orders_by_session sessionId db) = Some order →
  we_order_error env = false → we_update_error env = false →
  we_royalty_error env = true ∨ we_payout_error env = true →
  let outcome :=
    serve (stripe_webhook
             (completed_request signature sessionId fileId buyerEmail) env) db in
  outcome.2 = received ∧
  payouts outcome.1 = payouts db ∧
  orders outcome.1 =
    update_where (λ o, o_id o = o_id order) (paid_by env) (orders db) ∧
  single (orders_by_session sessionId outcome.1) = Some (paid_by env order).
Proof.
  intros Hsig Hfile Hbuyer Hfound Herr Hupd Hfail. cbn zeta.
  assert (Hserve :
    serve (stripe_webhook
             (completed_request signature sessionId fileId buyerEmail) env) db =
    (set_orders (update_where (λ o, o_id o = o_id order) (paid_by env)) db, received)).
  { unfold stripe_webhook, completed_request, verifyStripeSignature. simpl.
    rewrite (bool_decide_eq_false_2 _ Hsig).
    unfold handleCheckoutCompleted, completed_session. simpl.
    unfold_handler. simpl.
    rewrite (bool_decide_eq_false_2 _ Hfile), (bool_decide_eq_false_2 _ Hbuyer).
    simpl. unfold select_single. rewrite Herr, Hfound. simpl. rewrite Hupd. simpl.
    unfold select_royalty_chain.
    destruct (we_royalty_error env) eqn:Hroy; [done|].
    destruct Hfail as [? | Hpay]; [done|].
    change (royalty_chain_of fileId (set_orders _ db))
      with (royalty_chain_of fileId db).
    destruct (royalty_chain_of fileId db); [done|]. by rewrite Hpay. }
  rewrite Hserve. cbn [fst snd]. split_and!; [done..|].
  apply single_Some in Hfound. unfold orders_by_session in *. simpl.
  rewrite filter_update_where by done. rewrite Hfound.
  unfold update_where. simpl. by rewrite decide_True.
Qed.

Lemma payout_failure_keeps_order_paid_witness :
  payouts (serve (stripe_webhook Sample.completed
                    (mkWebhookEnv "token-1" 1000 1001 false false false true))
                 Sample.shop_pending).1 = [].
Proof.
  destruct (payout_failure_keeps_order_paid Sample.shop_pending
              "t=1,v1=abc" "cs_test_sess-1" "file-1" "buyer@example.com"
              (pending_order "order-1" "file-1" "buyer@example.com" "cs_test_sess-1"
                 (calculatePricing 500 [Sample.originator]))
              (mkWebhookEnv "token-1" 1000 1001 false false false true))
    as (_ & Hpayouts & _);
    [done | done | done | by vm_compute | done | done | by right | exact Hpayouts].
Defined.

(** X10 — what the webhook refuses, always without writing: a POST without
    a Stripe-Signature header, or whose body does not parse, is answered
    401; a notification of a handled type without [data.object] is
    answered 500; a CheckoutCompleted whose metadata lacks [file_id] or
    [buyer_email] is answered 400; and one whose session id matches no
    single order is answered 404. *)
Theorem webhook_refusals (db : DB) (req : WebhookRequest) (env : WebhookEnv) :
  wr_method req = "POST" →
  let outcome := serve (stripe_webhook req env) db in
  (falsy (wr_signature req) = true ∨ wr_json req = None →
   outcome = (db, invalid_signature)) ∧
  (∀ event,
     falsy (wr_signature req) = false → wr_json req = Some event →
     (ev_type event = Some "checkout.session.completed" ∨
      ev_type event = Some "payment_intent.payment_failed") →
     ev_object event = None →
     outcome = (db, internal_server_error)) ∧
  (∀ event session,
     falsy (wr_signature req) = false → wr_json req = Some event →
     ev_type event = Some "checkout.session.completed" →
     ev_object event = Some session →
     (falsy (so_metadata session ≫= md_file_id) = true ∨
      falsy (so_metadata session ≫= md_buyer_email) = true →
      outcome = (db, mkResponse 400 (ErrorBody "Missing metadata"))) ∧
     (falsy (so_metadata session ≫= md_file_id) = false →
      falsy (so_metadata session ≫= md_buyer_email) = false →
      select_single (we_order_error env) (orders_by_session (so_id session) db)
        = None →
      outcome = (db, mkResponse 404 (ErrorBody "Order not found")))).
Proof.
  intros Hpost. cbn zeta. unfold stripe_webhook, verifyStripeSignature.
  rewrite Hpost. simpl. split_and!.
  - intros [-> | ->]; [reflexivity|].
    destruct (falsy (wr_signature req)); reflexivity.
  - intros event -> -> [-> | ->] ->; reflexivity.
  - intros event session -> -> -> ->. simpl.
    unfold handleCheckoutCompleted.
    destruct (so_metadata session ≫= md_file_id) as [f|],
             (so_metadata session ≫= md_buyer_email) as [b|];
      unfold_handler; simpl; (split; [intros [Hf | Hb] | intros Hf Hb Hnone]);
      try done.
    all: try (by rewrite Hf).
    all: try (by destruct (bool_decide (f = "")); [|rewrite ?Hb]).
    rewrite Hf, Hb. simpl. by rewrite Hnone.
Qed.

Lemma webhook_refusals_witness :
  serve (stripe_webhook
           (mkWebhookRequest "POST" None (wr_json Sample.completed))
           Sample.delivery_1) Sample.shop_pending
  = (Sample.shop_pending, invalid_signature).
Proof.
  destruct (webhook_refusals Sample.shop_pending
              (mkWebhookRequest "POST" None (wr_json Sample.completed))
              Sample.delivery_1) as (Hunsigned & _); [done|].
  apply Hunsigned. by left.
Defined.

(** ** Checkout and payment together *)



(** X11 — payment settles what checkout priced: for a checkout that
    succeeds (with a session id no order carries yet) followed by the
    CheckoutCompleted notification of that session naming the same file,
    the webhook appends exactly one pending payout row per line of the
    [calculatePricing] result computed at checkout, with that line's member
    and amount and the new order's id, and the order is the paid version of
    the order checkout wrote. *)
Theorem paid_checkout_pays_as_priced
    (db : DB) (cenv : CheckoutEnv) (wenv : WebhookEnv)
    (signature file_id buyer_email : string) (fileRow : FileRow) :
  checkout_reaches_royalty db cenv file_id buyer_email fileRow →
  ce_royalty_error cenv = false → ce_insert_error cenv = false →
  royalty_chain_of file_id db ≠ [] →
  orders_by_session ("cs_test_" +:+ ce_session_uuid cenv) db = [] →
  signature ≠ "" → fault_free_webhook wenv →
  let sessionId := "cs_test_" +:+ ce_session_uuid cenv in
  let pricing := calculatePricing (price_cents fileRow) (royalty_chain_of file_id db) in
  let opened :=
    (serve (create_checkout (checkout_request file_id buyer_email) cenv) db).1 in
  let settled :=
    serve (stripe_webhook
             (completed_request signature sessionId file_id buyer_email) wenv) opened in
  settled.2 = received ∧
  payouts settled.1 =
    payouts db ++ (payout_of_line (ce_order_uuid cenv) <$> pr_payouts pricing) ∧
  single (orders_by_session sessionId settled.1) =
    Some (paid_by wenv
            (pending_order (ce_order_uuid cenv) file_id buyer_email sessionId pricing)).
Proof.
  intros Hreach Hroy Hins Hchain Hfresh Hsig Hff. cbn zeta.
  pose proof Hreach as (Hfile & Hbuyer & _).
  rewrite (checkout_chain_present db cenv file_id buyer_email fileRow Hreach
             (royalty_chain_of file_id db))
    by (done || (unfold select_royalty_chain; by rewrite Hroy)).
  cbn [fst].
  set (pricing := calculatePricing (price_cents fileRow) (royalty_chain_of file_id db)).
  set (sessionId := "cs_test_" +:+ ce_session_uuid cenv) in *.
  set (order := pending_order (ce_order_uuid cenv) file_id buyer_email sessionId pricing).
  set (opened := set_orders (λ os, os ++ [order]) db).
  assert (Hfound : single (orders_by_session sessionId opened) = Some order).
  { unfold orders_by_session in *. simpl. rewrite filter_app, Hfresh. simpl.
    by rewrite filter_cons, decide_True by done. }
  rewrite (checkout_completed_once signature sessionId file_id buyer_email
             Hsig Hfile Hbuyer opened wenv order Hfound Hff).
  split_and!; [done | |].
  - simpl. f_equal. unfold payout_rows, pricing, calculatePricing. simpl.
    rewrite <- list_fmap_compose. apply list_fmap_ext. intros i entry _.
    unfold compose, payout_of_line. simpl. f_equal. f_equal. lia.
  - apply (checkout_completed_found_again sessionId file_id opened wenv order Hfound).
Qed.

Lemma paid_checkout_pays_as_priced_witness :
  payouts Sample.shop_paid
  = payout_of_line "order-1" <$>
      pr_payouts (calculatePricing 500 (royalty_chain_of "file-1" Sample.shop)).
Proof.
  destruct (paid_checkout_pays_as_priced Sample.shop Sample.checkout_env
              Sample.delivery_1 "t=1,v1=abc" "file-1" "buyer@example.com"
              (mkFile "file-1" "Cabinet" 500 listed "member-1/file-1/cabinet.dxf"))
    as (_ & Hpayouts & _);
    [by vm_compute | done | done | by vm_compute | by vm_compute | done | done |].
  exact Hpayouts.
Defined.

(** ** The royalty calculator, further *)

(** X12 — the platform fee is ten percent of the base price rounded half
    up: for every base price of the [price_cents] column the fee is
    round(basePrice / 10), it is never negative, the total is base price
    plus fee, and a base price below 5 minor units carries no fee. *)
Theorem platform_fee_is_ten_percent (priceCents : Z) (royaltyChain : list RoyaltyEntry) :
  0 ≤ priceCents ≤ 2147483647 →
  let pricing := calculatePricing priceCents royaltyChain in
  pr_pif_fee_cents pricing = round_half_up (inject_Z priceCents * (1 # 10)) ∧
  0 ≤ pr_pif_fee_cents pricing ∧
  pr_total_cents pricing = priceCents + pr_pif_fee_cents pricing ∧
  (priceCents < 5 → pr_total_cents pricing = priceCents).
Proof.
  intros Hp. cbn zeta. unfold calculatePricing. simpl.
  rewrite total_cents_round by done.
  assert (Hfee : round_half_up (inject_Z priceCents * (1 # 10)) = (priceCents + 5) / 10).
  { unfold round_half_up, Qfloor, Qplus, Qmult, inject_Z. cbn [Qnum Qden].
    change (Z.pos (1 * 10 * 2)) with 20. change (Z.pos (1 * 10)) with 10.
    Z.to_euclidean_division_equations. lia. }
  rewrite Hfee. split_and!; try (Z.to_euclidean_division_equations; lia).
Qed.

Lemma platform_fee_is_ten_percent_witness :
  pr_total_cents (calculatePricing 4 [Sample.originator]) = 4.
Proof.
  destruct (platform_fee_is_ten_percent 4 [Sample.originator])
    as (_ & _ & _ & Hsmall); [lia|]. apply Hsmall. lia.
Defined.

Lemma sum_rounded_ge (p : Z) (l : list Z) :
  p * sum_Z l ≤ 10000 * sum_Z ((λ bp, (p * bp + 5000) / 10000) <$> l)
                + 4999 * Z.of_nat (length l).
Proof.
  induction l as [|bp l IH]; [simpl; lia|].
  rewrite fmap_cons. cbn [sum_Z foldr length]. fold (sum_Z l).
  fold (sum_Z ((λ bp, (p * bp + 5000) / 10000) <$> l)).
  assert (p * bp ≤ 10000 * ((p * bp + 5000) / 10000) + 4999)
    by (Z.to_euclidean_division_equations; lia).
  lia.
Qed.

Lemma payout_amounts_closed_form (priceCents : Z) (royaltyChain : list RoyaltyEntry) :
  0 ≤ priceCents ≤ 2147483647 →
  Forall (λ entry, 0 ≤ share_basis_points entry) royaltyChain →
  sum_shares royaltyChain = 10000 →
  pl_amount_cents <$> pr_payouts (calculatePricing priceCents royaltyChain) =
  (λ bp, (priceCents * bp + 5000) / 10000) <$> (share_basis_points <$> royaltyChain).
Proof.
  intros Hp Hnonneg Hsum. unfold calculatePricing. cbn [pr_payouts].
  rewrite <- !list_fmap_compose. apply list_fmap_ext.
  intros i entry Hi. cbn. apply royalty_amount_round; [done|].
  assert (Hin : entry ∈ royaltyChain) by (by eapply list_elem_of_lookup_2).
  split; [by eapply (proj1 (Forall_forall _ _) Hnonneg)|].
  rewrite <- Hsum. apply sum_Z_nonneg_elem.
  - by apply Forall_fmap.
  - by apply list_elem_of_fmap_2.
Qed.

(** X16 — the payouts make up the base price up to rounding: for a split of
    non-negative shares summing to 10000 basis points, no participant is
    paid less than 0 or more than the base price, the payouts together fall
    short of the base price by at most half a minor unit per participant,
    and with a single participant the payout is the base price exactly, so
    that the total charged is payout plus platform fee. *)
Theorem payouts_cover_base_price (priceCents : Z) (royaltyChain : list RoyaltyEntry) :
  0 ≤ priceCents ≤ 2147483647 →
  Forall (λ entry, 0 ≤ share_basis_points entry) royaltyChain →
  sum_shares royaltyChain = 10000 →
  let pricing := calculatePricing priceCents royaltyChain in
  let amounts := pl_amount_cents <$> pr_payouts pricing in
  Forall (λ a, 0 ≤ a ≤ priceCents) amounts ∧
  2 * priceCents ≤ 2 * sum_Z amounts + Z.of_nat (length royaltyChain) ∧
  (length royaltyChain = 1%nat →
   amounts = [priceCents] ∧
   pr_total_cents pricing = sum_Z amounts + pr_pif_fee_cents pricing).
Proof.
  intros Hp Hnonneg Hsum. cbn zeta.
  rewrite (payout_amounts_closed_form priceCents royaltyChain Hp Hnonneg Hsum).
  split_and!.
  - apply Forall_fmap, Forall_fmap, Forall_forall. intros entry Hin. simpl.
    assert (0 ≤ share_basis_points entry ≤ 10000) as Hbp.
    { split; [by eapply (proj1 (Forall_forall _ _) Hnonneg)|].
      rewrite <- Hsum. apply sum_Z_nonneg_elem; [by apply Forall_fmap|].
      by apply list_elem_of_fmap_2. }
    assert (0 ≤ priceCents * share_basis_points entry ≤ priceCents * 10000) by nia.
    Z.to_euclidean_division_equations. lia.
  - pose proof (sum_rounded_ge priceCents (share_basis_points <$> royaltyChain)) as Hge.
    rewrite length_fmap in Hge. fold (sum_shares royaltyChain) in Hge.
    rewrite Hsum in Hge. lia.
  - intros Hone. destruct royaltyChain as [|entry [|??]]; simplify_eq/=.
    unfold sum_shares in Hsum. simpl in Hsum.
    assert (share_basis_points entry = 10000) as -> by lia.
    assert ((priceCents * 10000 + 5000) / 10000 = priceCents) as ->
      by (Z.to_euclidean_division_equations; lia).
    split; [done|]. lia.
Qed.

Lemma payouts_cover_base_price_witness :
  pl_amount_cents <$> pr_payouts (calculatePricing 500 [Sample.originator]) = [500].
Proof.
  destruct (payouts_cover_base_price 500 [Sample.originator])
    as (_ & _ & Hone); [lia | by repeat constructor | reflexivity |].
  by destruct (Hone eq_refl) as [-> _].
Defined.

(* ======================================================================= *)
(** * Part IV — feature flags, earning members and onboarding              *)
(* ======================================================================= *)

(** ** admin-overrides *)

(** X17 — only the administrator reads or writes the flags: a request (other
    than the CORS preflight) without an authenticated user is answered 401,
    one from a user whose id is not [ADMIN_MEMBER_ID] is answered 403, both
    with the database unchanged; and whenever the database changes or the
    controls are returned, the caller is the administrator. *)
Theorem flags_are_for_the_admin_only
    (s : AdminDB) (req : AdminRequest) (env : AdminEnv) :
  ar_method req ≠ "OPTIONS" →
  let outcome := admin_overrides req env s in
  (ar_user req = None →
   outcome = (s, mkAdminResponse 401 (AdminError "Unauthorized"))) ∧
  (∀ user, ar_user req = Some user →
     user_id user ≠ ADMIN_MEMBER_ID (ae_admin_member_id env) →
     outcome = (s, mkAdminResponse 403 (AdminError "Admin access required"))) ∧
  (outcome.1 ≠ s ∨ (∃ controls, a_body outcome.2 = Controls controls) →
   ∃ user, ar_user req = Some user ∧
           user_id user = ADMIN_MEMBER_ID (ae_admin_member_id env)).
Proof.
  intros Hmethod. cbn zeta. unfold admin_overrides, isAdmin.
  rewrite (bool_decide_eq_false_2 _ Hmethod). split_and!.
  - by intros ->.
  - intros user -> Hne. by rewrite (bool_decide_eq_false_2 _ Hne).
  - destruct (ar_user req) as [user|]; simpl.
    + destruct (decide (user_id user = ADMIN_MEMBER_ID (ae_admin_member_id env)))
        as [Heq|Hne]; [by eauto|].
      rewrite (bool_decide_eq_false_2 _ Hne). simpl.
      intros [? | [? ?]]; done.
    + intros [? | [? ?]]; done.
Qed.

Lemma flags_are_for_the_admin_only_witness :
  admin_overrides
    (mkAdminRequest "PUT" (Some (mkUser "member-1" None))
       (Some (mkOverrideFields (Some "marketplace_purchase") (Some false))))
    (SampleAccounts.admin_env 9000) SampleAccounts.flag_store
  = (SampleAccounts.flag_store,
     mkAdminResponse 403 (AdminError "Admin access required")).
Proof.
  destruct (flags_are_for_the_admin_only SampleAccounts.flag_store
              (mkAdminRequest "PUT" (Some (mkUser "member-1" None))
                 (Some (mkOverrideFields (Some "marketplace_purchase") (Some false))))
              (SampleAccounts.admin_env 9000)) as (_ & Hother & _); [done|].
  by apply (Hother (mkUser "member-1" None)).
Defined.

(** What a serving of admin-overrides amounts to: either it writes nothing,
    is not a PUT answered 200, and does not depend on the clock, or it is
    the update of an existing flag by the administrator. *)
Lemma admin_overrides_cases req env s :
  ((admin_overrides req env s).1 = s ∧
   (ar_method req = "PUT" → a_status (admin_overrides req env s).2 ≠ 200) ∧
   ∀ env', same_faults env env' →
     admin_overrides req env' s = admin_overrides req env s) ∨
  ∃ user feature_key enabled,
    ar_method req = "PUT" ∧ ar_user req = Some user ∧
    isAdmin (ae_admin_member_id env) (user_id user) = true ∧
    ar_json req = Some (mkOverrideFields (Some feature_key) (Some enabled)) ∧
    falsy (Some feature_key) = false ∧
    ae_lookup_error env = false ∧ ae_update_error env = false ∧
    is_Some (override_controls (adb s) !! feature_key) ∧
    admin_overrides req env s =
      (update_control feature_key enabled (ae_now env) s,
       mkAdminResponse 200
         (Controls (if ae_reselect_error env then None
                    else Some (control_rows
                                 (update_control feature_key enabled (ae_now env) s))))).
Proof.
  unfold admin_overrides, handleGet, handlePut.
  destruct (decide (ar_method req = "OPTIONS")) as [Hopt|Hopt].
  { rewrite (bool_decide_eq_true_2 _ Hopt). left. split_and!; [done|congruence|done]. }
  rewrite (bool_decide_eq_false_2 _ Hopt).
  destruct (ar_user req) as [user|]; [|left; by split_and!].
  destruct (isAdmin (ae_admin_member_id env) (user_id user)) eqn:Hadmin; simpl.
  2: { left. split_and!; [done..|]. intros env' (Hid & _). by rewrite Hid, Hadmin. }
  destruct (decide (ar_method req = "GET")) as [Hget|Hget].
  { rewrite (bool_decide_eq_true_2 _ Hget). left. split_and!; [done|congruence|].
    intros env' (Hid & Hsel & _). by rewrite Hid, Hadmin, Hsel. }
  rewrite (bool_decide_eq_false_2 _ Hget).
  destruct (bool_decide (ar_method req = "PUT")) eqn:Hput.
  2: { left. split_and!; [done..|]. intros env' (Hid & _). by rewrite Hid, Hadmin. }
  apply bool_decide_eq_true in Hput.
  destruct (ar_json req) as [[key enabled]|].
  2: { left. split_and!; [done..|]. intros env' (Hid & _). by rewrite Hid, Hadmin. }
  simpl.
  destruct key as [feature_key|].
  2: { left. split_and!; [done..|]. intros env' (Hid & _). by rewrite Hid, Hadmin. }
  destruct enabled as [enabled|].
  2: { left. split_and!; [done..|]. intros env' (Hid & _). by rewrite Hid, Hadmin. }
  destruct (bool_decide (feature_key = "")) eqn:Hkey.
  { left. split_and!; [done..|]. intros env' (Hid & _). by rewrite Hid, Hadmin. }
  destruct (ae_lookup_error env) eqn:Hlookup.
  { left. split_and!; [done..|]. intros env' (Hid & _ & Hlook & _).
    by rewrite Hid, Hadmin, Hlook, Hlookup. }
  destruct (override_controls (adb s) !! feature_key) as [old|] eqn:Hold.
  2: { left. split_and!; [done..|]. intros env' (Hid & _ & Hlook & _).
       by rewrite Hid, Hadmin, Hlook, Hlookup. }
  destruct (ae_update_error env) eqn:Hupdate.
  { left. split_and!; [done..|]. intros env' (Hid & _ & Hlook & Hupd & _).
    by rewrite Hid, Hadmin, Hlook, Hlookup, Hupd, Hupdate. }
  right. exists user, feature_key, enabled. by split_and!.
Qed.

(** X18 — a PUT rewrites one existing flag and nothing else: for every
    request, admin-overrides leaves orders, payouts, files and royalty
    chains as they are, neither creates nor removes a feature key, and a
    flag whose value differs afterwards is the [feature_key] of a PUT body
    and now holds that body's [enabled]; a row whose [updated_at] differs
    afterwards is that same row, stamped with the clock reading of the
    update. *)
Theorem put_rewrites_one_existing_flag
    (s : AdminDB) (req : AdminRequest) (env : AdminEnv) :
  let outcome := admin_overrides req env s in
  let db := adb s in
  let db' := adb outcome.1 in
  orders db' = orders db ∧ payouts db' = payouts db ∧
  files db' = files db ∧
  file_royalty_chain db' = file_royalty_chain db ∧
  dom (override_controls db') = dom (override_controls db) ∧
  (∀ key, override_controls db' !! key ≠ override_controls db !! key →
     ar_method req = "PUT" ∧
     ∃ body, ar_json req = Some body ∧ of_feature_key body = Some key ∧
             of_enabled body = override_controls db' !! key) ∧
  (∀ key, updated_at outcome.1 !! key ≠ updated_at s !! key →
     ar_method req = "PUT" ∧
     ∃ body, ar_json req = Some body ∧ of_feature_key body = Some key ∧
             is_Some (override_controls db !! key) ∧
             updated_at outcome.1 !! key = Some (ae_now env)).
Proof.
  cbn zeta.
  destruct (admin_overrides_cases req env s)
    as [(-> & _) | (user & feature_key & enabled & Hput & _ & _ & Hbody & _ & _ & _
                    & Hold & ->)]; [by split_and!|].
  cbn [fst]. split_and!; try done.
  - simpl. by apply dom_insert_lookup_L.
  - intros key Hdiff. split; [done|]. eexists. split; [exact Hbody|]. simpl in *.
    destruct (decide (feature_key = key)) as [<-|Hne].
    + by rewrite lookup_insert_eq.
    + by rewrite lookup_insert_ne in Hdiff.
  - intros key Hdiff. split; [done|]. eexists. split; [exact Hbody|]. simpl in *.
    destruct (decide (feature_key = key)) as [<-|Hne].
    + by rewrite lookup_insert_eq.
    + by rewrite lookup_insert_ne in Hdiff.
Qed.

(** X19 — a repeated PUT stamps the row again and changes nothing else:
    when a request is served a second time on the state the first serving
    left, with the same database errors and a later clock reading, the
    second answer has the status of the first and every flag keeps its
    value; unless the request is a PUT answered 200 the second serving
    changes nothing and answers as the first did, and for a PUT answered
    200 the [updated_at] of the flag it names, set to the first clock
    reading by the first serving, is the second clock reading afterwards,
    the other rows' [updated_at] being untouched: the second serving
    changes the table whenever the clock has moved. *)
Theorem repeated_put_only_restamps
    (s : AdminDB) (req : AdminRequest) (env env' : AdminEnv) :
  same_faults env env' →
  let once := admin_overrides req env s in
  let twice := admin_overrides req env' once.1 in
  adb twice.1 = adb once.1 ∧
  a_status twice.2 = a_status once.2 ∧
  (ar_method req ≠ "PUT" ∨ a_status once.2 ≠ 200 → twice = once) ∧
  (ar_method req = "PUT" → a_status once.2 = 200 →
   ∃ key, ar_json req ≫= of_feature_key = Some key ∧
     updated_at once.1 !! key = Some (ae_now env) ∧
     updated_at twice.1 !! key = Some (ae_now env') ∧
     (∀ other, other ≠ key → updated_at twice.1 !! other = updated_at s !! other) ∧
     (ae_now env' ≠ ae_now env → twice.1 ≠ once.1)).
Proof.
  intros Hfaults. cbn zeta.
  destruct (admin_overrides_cases req env s)
    as [(Hsame & Hstatus & Hclock) |
        (user & feature_key & enabled & Hput & Huser & Hadmin & Hbody & Hkey
         & Hlookup & Hupdate & Hold & Heq)].
  - rewrite Hsame, (Hclock env' Hfaults). split_and!; [by rewrite Hsame|done..|].
    intros Hp H200. by destruct (Hstatus Hp).
  - destruct Hfaults as (Hid & _ & Hlook & Hupd & _).
    rewrite Heq. cbn [fst snd].
    unfold admin_overrides, handlePut.
    rewrite Hput, Huser, Hid, Hadmin, Hbody. simpl.
    change (bool_decide (feature_key = "")) with (falsy (Some feature_key)).
    rewrite Hkey, Hlook, Hlookup, Hupd, Hupdate, lookup_insert_eq.
    cbn [fst snd a_status]. split_and!; [|done|by intros [?|?]|].
    + unfold update_control, set_override_controls. simpl.
      by rewrite insert_insert_eq.
    + intros _ _. exists feature_key. simpl. split_and!.
      * done.
      * by rewrite lookup_insert_eq.
      * by rewrite lookup_insert_eq.
      * intros other Hother. by rewrite !lookup_insert_ne.
      * intros Hlater Hsame. apply Hlater.
        apply (f_equal (λ s', updated_at s' !! feature_key)) in Hsame.
        simpl in Hsame. rewrite !lookup_insert_eq in Hsame. congruence.
Qed.

Lemma repeated_put_only_restamps_witness :
  updated_at
    (admin_overrides (SampleAccounts.put_flag "marketplace_purchase" false)
       (SampleAccounts.admin_env 9001)
       (admin_overrides (SampleAccounts.put_flag "marketplace_purchase" false)
          (SampleAccounts.admin_env 9000) SampleAccounts.flag_store).1).1
    !! "marketplace_purchase" = Some 9001.
Proof.
  destruct (repeated_put_only_restamps SampleAccounts.flag_store
              (SampleAccounts.put_flag "marketplace_purchase" false)
              (SampleAccounts.admin_env 9000) (SampleAccounts.admin_env 9001))
    as (_ & _ & _ & Hstamp); [done|].
  destruct Hstamp as (key & Hkey & _ & Hsecond & _); [done..|].
  simpl in Hkey. injection Hkey as <-. exact Hsecond.
Defined.

(** X20 — switching purchases off takes effect at the next checkout: after
    the administrator's PUT of [marketplace_purchase] (an existing flag,
    lookup and update succeeding), [isPurchaseEnabled] reads the value that
    was put, and if that value is false every create-checkout request with
    both fields is answered 403 and writes nothing. *)
Theorem purchase_flag_put_then_checkout
    (s : AdminDB) (env : AdminEnv) (user : User) (enabled : bool) :
  user_id user = ADMIN_MEMBER_ID (ae_admin_member_id env) →
  is_Some (override_controls (adb s) !! "marketplace_purchase") →
  ae_lookup_error env = false → ae_update_error env = false →
  let put :=
    mkAdminRequest "PUT" (Some user)
      (Some (mkOverrideFields (Some "marketplace_purchase") (Some enabled))) in
  let db' := adb (admin_overrides put env s).1 in
  isPurchaseEnabled false db' = enabled ∧
  (enabled = false →
   ∀ file_id buyer_email cenv,
     file_id ≠ "" → buyer_email ≠ "" →
     serve (create_checkout (checkout_request file_id buyer_email) cenv) db' =
       (db', error_response 403 "Marketplace purchases are currently disabled")).
Proof.
  intros Hadmin [old Hold] Hlookup Hupdate. cbn zeta.
  unfold admin_overrides, isAdmin, handlePut. simpl.
  rewrite (bool_decide_eq_true_2 _ Hadmin). simpl.
  rewrite Hlookup, Hold, Hupdate. cbn [fst adb update_control].
  assert (Hflag : isPurchaseEnabled false
            (set_override_controls <["marketplace_purchase" := enabled]> (adb s))
            = enabled).
  { unfold isPurchaseEnabled, set_override_controls. simpl.
    by rewrite lookup_insert_eq. }
  split; [done|]. intros -> file_id buyer_email cenv Hf Hb.
  apply checkout_purchase_disabled; [done..|].
  unfold isPurchaseEnabled in *. by destruct (ce_flag_error cenv).
Qed.

Lemma purchase_flag_put_then_checkout_witness :
  isPurchaseEnabled false
    (adb (admin_overrides (SampleAccounts.put_flag "marketplace_purchase" false)
            (SampleAccounts.admin_env 9000) SampleAccounts.flag_store).1) = false.
Proof.
  destruct (purchase_flag_put_then_checkout SampleAccounts.flag_store
              (SampleAccounts.admin_env 9000) SampleAccounts.admin false)
    as [Hflag _];
    [done | by vm_compute; eauto | done | done | exact Hflag].
Defined.

(** X21 — the master switch gates the client only: after the
    administrator's PUT of [master_switch] to false, the client-side
    [isFeatureEnabled] is false for every feature key, while the
    server-side [isPurchaseEnabled] reads what it read before. In general
    the client check of [marketplace_purchase] is the server check and the
    master switch together. *)
Theorem master_switch_gates_client_only
    (s : AdminDB) (env : AdminEnv) (user : User) :
  user_id user = ADMIN_MEMBER_ID (ae_admin_member_id env) →
  is_Some (override_controls (adb s) !! "master_switch") →
  ae_lookup_error env = false → ae_update_error env = false →
  let put :=
    mkAdminRequest "PUT" (Some user)
      (Some (mkOverrideFields (Some "master_switch") (Some false))) in
  let db' := adb (admin_overrides put env s).1 in
  (∀ featureKey, isFeatureEnabled db' featureKey = false) ∧
  isPurchaseEnabled false db' = isPurchaseEnabled false (adb s) ∧
  (∀ db0, isFeatureEnabled db0 "marketplace_purchase" =
          bool_decide (override_controls db0 !! "master_switch" = Some true)
          && isPurchaseEnabled false db0).
Proof.
  intros Hadmin [old Hold] Hlookup Hupdate. cbn zeta.
  unfold admin_overrides, isAdmin, handlePut. simpl.
  rewrite (bool_decide_eq_true_2 _ Hadmin). simpl.
  rewrite Hlookup, Hold, Hupdate. cbn [fst adb update_control]. split_and!.
  - intros featureKey. unfold isFeatureEnabled, set_override_controls. simpl.
    by rewrite lookup_insert_eq.
  - unfold isPurchaseEnabled, set_override_controls. simpl.
    by rewrite lookup_insert_ne.
  - intros db0. unfold isFeatureEnabled, isPurchaseEnabled.
    by destruct (override_controls db0 !! "master_switch") as [[]|].
Qed.

Lemma master_switch_gates_client_only_witness :
  isFeatureEnabled
    (adb (admin_overrides (SampleAccounts.put_flag "master_switch" false)
            (SampleAccounts.admin_env 9000) SampleAccounts.flag_store).1)
    "marketplace_purchase" = false.
Proof.
  destruct (master_switch_gates_client_only SampleAccounts.flag_store
              (SampleAccounts.admin_env 9000) SampleAccounts.admin)
    as [Hclient _];
    [done | by vm_compute; eauto | done | done | apply Hclient].
Defined.

(** ** verify-earning *)

(** X22 — which tiers may earn: [meetsMinimumTier] holds of exactly the
    three tier names emerging, maker and professional; every other string,
    the schema's tiers surging, converging and diverging among them, is
    refused. *)
Theorem earning_tiers (memberTier : string) :
  meetsMinimumTier memberTier = true ↔
  memberTier = "emerging" ∨ memberTier = "maker" ∨ memberTier = "professional".
Proof.
  unfold meetsMinimumTier.
  assert (Hreq : default 999 (TIER_RANK !! MINIMUM_EARNING_TIER) = 1) by by vm_compute.
  rewrite Hreq. cbn zeta. unfold TIER_RANK.
  destruct (decide (memberTier = "design_and_go")) as [->|H0];
    [split; [by vm_compute | by intros [?|[?|?]]]|].
  rewrite lookup_insert_ne by done.
  destruct (decide (memberTier = "emerging")) as [->|H1];
    [split; [by left | by vm_compute]|].
  rewrite lookup_insert_ne by done.
  destruct (decide (memberTier = "maker")) as [->|H2];
    [split; [by right; left | by vm_compute]|].
  rewrite lookup_insert_ne by done.
  destruct (decide (memberTier = "professional")) as [->|H3];
    [split; [by right; right | by vm_compute]|].
  rewrite lookup_singleton_ne by done. simpl.
  split; [done | by intros [?|[?|?]]].
Qed.

Lemma verify_earning_cases req env acc :
  (verify_earning req env acc).1 = acc ∨
  ∃ user member,
    er_user req = Some user ∧
    er_json req = Some (mkEarningFields (Some true) (Some true)) ∧
    ee_member_error env = false ∧ ee_ack_error env = false ∧
    eligible (user_id user) member acc ∧
    verify_earning req env acc = (earned env member acc, onboarding_started env).
Proof.
  unfold verify_earning.
  destruct (bool_decide (er_method req = "OPTIONS")); [by left|].
  destruct (negb (bool_decide (er_method req = "POST"))); [by left|].
  destruct (er_user req) as [user|]; [|by left].
  destruct (er_json req) as [[tax w9]|]; [|by left]. simpl.
  destruct (decide (tax = Some true)) as [->|Htax];
    [|rewrite (bool_decide_eq_false_2 _ Htax); by left].
  destruct (decide (w9 = Some true)) as [->|Hw9];
    [|rewrite (bool_decide_eq_false_2 _ Hw9), orb_true_r; by left].
  simpl.
  destruct (select_single _ _) as [member|] eqn:Hmember; [|by left].
  apply select_single_Some in Hmember as [Herr Hmember].
  destruct (meetsMinimumTier (tier member)) eqn:Htier; [|by left]. simpl.
  destruct (falsy (stripe_account_id member)) eqn:Hacct; [|by left]. simpl.
  destruct (ee_ack_error env) eqn:Hack; [by left|].
  right. exists user, member. by split_and!.
Qed.

Lemma earned_same_standing env member acc :
  member_roles (earned env member acc) = member_roles acc ∧
  Forall2 same_standing (members acc) (members (earned env member acc)).
Proof.
  unfold earned.
  assert (Hack : Forall2 same_standing (members acc)
            (update_where (λ m, m_id m = m_id member) (acknowledge env) (members acc))).
  { by apply update_where_Forall2. }
  destruct (ee_stripe_update_error env); simpl; [done|]. split; [done|].
  unfold update_where.
  apply Forall2_fmap_r, Forall2_fmap_r, Forall_Forall2_diag, Forall_forall.
  intros m _. simpl. by repeat destruct (decide _).
Qed.

(** X23 — verify-earning changes only an eligible member: for every request
    it leaves [member_roles] as they are and every member's id, tier and
    [payout_enabled] as they are, and whenever it changes the tables the
    caller is authenticated, both acknowledgments are [true], the caller's
    member row is found with a tier that may earn and no Stripe account,
    the answer is 200 with the onboarding url, and rows of other members
    are unchanged. *)
Theorem earning_changes_only_an_eligible_member
    (acc : Accounts) (req : EarningRequest) (env : EarningEnv) :
  let outcome := verify_earning req env acc in
  member_roles outcome.1 = member_roles acc ∧
  Forall2 same_standing (members acc) (members outcome.1) ∧
  (outcome.1 ≠ acc →
   ∃ user member,
     er_user req = Some user ∧
     er_json req = Some (mkEarningFields (Some true) (Some true)) ∧
     eligible (user_id user) member acc ∧
     outcome.2 = onboarding_started env ∧
     ∀ m, m ∈ members acc → m_id m ≠ user_id user → m ∈ members outcome.1).
Proof.
  cbn zeta.
  destruct (verify_earning_cases req env acc)
    as [-> | (user & member & Huser & Hjson & _ & _ & Heligible & ->)].
  { split_and!; [done | by apply Forall_Forall2_diag, Forall_true | done]. }
  cbn [fst snd]. destruct (earned_same_standing env member acc) as [Hroles Hmembers].
  split_and!; [done..|]. intros _. exists user, member. split_and!; [done..|].
  intros m Hm Hother.
  destruct Heligible as (Hfound & _). apply single_filter_Some in Hfound as (_ & Hid & _).
  assert (Hkeep : ∀ f l, m ∈ l → m ∈ update_where (λ m0, m_id m0 = m_id member) f l).
  { intros f l Hl. unfold update_where. apply list_elem_of_fmap.
    exists m. split; [|done]. rewrite decide_False; [done|congruence]. }
  unfold earned. destruct (ee_stripe_update_error env); simpl; auto.
Qed.

Section Earned.
Context (acc : Accounts) (user : User) (member : Member) (env : EarningEnv).
Context (Heligible : eligible (user_id user) member acc).

Lemma earned_once :
  ee_member_error env = false → ee_ack_error env = false →
  verify_earning (earning_request user) env acc =
    (earned env member acc, onboarding_started env).
Proof.
  intros Herr Hack. destruct Heligible as (Hfound & Htier & Hacct).
  unfold verify_earning, earning_request. simpl.
  unfold select_single. by rewrite Herr, Hfound, Htier, Hacct, Hack.
Qed.

Lemma member_found_again (f : Member → Member) (l : list Member) (row : Member) :
  (∀ m, m_id (f m) = m_id m) → m_id row = m_id member →
  single (filter (λ m, m_id m = user_id user) l) = Some row →
  single (filter (λ m, m_id m = user_id user)
            (update_where (λ m, m_id m = m_id member) f l)) = Some (f row).
Proof.
  intros Hf Hrow Hfound. rewrite filter_update_where by (intros r; by rewrite Hf).
  apply single_Some in Hfound. rewrite Hfound.
  unfold update_where. simpl. by rewrite decide_True.
Qed.

Lemma earned_member_found :
  single (members_by_id (user_id user) (earned env member acc)) =
    Some (if ee_stripe_update_error env then acknowledge env member
          else store_account (mockAccountId (ee_uuid env)) (acknowledge env member)).
Proof.
  destruct Heligible as (Hfound & _). unfold members_by_id, earned in *.
  destruct (ee_stripe_update_error env); simpl.
  - by apply member_found_again.
  - apply (member_found_again (store_account _)); [done..|].
    by apply member_found_again.
Qed.
End Earned.

(** X24 — a second request conflicts: after verify-earning has gone through
    for an eligible member with the account id stored, a further request of
    that member is answered 409 with the stored account id, whatever the
    acknowledgments' clock and the new random id, and changes nothing. *)
Theorem earning_second_request_conflicts
    (acc : Accounts) (user : User) (member : Member) (env env' : EarningEnv) :
  eligible (user_id user) member acc →
  fault_free_earning env → ee_member_error env' = false →
  let first := verify_earning (earning_request user) env acc in
  first.2 = onboarding_started env ∧
  verify_earning (earning_request user) env' first.1 =
    (first.1,
     mkEarningResponse 409
       (AlreadyOnboarded "You already have a Stripe Connect account"
          (mockAccountId (ee_uuid env)) (payout_enabled member))).
Proof.
  intros Heligible (Herr & Hack & Hstore) Herr'. cbn zeta.
  rewrite (earned_once acc user member env Heligible Herr Hack). cbn [fst snd].
  split; [done|].
  pose proof (earned_member_found acc user member env Heligible) as Hfound.
  rewrite Hstore in Hfound. destruct Heligible as (_ & Htier & _).
  unfold verify_earning, earning_request. simpl.
  unfold select_single. by rewrite Herr', Hfound; simpl; rewrite Htier.
Qed.

Lemma earning_second_request_conflicts_witness :
  e_status
    (verify_earning (earning_request (mkUser "member-1" None))
       SampleAccounts.earning_env
       (verify_earning (earning_request (mkUser "member-1" None))
          SampleAccounts.earning_env SampleAccounts.club).1).2 = 409.
Proof.
  destruct (earning_second_request_conflicts SampleAccounts.club
              (mkUser "member-1" None) SampleAccounts.maker
              SampleAccounts.earning_env SampleAccounts.earning_env)
    as [_ Hsecond]; [by vm_compute | done | done |].
  by rewrite Hsecond.
Defined.

(** X25 — an account id that could not be stored goes unreported: when the
    update that stores the mock account id fails, verify-earning still
    answers 200 with the onboarding url of that account, the member's row
    carries the acknowledgments but no account id, and a further request
    of the member is not refused but answered 200 with the url of another
    account. *)
Theorem unstored_account_goes_unreported
    (acc : Accounts) (user : User) (member : Member) (env env' : EarningEnv) :
  eligible (user_id user) member acc →
  ee_member_error env = false → ee_ack_error env = false →
  ee_stripe_update_error env = true →
  ee_member_error env' = false → ee_ack_error env' = false →
  let first := verify_earning (earning_request user) env acc in
  first.2 = onboarding_started env ∧
  single (members_by_id (user_id user) first.1) = Some (acknowledge env member) ∧
  (verify_earning (earning_request user) env' first.1).2 = onboarding_started env'.
Proof.
  intros Heligible Herr Hack Hstore Herr' Hack'. cbn zeta.
  rewrite (earned_once acc user member env Heligible Herr Hack). cbn [fst snd].
  pose proof (earned_member_found acc user member env Heligible) as Hfound.
  rewrite Hstore in Hfound. split_and!; [done..|].
  assert (Hagain : eligible (user_id user) (acknowledge env member)
                     (earned env member acc)).
  { destruct Heligible as (_ & Htier & Hacct). by split_and!. }
  by rewrite (earned_once _ user _ env' Hagain Herr' Hack').
Qed.

Lemma unstored_account_goes_unreported_witness :
  e_status
    (verify_earning (earning_request (mkUser "member-1" None))
       (mkEarningEnv false false true 7000 7001 "123e4567-e89b-12d3-a456-426614174000")
       SampleAccounts.club).2 = 200.
Proof.
  destruct (unstored_account_goes_unreported SampleAccounts.club
              (mkUser "member-1" None) SampleAccounts.maker
              (mkEarningEnv false false true 7000 7001
                 "123e4567-e89b-12d3-a456-426614174000")
              SampleAccounts.earning_env)
    as [Hfirst _]; [by vm_compute | done..|].
  by rewrite Hfirst.
Defined.

(** ** stripe-onboarding *)

Lemma stripe_onboarding_cases req env acc :
  (stripe_onboarding req env acc).1 = acc ∨
  ∃ account member,
    or_method req = "POST" ∧ falsy (or_signature req) = false ∧
    or_json req = Some (mkAccountEvent (Some "account.updated") (Some account)) ∧
    ac_charges_enabled account = true ∧ oe_member_error env = false ∧
    single (members_by_stripe_account (ac_id account) acc) = Some member ∧
    stripe_onboarding req env acc =
      (onboarded env member acc, mkOnboardingResponse 200 (Onboarded (m_id member))).
Proof.
  unfold stripe_onboarding, verifyConnectSignature.
  destruct (bool_decide (or_method req = "OPTIONS")); [by left|].
  destruct (bool_decide (or_method req = "POST")) eqn:Hpost; [|by left].
  apply bool_decide_eq_true in Hpost. simpl.
  destruct (falsy (or_signature req)) eqn:Hsig; [by left|].
  destruct (or_json req) as [[type object]|]; [|by left]. simpl.
  destruct (decide (type = Some "account.updated")) as [->|Htype];
    [|rewrite (bool_decide_eq_false_2 _ Htype); by left].
  simpl. destruct object as [account|]; [|by left].
  destruct (ac_charges_enabled account) eqn:Henabled; [|by left]. simpl.
  destruct (select_single _ _) as [member|] eqn:Hmember; [|by left].
  apply select_single_Some in Hmember as [Herr Hmember].
  right. exists account, member. by split_and!.
Qed.

Lemma upsert_originator_grows memberId roles :
  upsert_originator memberId roles = roles ∨
  upsert_originator memberId roles = roles ++ [mkMemberRole memberId "originator"].
Proof. unfold upsert_originator. destruct (filter _ roles); auto. Qed.

Lemma upsert_originator_found memberId roles :
  (length (filter (λ r, mr_member_id r = memberId ∧ role r = "originator") roles)
     ≤ 1)%nat →
  ∃ r, filter (λ r, mr_member_id r = memberId ∧ role r = "originator")
         (upsert_originator memberId roles) = [r].
Proof.
  unfold upsert_originator. intros Hlen.
  destruct (filter _ roles) as [|r [|r' rest]] eqn:Hroles.
  - exists (mkMemberRole memberId "originator").
    rewrite filter_app, Hroles. simpl. by rewrite filter_cons, decide_True.
  - exists r. by rewrite Hroles.
  - simpl in Hlen. lia.
Qed.

Lemma upsert_originator_again memberId roles :
  upsert_originator memberId (upsert_originator memberId roles) =
  upsert_originator memberId roles.
Proof.
  unfold upsert_originator at 2.
  destruct (filter _ roles) as [|r rest] eqn:Hroles.
  - unfold upsert_originator. rewrite filter_app, Hroles. simpl.
    by rewrite filter_cons, decide_True.
  - unfold upsert_originator. by rewrite Hroles.
Qed.

Lemma onboarded_writes env member acc :
  Forall2 payouts_enabled_or_same (members acc) (members (onboarded env member acc)) ∧
  (member_roles (onboarded env member acc) = member_roles acc ∨
   member_roles (onboarded env member acc) =
     member_roles acc ++ [mkMemberRole (m_id member) "originator"]).
Proof.
  unfold onboarded.
  assert (Hsame : Forall2 payouts_enabled_or_same (members acc) (members acc)).
  { apply Forall_Forall2_diag, Forall_true. by left. }
  assert (Hupd : Forall2 payouts_enabled_or_same (members acc)
            (update_where (λ m, m_id m = m_id member) enable_payouts (members acc))).
  { apply update_where_Forall2; [by left | by right]. }
  destruct (negb (payout_enabled member) && negb (oe_update_error env)),
           (oe_role_error env); simpl; (split; [done|]);
    auto using upsert_originator_grows.
Qed.

(** X26 — stripe-onboarding only grants: for every request, each row of
    [members] is left as it is or is the same row with [payout_enabled]
    true, and [member_roles] is left as it is or has one originator row
    appended; and a signed POST whose event carries an account object is
    answered 200 whatever the database does. *)
Theorem onboarding_only_grants
    (acc : Accounts) (req : OnboardingRequest) (env : OnboardingEnv) :
  let outcome := stripe_onboarding req env acc in
  Forall2 payouts_enabled_or_same (members acc) (members outcome.1) ∧
  (member_roles outcome.1 = member_roles acc ∨
   ∃ memberId,
     member_roles outcome.1 = member_roles acc ++ [mkMemberRole memberId "originator"]) ∧
  (∀ event account,
     or_method req = "POST" → falsy (or_signature req) = false →
     or_json req = Some event → aev_object event = Some account →
     ob_status outcome.2 = 200).
Proof.
  cbn zeta. split_and!.
  - destruct (stripe_onboarding_cases req env acc)
      as [-> | (account & member & _ & _ & _ & _ & _ & _ & ->)].
    + apply Forall_Forall2_diag, Forall_true. by left.
    + apply onboarded_writes.
  - destruct (stripe_onboarding_cases req env acc)
      as [-> | (account & member & _ & _ & _ & _ & _ & _ & ->)]; [by left|].
    destruct (onboarded_writes env member acc) as [_ [Hsame | Happ]]; [by left|].
    right. by exists (m_id member).
  - intros event account Hpost Hsig Hjson Hobj.
    unfold stripe_onboarding, verifyConnectSignature.
    rewrite Hpost, Hsig, Hjson, Hobj. simpl.
    destruct (negb (bool_decide _)); [done|].
    destruct (negb (ac_charges_enabled account)); [done|].
    by destruct (select_single _ _).
Qed.

Section Onboarded.
Context (acc : Accounts) (signature accountId : string) (member : Member).
Context (env : OnboardingEnv).
Context (Hsignature : signature ≠ "").
Context (Hfound : single (members_by_stripe_account accountId acc) = Some member).

Lemma onboarded_once :
  oe_member_error env = false →
  stripe_onboarding (account_updated signature accountId) env acc =
    (onboarded env member acc, mkOnboardingResponse 200 (Onboarded (m_id member))).
Proof.
  intros Herr. unfold stripe_onboarding, account_updated, verifyConnectSignature.
  simpl. rewrite (bool_decide_eq_false_2 _ Hsignature). simpl.
  unfold select_single. by rewrite Herr, Hfound.
Qed.

Lemma onboarded_member_found :
  ∃ member',
    single (members_by_stripe_account accountId (onboarded env member acc))
      = Some member' ∧
    m_id member' = m_id member ∧
    stripe_account_id member' = stripe_account_id member ∧
    payout_enabled member' =
      payout_enabled member || negb (oe_update_error env).
Proof.
  unfold onboarded, members_by_stripe_account in *.
  destruct (payout_enabled member) eqn:Hpay; simpl.
  - exists member. by destruct (oe_role_error env).
  - destruct (oe_update_error env); simpl.
    + exists member. by destruct (oe_role_error env).
    + exists (enable_payouts member). split_and!; [|done..].
      assert (Hupd :
        single (filter (λ m, stripe_account_id m = Some accountId)
                  (update_where (λ m, m_id m = m_id member) enable_payouts
                     (members acc))) = Some (enable_payouts member)).
      { rewrite filter_update_where by done.
        apply single_Some in Hfound. rewrite Hfound.
        unfold update_where. simpl. by rewrite decide_True. }
      by destruct (oe_role_error env).
Qed.

Lemma onboarded_role_found :
  oe_role_error env = false →
  (length (originator_roles (m_id member) acc) ≤ 1)%nat →
  hasOriginatorRole false (m_id member) (onboarded env member acc) = true.
Proof.
  intros Hrole Hlen. unfold hasOriginatorRole, originator_roles, onboarded in *.
  rewrite Hrole.
  assert (Hroles : ∃ r,
    filter (λ r, mr_member_id r = m_id member ∧ role r = "originator")
      (upsert_originator (m_id member) (member_roles acc)) = [r])
    by by apply upsert_originator_found.
  destruct Hroles as [r Hr].
  destruct (negb (payout_enabled member) && negb (oe_update_error env));
    simpl; by rewrite Hr.
Qed.
End Onboarded.

(** X27 — stripe-onboarding is idempotent: served a second time on the
    tables the first serving left, with the same database errors, a
    request gets the same answer and leaves those tables as they are; a
    replayed [account.updated] grants nothing twice. *)
Theorem onboarding_idempotent
    (acc : Accounts) (req : OnboardingRequest) (env : OnboardingEnv) :
  let once := stripe_onboarding req env acc in
  stripe_onboarding req env once.1 = once.
Proof.
  cbn zeta.
  destruct (stripe_onboarding_cases req env acc)
    as [Hsame | (account & member & Hpost & Hsig & Hjson & Henabled & Herr & Hfound
                 & Heq)].
  { rewrite Hsame. by destruct (stripe_onboarding req env acc). }
  rewrite Heq. cbn [fst]. clear Heq.
  destruct (onboarded_member_found acc (ac_id account) member env Hfound)
    as (member' & Hfound' & Hid & _ & Hpay).
  unfold stripe_onboarding, verifyConnectSignature.
  rewrite Hpost, Hsig, Hjson. simpl. rewrite Henabled. simpl.
  unfold select_single. rewrite Herr, Hfound', Hid, Hpay. f_equal.
  unfold onboarded.
  destruct (payout_enabled member), (oe_update_error env), (oe_role_error env);
    simpl; try done.
  all: unfold set_member_roles; simpl; by rewrite upsert_originator_again.
Qed.

(** X28 — onboarding makes the member an originator: after an
    [account.updated] event with charges enabled for the account of exactly
    one member, served without database errors on tables that hold at most
    one originator row for that member, upload-file's [hasOriginatorRole]
    holds of the member and the member's row has [payout_enabled] true. *)
Theorem onboarding_grants_originator_role
    (acc : Accounts) (signature accountId : string) (member : Member)
    (env : OnboardingEnv) :
  signature ≠ "" →
  single (members_by_stripe_account accountId acc) = Some member →
  (length (originator_roles (m_id member) acc) ≤ 1)%nat →
  fault_free_onboarding env →
  let outcome := stripe_onboarding (account_updated signature accountId) env acc in
  outcome.2 = mkOnboardingResponse 200 (Onboarded (m_id member)) ∧
  hasOriginatorRole false (m_id member) outcome.1 = true ∧
  ∃ member',
    single (members_by_stripe_account accountId outcome.1) = Some member' ∧
    m_id member' = m_id member ∧ payout_enabled member' = true.
Proof.
  intros Hsig Hfound Hlen (Herr & Hupd & Hrole). cbn zeta.
  rewrite (onboarded_once acc signature accountId member env Hsig Hfound Herr).
  cbn [fst snd]. split_and!; [done | by apply onboarded_role_found |].
  destruct (onboarded_member_found acc accountId member env Hfound)
    as (member' & Hfound' & Hid & _ & Hpay).
  exists member'. split_and!; [done..|].
  rewrite Hpay, Hupd. by destruct (payout_enabled member).
Qed.

Lemma onboarding_grants_originator_role_witness :
  hasOriginatorRole false "member-1"
    (stripe_onboarding (account_updated "t=1,v1=abc" "acct_1") SampleAccounts.connect_env
       (mkAccounts
          [mkMember "member-1" "maker" (Some "acct_1") false true None true None]
          [])).1 = true.
Proof.
  destruct (onboarding_grants_originator_role
              (mkAccounts
                 [mkMember "member-1" "maker" (Some "acct_1") false true None true None]
                 [])
              "t=1,v1=abc" "acct_1"
              (mkMember "member-1" "maker" (Some "acct_1") false true None true None)
              SampleAccounts.connect_env)
    as (_ & Hrole & _); [done | by vm_compute | vm_compute; lia | done | exact Hrole].
Defined.

(** ** From acknowledgment to originator *)

Lemma stored_account_found (accountId : string) (env : EarningEnv)
    (member : Member) (l : list Member) :
  filter (λ m, stripe_account_id m = Some accountId) l = [] →
  filter (λ m, stripe_account_id m = Some accountId)
    (update_where (λ m, m_id m = m_id member) (store_account accountId)
       (update_where (λ m, m_id m = m_id member) (acknowledge env) l)) =
  (λ m, store_account accountId (acknowledge env m))
    <$> filter (λ m, m_id m = m_id member) l.
Proof.
  unfold update_where. induction l as [|a l IH]; [done|].
  rewrite filter_cons. destruct (decide (stripe_account_id a = Some accountId))
    as [|Hna]; [done|]. intros Hnone.
  rewrite !fmap_cons, !filter_cons, IH by done. simpl.
  repeat case_decide; simplify_eq/=; done.
Qed.

(** X29 — from acknowledgment to originator: for an eligible member without
    an originator row, verify-earning followed by the [account.updated]
    event (charges enabled) of the account id it stored, both without
    database errors and with no other member holding that account id,
    leaves the member with the originator role, which upload-file's
    [hasOriginatorRole] did not find before the event, and with payouts
    enabled, both acknowledgments recorded and the tier unchanged. *)
Theorem earning_then_onboarding_grants_role
    (acc : Accounts) (user : User) (member : Member)
    (eenv : EarningEnv) (oenv : OnboardingEnv) (signature : string) :
  eligible (user_id user) member acc →
  fault_free_earning eenv → fault_free_onboarding oenv → signature ≠ "" →
  members_by_stripe_account (mockAccountId (ee_uuid eenv)) acc = [] →
  originator_roles (user_id user) acc = [] →
  let accountId := mockAccountId (ee_uuid eenv) in
  let acc1 := (verify_earning (earning_request user) eenv acc).1 in
  let acc2 :=
    (stripe_onboarding (account_updated signature accountId) oenv acc1).1 in
  hasOriginatorRole false (user_id user) acc1 = false ∧
  hasOriginatorRole false (user_id user) acc2 = true ∧
  ∃ member',
    single (members_by_id (user_id user) acc2) = Some member' ∧
    payout_enabled member' = true ∧
    stripe_account_id member' = Some accountId ∧
    tax_acknowledged member' = true ∧ w9_acknowledged member' = true ∧
    tier member' = tier member.
Proof.
  intros Heligible (Herr & Hack & Hstore) (Hoerr & Hupd & Hrole) Hsig Hfresh Hnorole.
  cbn zeta.
  rewrite (earned_once acc user member eenv Heligible Herr Hack). cbn [fst].
  pose proof (earned_member_found acc user member eenv Heligible) as Hmember.
  rewrite Hstore in Hmember.
  set (accountId := mockAccountId (ee_uuid eenv)) in *.
  set (member1 := store_account accountId (acknowledge eenv member)) in *.
  destruct (earned_same_standing eenv member acc) as [Hroles _].
  pose proof Heligible as (Hfound & _).
  pose proof Hfound as Hid. apply single_filter_Some in Hid as (_ & Hid & _).
  assert (Haccount :
    single (members_by_stripe_account accountId (earned eenv member acc))
      = Some member1).
  { unfold members_by_stripe_account, earned. rewrite Hstore. simpl.
    rewrite stored_account_found by done.
    unfold members_by_id in Hfound. apply single_Some in Hfound.
    by rewrite Hid, Hfound. }
  rewrite (onboarded_once _ signature accountId member1 oenv Hsig Haccount Hoerr).
  cbn [fst]. split_and!.
  - unfold hasOriginatorRole, originator_roles in *. by rewrite Hroles, Hnorole.
  - rewrite <- Hid.
    apply (onboarded_role_found (earned eenv member acc) member1 oenv Hrole).
    unfold originator_roles in *. simpl. rewrite Hroles, Hid, Hnorole. simpl. lia.
  - unfold onboarded. rewrite Hupd, Hrole. simpl.
    unfold members_by_id in *.
    destruct (payout_enabled member) eqn:Hpay; simpl.
    + exists member1. by split_and!.
    + exists (enable_payouts member1). split_and!; try done.
      by apply (member_found_again user member1 enable_payouts).
Qed.

Lemma earning_then_onboarding_grants_role_witness :
  hasOriginatorRole false "member-1"
    (stripe_onboarding
       (account_updated "t=1,v1=abc"
          (mockAccountId (ee_uuid SampleAccounts.earning_env)))
       SampleAccounts.connect_env
       (verify_earning (earning_request (mkUser "member-1" None))
          SampleAccounts.earning_env SampleAccounts.club).1).1 = true.
Proof.
  destruct (earning_then_onboarding_grants_role SampleAccounts.club
              (mkUser "member-1" None) SampleAccounts.maker
              SampleAccounts.earning_env SampleAccounts.connect_env "t=1,v1=abc")
    as (_ & Hrole & _);
    [by vm_compute | done | done | done | by vm_compute | by vm_compute |].
  exact Hrole.
Defined.
